(** * esrigrid: the Esri Grid model of [model/esrigrid.go]

    A shallow embedding of the Go package [model] (the [ConcreteEsriGrid]
    struct, its accessors and mutators, and the ASCII grid reader
    [ReadEsriGridFromFile] with its helpers) and of the demonstration
    program [esrigrid.go] that paints a grid, together with the properties
    that the design document states about the package and further
    properties of the code.

    Conventions of the embedding:
    - Go's [int] is [Z], for a platform whose [int] has 64 bits; the only
      arithmetic on it is counting lines and rows, which does not leave the
      64-bit range: [nrows] is at most the number of elements the run-time
      system allocates ([Runtime]), else [make] has ended the call before.
    - Go's [float32] is [spec_float] (IEEE 754 values without payload); the
      package only copies and compares heights, the demonstration program
      subtracts, multiplies and divides them; comparisons and arithmetic
      are those of [SpecFloat] for single precision.
    - a Go [string] is the list of its bytes.
    - a call that can end in a run-time panic returns an [outcome].
    - what the run-time system allocates is an interface ([Runtime]): [make]
      panics for a negative length and for every length that is not
      granted.
    - logging ([log.Printf], [fmt.Printf]) is not part of the state.
    - [fmt.Sscanf], the one library call whose result the package does not
      determine, is an interface ([Sscanf]); the properties of the reader
      hold for every implementation of it.
    - line 162 of the source, [if height = noDataValue { return }], is not a
      comparison; [SetHeight] and the reader take the reading of that line
      as a parameter ([line162]), so that every property says for which
      reading it holds. *)

From Stdlib Require Import ZArith Lia Bool Ascii String SpecFloat.

From stdpp Require Import base tactics option list.

Local Open Scope Z_scope.

(** * The embedding *)

(** ** Basic types *)

Definition float32 : Type := spec_float.

(** The zero value of a [float32] variable or slice element. *)
Definition zero32 : float32 := S754_zero false.

(** Go's [==], [<] and [>] on floats: false as soon as one side is NaN. *)
Definition feq (a b : float32) : bool := SFeqb a b.

Definition flt (a b : float32) : bool := SFltb a b.

Definition fgt (a b : float32) : bool := SFltb b a.

Definition fle (a b : float32) : bool := SFleb a b.

Definition is_nan (a : float32) : bool :=
  match a with S754_nan => true | _ => false end.

Definition gostring : Type := list ascii.

(** What a call does besides mutating its receiver: it returns, or the
    run-time system ends it (index out of range, a length that [make]
    cannot allocate). *)
Inductive outcome (A : Type) : Type :=
| Return (a : A)
| Panic.

Arguments Return {A} a.

Arguments Panic {A}.

Definition obind {A B} (o : outcome A) (k : A -> outcome B) : outcome B :=
  match o with
  | Return a => k a
  | Panic => Panic
  end.

Notation "'do' x <- o ; k" := (obind o (fun x => k))
  (at level 10, x pattern, o at level 100, k at level 200,
   format "'[v' 'do'  x  <-  o ; '/' k ']'").

(** ** The grid *)

Record ConcreteEsriGrid : Type := mkGrid {
  ncols : Z;
  nrows : Z;
  xllcorner : float32;
  yllcorner : float32;
  cellsize : float32;
  noDataValue : float32;
  maxHeight : float32;
  minHeight : float32;
  height : list (list float32);
  minHeightSet : bool;
  maxHeightSet : bool;
  verbose : bool
}.

(** [&ConcreteEsriGrid{}]: every field has its zero value, the matrix is the
    nil slice. *)
Definition MakeEsriGrid : ConcreteEsriGrid :=
  mkGrid 0 0 zero32 zero32 zero32 zero32 zero32 zero32 [] false false false.

Definition Ncols (ceg : ConcreteEsriGrid) : Z := ncols ceg.

Definition Nrows (ceg : ConcreteEsriGrid) : Z := nrows ceg.

Definition Xllcorner (ceg : ConcreteEsriGrid) : float32 := xllcorner ceg.

Definition Yllcorner (ceg : ConcreteEsriGrid) : float32 := yllcorner ceg.

Definition CellSize (ceg : ConcreteEsriGrid) : float32 := cellsize ceg.

Definition NoDataValue (ceg : ConcreteEsriGrid) : float32 := noDataValue ceg.

Definition MaxHeight (ceg : ConcreteEsriGrid) : float32 := maxHeight ceg.

Definition MinHeight (ceg : ConcreteEsriGrid) : float32 := minHeight ceg.

(** Field assignments [ceg.f = v]. *)
Definition SetNCols (ceg : ConcreteEsriGrid) (v : Z) : ConcreteEsriGrid :=
  mkGrid v (nrows ceg) (xllcorner ceg) (yllcorner ceg) (cellsize ceg)
    (noDataValue ceg) (maxHeight ceg) (minHeight ceg) (height ceg)
    (minHeightSet ceg) (maxHeightSet ceg) (verbose ceg).

Definition SetNRows (ceg : ConcreteEsriGrid) (v : Z) : ConcreteEsriGrid :=
  mkGrid (ncols ceg) v (xllcorner ceg) (yllcorner ceg) (cellsize ceg)
    (noDataValue ceg) (maxHeight ceg) (minHeight ceg) (height ceg)
    (minHeightSet ceg) (maxHeightSet ceg) (verbose ceg).

Definition SetXllcorner (ceg : ConcreteEsriGrid) (v : float32) : ConcreteEsriGrid :=
  mkGrid (ncols ceg) (nrows ceg) v (yllcorner ceg) (cellsize ceg)
    (noDataValue ceg) (maxHeight ceg) (minHeight ceg) (height ceg)
    (minHeightSet ceg) (maxHeightSet ceg) (verbose ceg).

Definition SetYllcorner (ceg : ConcreteEsriGrid) (v : float32) : ConcreteEsriGrid :=
  mkGrid (ncols ceg) (nrows ceg) (xllcorner ceg) v (cellsize ceg)
    (noDataValue ceg) (maxHeight ceg) (minHeight ceg) (height ceg)
    (minHeightSet ceg) (maxHeightSet ceg) (verbose ceg).

Definition SetCellSize (ceg : ConcreteEsriGrid) (v : float32) : ConcreteEsriGrid :=
  mkGrid (ncols ceg) (nrows ceg) (xllcorner ceg) (yllcorner ceg) v
    (noDataValue ceg) (maxHeight ceg) (minHeight ceg) (height ceg)
    (minHeightSet ceg) (maxHeightSet ceg) (verbose ceg).

Definition SetNoDataValue (ceg : ConcreteEsriGrid) (v : float32) : ConcreteEsriGrid :=
  mkGrid (ncols ceg) (nrows ceg) (xllcorner ceg) (yllcorner ceg) (cellsize ceg)
    v (maxHeight ceg) (minHeight ceg) (height ceg)
    (minHeightSet ceg) (maxHeightSet ceg) (verbose ceg).

(** The assignments [SetHeight] makes to the unexported fields. *)
Definition with_height (ceg : ConcreteEsriGrid) (m : list (list float32)) : ConcreteEsriGrid :=
  mkGrid (ncols ceg) (nrows ceg) (xllcorner ceg) (yllcorner ceg) (cellsize ceg)
    (noDataValue ceg) (maxHeight ceg) (minHeight ceg) m
    (minHeightSet ceg) (maxHeightSet ceg) (verbose ceg).

Definition with_maxHeight (ceg : ConcreteEsriGrid) (v : float32) (set : bool) : ConcreteEsriGrid :=
  mkGrid (ncols ceg) (nrows ceg) (xllcorner ceg) (yllcorner ceg) (cellsize ceg)
    (noDataValue ceg) v (minHeight ceg) (height ceg)
    (minHeightSet ceg) set (verbose ceg).

Definition with_minHeight (ceg : ConcreteEsriGrid) (v : float32) (set : bool) : ConcreteEsriGrid :=
  mkGrid (ncols ceg) (nrows ceg) (xllcorner ceg) (yllcorner ceg) (cellsize ceg)
    (noDataValue ceg) (maxHeight ceg) v (height ceg)
    set (maxHeightSet ceg) (verbose ceg).

(** ** Slices indexed by a Go [int] *)

(** [s[i]] as an rvalue: a panic (here [None]) outside [0 <= i < len(s)]. *)
Definition index {A} (s : list A) (i : Z) : option A :=
  if i <? 0 then None else s !! Z.to_nat i.

(** [m[row][col] = v]: both index expressions are checked before the store. *)
Definition store (m : list (list float32)) (row col : Z) (v : float32)
  : option (list (list float32)) :=
  match index m row with
  | None => None
  | Some r =>
      match index r col with
      | None => None
      | Some _ => Some (<[Z.to_nat row := <[Z.to_nat col := v]> r]> m)
      end
  end.

(** [Height]: [return ceg.height[row][col]], with no check of its own. *)
Definition Height (ceg : ConcreteEsriGrid) (row col : Z) : outcome float32 :=
  match index (height ceg) row with
  | None => Panic
  | Some r =>
      match index r col with
      | None => Panic
      | Some v => Return v
      end
  end.

(** ** SetHeight

    Line 162 of the source reads [if height = noDataValue { return }]: an
    assignment stands where the comparison [height == ceg.noDataValue] was
    meant.  The embedding keeps both readings apart.  [AsWritten] is the
    statement as it stands: the sentinel is assigned to [height], no
    comparison is left that could fail, and the function returns; the
    extrema below are never reached.  [AsMeant] is the comparison with the
    grid's no-data value that the surrounding code and the comment of the
    [noDataValue] field call for. *)
Inductive line162 : Type := AsWritten | AsMeant.

Definition isNoData (rd : line162) (ceg : ConcreteEsriGrid) (h : float32) : bool :=
  match rd with
  | AsWritten => true
  | AsMeant => feq h (noDataValue ceg)
  end.

Definition SetHeight (rd : line162) (ceg : ConcreteEsriGrid) (row col : Z) (h : float32)
  : outcome ConcreteEsriGrid :=
  if (row >=? nrows ceg) || (col >=? ncols ceg) then Return ceg
  else
    match store (height ceg) row col h with
    | None => Panic
    | Some m =>
        let ceg := with_height ceg m in
        if isNoData rd ceg h then Return ceg
        else
          let ceg :=
            if maxHeightSet ceg then
              if fgt h (maxHeight ceg) then with_maxHeight ceg h (maxHeightSet ceg) else ceg
            else with_maxHeight ceg h true in
          let ceg :=
            if minHeightSet ceg then
              if flt h (minHeight ceg) then with_minHeight ceg h (minHeightSet ceg) else ceg
            else with_minHeight ceg h true in
          Return ceg
    end.

(** ** Strings: [strings.TrimSpace], the regular expression, [strings.Split] *)

Definition code (c : ascii) : N := N_of_ascii c.

Definition nl : ascii := ascii_of_N 10.

Definition sp : ascii := ascii_of_N 32.

Definition tab : ascii := ascii_of_N 9.

(** The ASCII white space of [strings.TrimSpace]: tab, line feed, vertical
    tab, form feed, carriage return and space. *)
Definition asciiSpace (c : ascii) : bool :=
  ((9 <=? code c) && (code c <=? 13) || (code c =? 32))%N.

(** The other runes of [unicode.IsSpace], by their UTF-8 encodings: U+0085
    and U+00A0 on two bytes; U+1680, U+2000..U+200A, U+2028, U+2029, U+202F,
    U+205F and U+3000 on three. *)
Definition spaceRune2 (c d : ascii) : bool :=
  ((code c =? 194) && ((code d =? 133) || (code d =? 160)))%N.

Definition spaceRune3 (c d e : ascii) : bool :=
  ((code c =? 225) && (code d =? 154) && (code e =? 128)
   || (code c =? 226) && (code d =? 128)
        && ((128 <=? code e) && (code e <=? 138)
            || (code e =? 168) || (code e =? 169) || (code e =? 175))
   || (code c =? 226) && (code d =? 129) && (code e =? 159)
   || (code c =? 227) && (code d =? 128) && (code e =? 128))%N.

(** [strings.TrimLeftFunc(s, unicode.IsSpace)]: runes are decoded from the
    front; a byte that starts no white-space rune ends the trimming. *)
Fixpoint TrimLeft (s : gostring) : gostring :=
  match s with
  | [] => []
  | c :: s1 =>
      if asciiSpace c then TrimLeft s1
      else
        match s1 with
        | d :: s2 =>
            if spaceRune2 c d then TrimLeft s2
            else
              match s2 with
              | e :: s3 => if spaceRune3 c d e then TrimLeft s3 else s
              | [] => s
              end
        | [] => s
        end
  end.

(** The same from the back, on the reversed string: the last rune is the
    one whose encoding ends the string. *)
Fixpoint TrimLeftRev (s : gostring) : gostring :=
  match s with
  | [] => []
  | e :: s1 =>
      if asciiSpace e then TrimLeftRev s1
      else
        match s1 with
        | d :: s2 =>
            if spaceRune2 d e then TrimLeftRev s2
            else
              match s2 with
              | c :: s3 => if spaceRune3 c d e then TrimLeftRev s3 else s
              | [] => s
              end
        | [] => s
        end
  end.

Definition TrimRight (s : gostring) : gostring := rev (TrimLeftRev (rev s)).

Definition TrimSpace (s : gostring) : gostring := TrimRight (TrimLeft s).

(** [regexp.MustCompile("  +").ReplaceAllLiteralString(s, " ")]: the pattern
    is two spaces followed by [+], so every maximal run of two or more
    space characters becomes one space; nothing else is touched. *)
Fixpoint ReplaceAllLiteralString (s : gostring) : gostring :=
  match s with
  | [] => []
  | c :: s1 =>
      match s1 with
      | d :: _ =>
          if Ascii.eqb c sp && Ascii.eqb d sp then ReplaceAllLiteralString s1
          else c :: ReplaceAllLiteralString s1
      | [] => [c]
      end
  end.

Inductive error : Type :=
| EOF          (* io.EOF *)
| ScanError    (* the error of fmt.Sscanf *)
| PathError.   (* the error of os.Open *)

(** [stripSpaces]: the pattern is a constant that compiles, so the error is
    always nil. *)
Definition stripSpaces (s : gostring) : gostring * option error :=
  let s := TrimSpace s in
  (ReplaceAllLiteralString s, None).

(** [strings.Split(s, sep)] for a one-byte separator. *)
Fixpoint Split (s : gostring) (sep : ascii) : list gostring :=
  match s with
  | [] => [[]]
  | c :: s1 =>
      if Ascii.eqb c sep then [] :: Split s1 sep
      else
        match Split s1 sep with
        | t :: ts => (c :: t) :: ts
        | [] => [[c]]
        end
  end.

(** ** The reader *)

(** A [bufio.Reader] over the opened file: the bytes not yet read. *)
Definition Reader : Type := gostring.

(** [r.ReadString(delim)]: the bytes up to and including the first [delim];
    when the input ends first, what was left together with [io.EOF]. *)
Fixpoint ReadString (r : Reader) (delim : ascii) : gostring * option error * Reader :=
  match r with
  | [] => ([], Some EOF, [])
  | c :: r1 =>
      if Ascii.eqb c delim then ([c], None, r1)
      else
        let '(s, err, r2) := ReadString r1 delim in
        (c :: s, err, r2)
  end.

(** [fmt.Sscanf(tok, "%d", &result)] into an [int] and
    [fmt.Sscanf(tok, "%f", &f)] into a [float32]: library code, taken as an
    interface.  [None] is a non-nil error. *)
Class Sscanf : Type := {
  Sscanf_d : gostring -> option Z;
  Sscanf_f : gostring -> option float32
}.

(** [make([]T, n)] allocates [n] elements of the size of [T].  The
    run-time system ([makeslice]) panics when [n] is negative and when the
    [n] elements are more bytes than its limit for one object
    ([makeslice: len out of range]); an allocation within the limit for
    which no memory is left ends the program as well.  The limit depends on
    the platform, the memory on what was allocated before: what is granted
    is an interface.  [allocates k mem] says whether allocation number [k]
    of the matrix in a call of [ReadEsriGridFromFile] (counted from 0: the
    slice of the rows, then the rows in their order), of [mem] bytes, is
    granted.  A granted size fits an [int]. *)
Class Runtime : Type := {
  allocates : Z -> Z -> bool;
  allocates_int : forall k mem, allocates k mem = true -> mem < 2 ^ 63
}.

(** The size in bytes of a [float32], and of a slice header ([[]float32],
    three words) where [int] has 64 bits. *)
Definition float32Size : Z := 4.

Definition sliceSize : Z := 24.

(** ** Reading the file *)

Section Reading.

Context `{Scan : Sscanf} `{Run : Runtime}.

(** [readIntFromHeader]: the value, the error and the reader it leaves.
    The comparison of [field[0]] with [fieldName] only writes to the log;
    [field[1]] is indexed without a check of [len(field)]. *)
Definition readIntFromHeader (r : Reader) (fieldName : gostring) (verbose : bool)
  : outcome (Z * option error * Reader) :=
  let '(line, err, r) := ReadString r nl in
  match err with
  | Some e => Return (0, Some e, r)
  | None =>
      let '(line, _) := stripSpaces line in
      let field := Split line sp in
      match field !! 0%nat with
      | None => Panic
      | Some _ =>
          match field !! 1%nat with
          | None => Panic
          | Some tok =>
              match Sscanf_d tok with
              | None => Return (0, Some ScanError, r)
              | Some result => Return (result, None, r)
              end
          end
      end
  end.

Definition readFloat32FromHeader (r : Reader) (fieldName : gostring) (verbose : bool)
  : outcome (float32 * option error * Reader) :=
  let '(line, err, r) := ReadString r nl in
  match err with
  | Some e => Return (zero32, Some e, r)
  | None =>
      let '(line, _) := stripSpaces line in
      let field := Split line sp in
      match field !! 0%nat with
      | None => Panic
      | Some _ =>
          match field !! 1%nat with
          | None => Panic
          | Some tok =>
              match Sscanf_f tok with
              | None => Return (zero32, Some ScanError, r)
              | Some result => Return (result, None, r)
              end
          end
      end
  end.

(** [make([]T, n)] as allocation number [k], for elements of [size] bytes:
    the call ends for a negative length and for a size that is not granted,
    else there are [n] zero values. *)
Definition make {A} (k size : Z) (zero : A) (n : Z) : outcome (list A) :=
  if (n <? 0) || negb (allocates k (size * n)) then Panic
  else Return (replicate (Z.to_nat n) zero).

(** [for i := 0; i < ceg.nrows; i++ { ceg.height[i] = make([]float32, ceg.ncols) }],
    [todo] iterations from row [i] on.  The row [i] is allocation number
    [i + 1]: the slice of the rows is allocated first. *)
Fixpoint allocRows (todo : nat) (i : Z) (n : Z) (m : list (list float32))
  : outcome (list (list float32)) :=
  match todo with
  | O => Return m
  | S todo =>
      do row <- make (i + 1) float32Size zero32 n;
      allocRows todo (i + 1) n (<[Z.to_nat i := row]> m)
  end.

(** [for col := range numbers { ... }] of one data line, from column [col]
    on.  The result is the grid and the error the enclosing function
    returns with, if any. *)
Fixpoint scanRow (rd : line162) (ceg : ConcreteEsriGrid) (row col : Z)
    (numbers : list gostring) (verbose : bool)
  : outcome (ConcreteEsriGrid * option error) :=
  match numbers with
  | [] => Return (ceg, None)
  | tok :: numbers =>
      match Sscanf_f tok with
      | None => Return (ceg, Some ScanError)
      | Some f =>
          do ceg <- SetHeight rd ceg row col f;
          do _ <- (if verbose then Height ceg row col else Return f);
          scanRow rd ceg row (col + 1) numbers verbose
      end
  end.

(** [for row := 0; ; row++ { ... }].  Every iteration starts with a
    [ReadString] that takes at least one byte or ends the loop, so [fuel]
    bounds the iterations by the length of the input; [None] is "out of
    fuel", which [dataLoop_total] excludes. *)
Fixpoint dataLoop (fuel : nat) (rd : line162) (ceg : ConcreteEsriGrid) (r : Reader)
    (row lineNum linesExpected : Z) (verbose : bool)
  : option (outcome (ConcreteEsriGrid * option error)) :=
  match fuel with
  | O => None
  | S fuel =>
      let '(line, err, r) := ReadString r nl in
      match err with
      | Some _ => Some (Return (ceg, None))                          (* break *)
      | None =>
          let lineNum := lineNum + 1 in
          if lineNum >? linesExpected then Some (Return (ceg, None)) (* break *)
          else
            let '(line, err) := stripSpaces line in
            match err with
            | Some e => Some (Return (ceg, Some e))
            | None =>
                let numbers := Split line sp in
                if Z.of_nat (length numbers) >? ncols ceg then
                  dataLoop fuel rd ceg r (row + 1) lineNum linesExpected verbose
                else if Z.of_nat (length numbers) <? ncols ceg then
                  dataLoop fuel rd ceg r (row + 1) lineNum linesExpected verbose
                else
                  match scanRow rd ceg row 0 numbers verbose with
                  | Panic => Some Panic
                  | Return (ceg, Some e) => Some (Return (ceg, Some e))
                  | Return (ceg, None) =>
                      dataLoop fuel rd ceg r (row + 1) lineNum linesExpected verbose
                  end
            end
      end
  end.

(** [ReadEsriGridFromFile].  [file] is what [os.Open(filename)] finds:
    [None] when the file cannot be opened, else its bytes.  The result is
    the grid as the call leaves it and the error it returns. *)
Definition ReadEsriGridFromFile (rd : line162) (ceg : ConcreteEsriGrid)
    (file : option gostring) (verbose : bool)
  : outcome (ConcreteEsriGrid * option error) :=
  match file with
  | None => Return (ceg, Some PathError)
  | Some bytes =>
      let r : Reader := bytes in
      let lineNum := 0 in
      do (v, err, r) <- readIntFromHeader r (list_ascii_of_string "ncols") verbose;
      let ceg := SetNCols ceg v in
      match err with Some e => Return (ceg, Some e) | None =>
      let lineNum := lineNum + 1 in
      do (v, err, r) <- readIntFromHeader r (list_ascii_of_string "nrows") verbose;
      let ceg := SetNRows ceg v in
      match err with Some e => Return (ceg, Some e) | None =>
      let lineNum := lineNum + 1 in
      do m <- make 0 sliceSize [] (nrows ceg);
      do m <- allocRows (Z.to_nat (nrows ceg)) 0 (ncols ceg) m;
      let ceg := with_height ceg m in
      do (v, err, r) <- readFloat32FromHeader r (list_ascii_of_string "xllcorner") verbose;
      let ceg := SetXllcorner ceg v in
      match err with Some e => Return (ceg, Some e) | None =>
      let lineNum := lineNum + 1 in
      do (v, err, r) <- readFloat32FromHeader r (list_ascii_of_string "yllcorner") verbose;
      let ceg := SetYllcorner ceg v in
      match err with Some e => Return (ceg, Some e) | None =>
      let lineNum := lineNum + 1 in
      do (v, err, r) <- readFloat32FromHeader r (list_ascii_of_string "cellsize") verbose;
      let ceg := SetCellSize ceg v in
      match err with Some e => Return (ceg, Some e) | None =>
      let lineNum := lineNum + 1 in
      do (v, err, r) <- readFloat32FromHeader r (list_ascii_of_string "NODATA_value") verbose;
      let ceg := SetNoDataValue ceg v in
      match err with Some e => Return (ceg, Some e) | None =>
      let lineNum := lineNum + 1 in
      let linesExpected := nrows ceg + 6 in
      match dataLoop (S (length r)) rd ceg r 0 lineNum linesExpected verbose with
      | Some o => o
      | None => Panic
      end
      end end end end end end
  end.

End Reading.

(** ** The demonstration program ([esrigrid.go])

    [main] reads a grid and paints it into a PNG picture, one pixel for a
    cell, in shades of grey.  Of the packages it uses, [image] and
    [image/color] are modelled as far as [main] goes: rectangles, an RGBA
    picture as the colour of every point, and [Set].  The command line, as
    [flag.Parse] and [flag.Visit] deliver it, and what [os.Create] and
    [os.Open] answer are the arguments of [main]. *)

(** [float32] arithmetic: IEEE 754 single precision, round to nearest even. *)
Definition fsub (a b : float32) : float32 := SFsub 24 128 a b.

Definition fmul (a b : float32) : float32 := SFmul 24 128 a b.

Definition fdiv (a b : float32) : float32 := SFdiv 24 128 a b.

(** [float32(n)] for an [int]. *)
Definition float32_of_int (n : Z) : float32 := binary_normalize 24 128 n 0 false.

(** The integer part of a float (the fraction is discarded); none for an
    infinity or a NaN. *)
Definition truncate (x : float32) : option Z :=
  match x with
  | S754_zero _ => Some 0
  | S754_finite s m e =>
      Some (cond_Zopp s (match e with
                         | Zneg p => Z.pos m / 2 ^ Z.pos p
                         | _ => Z.pos m * 2 ^ e
                         end))
  | _ => None
  end.

(** [uint8(x)] for a [float32]: the integer part when it is a value of
    [uint8].  When it is not, the conversion succeeds with a value that the
    language leaves to the implementation: [uint8_other]. *)
Class Conversion : Type := {
  uint8_other : float32 -> Z
}.

Definition uint8 `{Conv : Conversion} (x : float32) : Z :=
  match truncate x with
  | Some z => if (0 <=? z) && (z <=? 255) then z else uint8_other x mod 256
  | None => uint8_other x mod 256
  end.

Definition NUMBER_OF_SHADES : Z := 256.

(** [shade]: the [Y] of the [color.Gray] it returns.  The subtraction is
    one of [uint8], modulo 256. *)
Definition shade `{Conv : Conversion} (floor ceiling height : float32) : Z :=
  let height := fsub height floor in
  let ceiling := fsub ceiling floor in
  let shade :=
    ((NUMBER_OF_SHADES - 1) mod 256
     - uint8 (fdiv (fmul height (float32_of_int NUMBER_OF_SHADES)) ceiling)) mod 256 in
  shade.

(** [image.Rectangle], and [image.Rect], which puts the corners in order. *)
Record Rectangle : Type := mkRectangle {
  MinX : Z;
  MinY : Z;
  MaxX : Z;
  MaxY : Z
}.

Definition Rect (x0 y0 x1 y1 : Z) : Rectangle :=
  let '(x0, x1) := if x0 >? x1 then (x1, x0) else (x0, x1) in
  let '(y0, y1) := if y0 >? y1 then (y1, y0) else (y0, y1) in
  mkRectangle x0 y0 x1 y1.

(** [Point{x, y}.In(r)]. *)
Definition PointIn (x y : Z) (r : Rectangle) : bool :=
  (MinX r <=? x) && (x <? MaxX r) && (MinY r <=? y) && (y <? MaxY r).

(** [color.RGBA]: red, green, blue and alpha. *)
Definition Color : Type := (Z * Z * Z * Z)%type.

(** [color.RGBAModel.Convert(color.Gray{y})]. *)
Definition Gray (y : Z) : Color := (y, y, y, 255).

(** [image.RGBA]: the bounds and the colour at every point. *)
Record RGBA : Type := mkRGBA {
  Bounds : Rectangle;
  Pix : Z -> Z -> Color
}.

(** [image.NewRGBA(r)]: every pixel is zero. *)
Definition NewRGBA (r : Rectangle) : RGBA := mkRGBA r (fun _ _ => (0, 0, 0, 0)).

(** [img.Set(x, y, color.Gray{s})]: nothing outside the bounds. *)
Definition RGBA_Set (p : RGBA) (x y : Z) (s : Z) : RGBA :=
  if PointIn x y (Bounds p) then
    mkRGBA (Bounds p) (fun x' y' => if (x' =? x) && (y' =? y) then Gray s else Pix p x' y')
  else p.

(** What [main] gets from its environment: the names of the flags given on
    the command line ([flag.Visit]), whether [os.Create(output)] succeeds,
    what [os.Open(filename)] finds, and the [verbose] flag.  The values of
    [-floor] and [-ceiling] go to [floor64] and [ceiling64], which [main]
    never reads. *)
Record CommandLine : Type := mkCommandLine {
  flagset : gostring -> bool;
  created : bool;
  input : option gostring;
  verbose_flag : bool
}.

Section Demonstration.

Context `{Scan : Sscanf} `{Run : Runtime} `{Conv : Conversion}.

(** [for col := 0; col < pc.Ncols(); col++ { ... }], [todo] iterations from
    column [col] on. *)
Fixpoint paintRow (todo : nat) (pc : ConcreteEsriGrid) (floor ceiling : float32)
    (row col : Z) (img : RGBA) : outcome RGBA :=
  match todo with
  | O => Return img
  | S todo =>
      do h <- Height pc row col;
      let s := shade floor ceiling h in
      paintRow todo pc floor ceiling row (col + 1) (RGBA_Set img col row s)
  end.

(** [for row := 0; row < pc.Nrows(); row++ { ... }], [todo] iterations from
    row [row] on. *)
Fixpoint paintRows (todo : nat) (pc : ConcreteEsriGrid) (floor ceiling : float32)
    (row : Z) (img : RGBA) : outcome RGBA :=
  match todo with
  | O => Return img
  | S todo =>
      do img <- paintRow (Z.to_nat (Ncols pc)) pc floor ceiling row 0 img;
      paintRows todo pc floor ceiling (row + 1) img
  end.

(** [main]: the picture handed to [png.Encode], or none when [main] returns
    before.  The package variables [floor] and [ceiling] are zero until
    [main] assigns them. *)
Definition main (rd : line162) (cl : CommandLine) : outcome (option RGBA) :=
  if negb (created cl) then Return None
  else
    let pc := MakeEsriGrid in
    do (pc, err) <- ReadEsriGridFromFile rd pc (input cl) (verbose_flag cl);
    match err with
    | Some _ => Return None
    | None =>
        let floor := zero32 in
        let ceiling := zero32 in
        let floor :=
          if negb (flagset cl (list_ascii_of_string "floor")
                   || flagset cl (list_ascii_of_string "f"))
          then MinHeight pc else floor in
        let ceiling :=
          if negb (flagset cl (list_ascii_of_string "ceiling")
                   || flagset cl (list_ascii_of_string "f"))
          then MaxHeight pc else ceiling in
        let img := NewRGBA (Rect 0 0 (Nrows pc) (Ncols pc)) in
        do img <- paintRows (Z.to_nat (Nrows pc)) pc floor ceiling 0 img;
        Return (Some img)
    end.

End Demonstration.

(** * The vocabulary of the properties

    The definitions of this part are not code of the package: they are the
    notions the properties are stated with, the scanner the examples are
    run with, and the example grids and files. *)

(** ** Grids *)

(** Grid [b] has the dimensions and the header values of grid [a]. *)
Definition sameHeader (a b : ConcreteEsriGrid) : Prop :=
  ncols b = ncols a /\ nrows b = nrows a /\ xllcorner b = xllcorner a
  /\ yllcorner b = yllcorner a /\ cellsize b = cellsize a
  /\ noDataValue b = noDataValue a /\ verbose b = verbose a.

(** A matrix as [ReadEsriGridFromFile] allocates it: [nrows] rows of
    [ncols] cells. *)
Definition allocated (ceg : ConcreteEsriGrid) : Prop :=
  Z.of_nat (length (height ceg)) = nrows ceg
  /\ Forall (fun r => Z.of_nat (length r) = ncols ceg) (height ceg).

(** A call of one of the six scalar setters. *)
Inductive setter : Type :=
| CallSetNCols (v : Z)
| CallSetNRows (v : Z)
| CallSetXllcorner (v : float32)
| CallSetYllcorner (v : float32)
| CallSetCellSize (v : float32)
| CallSetNoDataValue (v : float32).

Definition call (ceg : ConcreteEsriGrid) (s : setter) : ConcreteEsriGrid :=
  match s with
  | CallSetNCols v => SetNCols ceg v
  | CallSetNRows v => SetNRows ceg v
  | CallSetXllcorner v => SetXllcorner ceg v
  | CallSetYllcorner v => SetYllcorner ceg v
  | CallSetCellSize v => SetCellSize ceg v
  | CallSetNoDataValue v => SetNoDataValue ceg v
  end.

(** A sequence of calls of [SetHeight]. *)
Fixpoint SetHeights (rd : line162) (ceg : ConcreteEsriGrid) (calls : list (Z * Z * float32))
  : outcome ConcreteEsriGrid :=
  match calls with
  | [] => Return ceg
  | (row, col, h) :: calls =>
      do ceg <- SetHeight rd ceg row col h;
      SetHeights rd ceg calls
  end.

(** The state of the extrema after the samples [seen] (those that are not the
    no-data value) were written. *)
Definition extremaOf (ceg : ConcreteEsriGrid) (seen : list float32) : Prop :=
  minHeightSet ceg = maxHeightSet ceg
  /\ (maxHeightSet ceg = false -> seen = [])
  /\ (maxHeightSet ceg = true ->
      fle (minHeight ceg) (maxHeight ceg) = true
      /\ Forall (fun v => fle (minHeight ceg) v = true /\ fle v (maxHeight ceg) = true) seen).

(** The samples of a sequence of calls that are not the no-data value, the
    last call first. *)
Fixpoint samplesOf (nd : float32) (calls : list (Z * Z * float32)) (seen : list float32)
  : list float32 :=
  match calls with
  | [] => seen
  | (_, _, h) :: calls => samplesOf nd calls (if feq h nd then seen else h :: seen)
  end.

(** The grid as the six header lines leave it, before the first data
    line: the header values, and the matrix of zeros. *)
Definition afterHeader (ceg0 : ConcreteEsriGrid) (nc nr : Z) (x y cs nd : float32)
  : ConcreteEsriGrid :=
  SetNoDataValue
    (SetCellSize
       (SetYllcorner
          (SetXllcorner
             (with_height (SetNRows (SetNCols ceg0 nc) nr)
                (replicate (Z.to_nat nr) (replicate (Z.to_nat nc) zero32)))
             x)
          y)
       cs)
    nd.

(** ** Lines and tokens *)

Definition bytes (s : string) : gostring := list_ascii_of_string s.

(** A text file: every line is followed by a line feed. *)
Definition unlines (ls : list gostring) : gostring :=
  concat (map (fun l => l ++ [nl]) ls).

(** The tokens the reader sees in a line as [ReadString] delivers it:
    [strings.Split(stripSpaces(line), " ")]. *)
Definition tokens (line : gostring) : list gostring :=
  Split (fst (stripSpaces line)) sp.

(** Printable ASCII other than the space: the bytes numerals and field names
    are made of. *)
Definition graphic (c : ascii) : bool := ((33 <=? code c) && (code c <=? 126))%N.

Definition plainToken (t : gostring) : Prop :=
  t <> [] /\ Forall (fun c => graphic c = true) t.

(** A first token and further tokens, each after one or more spaces: [n]
    stands for [S n] spaces. *)
Definition spaced (t : gostring) (rest : list (nat * gostring)) : gostring :=
  t ++ concat (map (fun p => replicate (S (fst p)) sp ++ snd p) rest).

(** Tokens separated by single spaces. *)
Definition joinSp (toks : list gostring) : gostring :=
  match toks with
  | [] => []
  | t :: ts => spaced t (map (fun t' => (O, t')) ts)
  end.

(** The header readers on a line whose second token is [tok]. *)
Definition secondToken (line tok : gostring) : Prop :=
  (nl ∉ line) /\ (tokens (line ++ [nl]) !! 1%nat = Some tok).

(** A header line: a name, one or more spaces ([hgap] more than one) and a
    value. *)
Record HeaderLine : Type := mkHeaderLine {
  hname : gostring;
  hgap : nat;
  hvalue : gostring
}.

Definition headerLine (h : HeaderLine) : gostring :=
  spaced (hname h) [(hgap h, hvalue h)].

Definition plainHeader (h : HeaderLine) : Prop :=
  plainToken (hname h) /\ plainToken (hvalue h).

(** A string in which no space follows a space. *)
Fixpoint single (s : gostring) : Prop :=
  match s with
  | c :: s1 =>
      match s1 with
      | d :: _ => (c = sp -> d = sp -> False) /\ single s1
      | [] => True
      end
  | [] => True
  end.

(** ** What a file holds for the reader *)

Section Vocabulary.
Context `{Scan : Sscanf} `{Run : Runtime}.

(** The values of a data line: those of its tokens, when there are [n] of
    them and all scan. *)
Definition rowOf (n : Z) (line : gostring) : option (list float32) :=
  let toks := tokens (line ++ [nl]) in
  if Z.of_nat (length toks) =? n then mapM Sscanf_f toks else None.

(** A data line that cannot end the reading with an error: it has no line
    feed inside, and either not [n] tokens or tokens that all scan. *)
Definition lineOK (n : Z) (line : gostring) : Prop :=
  (nl ∉ line)
  /\ (Z.of_nat (length (tokens (line ++ [nl]))) <> n
      \/ is_Some (mapM Sscanf_f (tokens (line ++ [nl])))).

(** Line [k] of the data goes to row [row + k], if that row exists and the
    line has its [n] values; nothing else changes. *)
Fixpoint fillRows (n : Z) (m : list (list float32)) (row : nat) (ls : list gostring)
  : list (list float32) :=
  match ls with
  | [] => m
  | l :: ls =>
      fillRows n (match rowOf n l with Some vs => <[row := vs]> m | None => m end)
        (S row) ls
  end.

(** Six header lines whose second tokens scan as the six header values. *)
Definition headerReads (hs : list gostring) (nc nr : Z) (x y cs nd : float32) : Prop :=
  exists h1 h2 h3 h4 h5 h6 t1 t2 t3 t4 t5 t6,
    hs = [h1; h2; h3; h4; h5; h6]
    /\ secondToken h1 t1 /\ Sscanf_d t1 = Some nc
    /\ secondToken h2 t2 /\ Sscanf_d t2 = Some nr
    /\ secondToken h3 t3 /\ Sscanf_f t3 = Some x
    /\ secondToken h4 t4 /\ Sscanf_f t4 = Some y
    /\ secondToken h5 t5 /\ Sscanf_f t5 = Some cs
    /\ secondToken h6 t6 /\ Sscanf_f t6 = Some nd.

(** Six header lines, in the order of the format, whose values scan as
    [nc], [nr], [x], [y], [cs] and [nd].  The reader does not insist on the
    names. *)
Definition goodHeader (hs : list HeaderLine) (nc nr : Z) (x y cs nd : float32) : Prop :=
  exists h1 h2 h3 h4 h5 h6,
    hs = [h1; h2; h3; h4; h5; h6]
    /\ Forall plainHeader hs
    /\ Sscanf_d (hvalue h1) = Some nc /\ Sscanf_d (hvalue h2) = Some nr
    /\ Sscanf_f (hvalue h3) = Some x /\ Sscanf_f (hvalue h4) = Some y
    /\ Sscanf_f (hvalue h5) = Some cs /\ Sscanf_f (hvalue h6) = Some nd.

(** A data line of the format: [nc] plain tokens that scan, one space
    between them. *)
Definition goodRow (nc : Z) (toks : list gostring) : Prop :=
  Z.of_nat (length toks) = nc
  /\ Forall plainToken toks
  /\ Forall (fun t => is_Some (Sscanf_f t)) toks.

(** The value of header line [k] (counted from 0) can be read: the line has
    a second token, and [Sscanf] accepts it as an integer (lines 0 and 1)
    or as a float (lines 2 to 5). *)
Definition valueReadable (k : nat) (line : gostring) : Prop :=
  exists tok, tokens (line ++ [nl]) !! 1%nat = Some tok
              /\ if (k <? 2)%nat then is_Some (Sscanf_d tok) else is_Some (Sscanf_f tok).

(** The second token is there and [Sscanf] refuses it. *)
Definition valueUnreadable (k : nat) (line : gostring) : Prop :=
  exists tok, tokens (line ++ [nl]) !! 1%nat = Some tok
              /\ if (k <? 2)%nat then Sscanf_d tok = None else Sscanf_f tok = None.

Definition headerInt (line : gostring) : option Z :=
  match tokens (line ++ [nl]) !! 1%nat with
  | Some tok => Sscanf_d tok
  | None => None
  end.

(** The run-time system grants the allocations of a matrix of [nr] rows
    and [nc] columns: the slice of the rows, then every row. *)
Definition matrixAllocates (nr nc : Z) : Prop :=
  allocates 0 (sliceSize * nr) = true
  /\ forall i, 0 <= i < nr -> allocates (i + 1) (float32Size * nc) = true.

(** The dimensions the first two header lines give can be allocated: they
    are not negative and the run-time system grants the matrix. *)
Definition dimensionsOK (good : list gostring) : Prop :=
  forall l1 l2 nc nr,
    good !! 0%nat = Some l1 -> good !! 1%nat = Some l2 ->
    headerInt l1 = Some nc -> headerInt l2 = Some nr ->
    0 <= nr /\ 0 <= nc /\ matrixAllocates nr nc.

(** The part of [ReadEsriGridFromFile] before the loop over the data lines
    (lines 226 to 290): the grid as the header lines leave it, with the
    error the function returns with or the reader it hands to the loop. *)
Definition headerPart (ceg : ConcreteEsriGrid) (file : gostring) (verbose : bool)
  : outcome (ConcreteEsriGrid * (error + Reader)) :=
  do (v, err, r) <- readIntFromHeader file (list_ascii_of_string "ncols") verbose;
  let ceg := SetNCols ceg v in
  match err with Some e => Return (ceg, inl e) | None =>
  do (v, err, r) <- readIntFromHeader r (list_ascii_of_string "nrows") verbose;
  let ceg := SetNRows ceg v in
  match err with Some e => Return (ceg, inl e) | None =>
  do m <- make 0 sliceSize [] (nrows ceg);
  do m <- allocRows (Z.to_nat (nrows ceg)) 0 (ncols ceg) m;
  let ceg := with_height ceg m in
  do (v, err, r) <- readFloat32FromHeader r (list_ascii_of_string "xllcorner") verbose;
  let ceg := SetXllcorner ceg v in
  match err with Some e => Return (ceg, inl e) | None =>
  do (v, err, r) <- readFloat32FromHeader r (list_ascii_of_string "yllcorner") verbose;
  let ceg := SetYllcorner ceg v in
  match err with Some e => Return (ceg, inl e) | None =>
  do (v, err, r) <- readFloat32FromHeader r (list_ascii_of_string "cellsize") verbose;
  let ceg := SetCellSize ceg v in
  match err with Some e => Return (ceg, inl e) | None =>
  do (v, err, r) <- readFloat32FromHeader r (list_ascii_of_string "NODATA_value") verbose;
  let ceg := SetNoDataValue ceg v in
  match err with Some e => Return (ceg, inl e) | None =>
  Return (ceg, inr r)
  end end end end end end.

(** The sample [Height] returns for a cell, zero where it panics. *)
Definition sample (ceg : ConcreteEsriGrid) (row col : Z) : float32 :=
  match Height ceg row col with
  | Return h => h
  | Panic => zero32
  end.

(** Grid [b] has the dimensions, the header values and the samples of grid
    [a]. *)
Definition sameContent (a b : ConcreteEsriGrid) : Prop :=
  ncols b = ncols a /\ nrows b = nrows a /\ xllcorner b = xllcorner a
  /\ yllcorner b = yllcorner a /\ cellsize b = cellsize a
  /\ noDataValue b = noDataValue a /\ height b = height a.

(** Grid [b] has the extrema, and their flags, of grid [a]. *)
Definition sameExtrema (a b : ConcreteEsriGrid) : Prop :=
  maxHeight b = maxHeight a /\ minHeight b = minHeight a
  /\ maxHeightSet b = maxHeightSet a /\ minHeightSet b = minHeightSet a.

End Vocabulary.

(** ** The demonstration program *)

(** A float that is a number: zero or finite. *)
Definition finite (x : float32) : bool :=
  match x with
  | S754_zero _ | S754_finite _ _ _ => true
  | _ => false
  end.

(** A float that is neither zero nor a NaN. *)
Definition nonzero (x : float32) : bool :=
  match x with
  | S754_finite _ _ _ | S754_infinity _ => true
  | _ => false
  end.

(** The floor and the ceiling [main] paints with: the extrema of the grid,
    or zero when the command line names the flags that lines 65 and 70 of
    [esrigrid.go] test. *)
Definition floorOf (cl : CommandLine) (pc : ConcreteEsriGrid) : float32 :=
  if flagset cl (list_ascii_of_string "floor") || flagset cl (list_ascii_of_string "f")
  then zero32 else MinHeight pc.

Definition ceilingOf (cl : CommandLine) (pc : ConcreteEsriGrid) : float32 :=
  if flagset cl (list_ascii_of_string "ceiling") || flagset cl (list_ascii_of_string "f")
  then zero32 else MaxHeight pc.

(** An implementation of the conversions the language leaves open, to run
    the program with: they give zero. *)
#[local] Instance zeroConversion : Conversion := {| uint8_other := fun _ => 0 |}.

(** ** A scanner for plain decimal numerals

    [plainScan] stands for [fmt.Sscanf] on tokens that are plain decimal
    numerals: an optional sign, digits, and for ["%f"] an optional point
    and more digits, with at least one digit.  On such a token [Sscanf]
    stores the integer, respectively the [float32] nearest to the decimal
    value, and an error is returned when the value is out of range.  Every
    other token is refused here, although [Sscanf] reads some of them (a
    numeral followed by other bytes, an exponent, [Inf], [NaN]); the
    instance serves to run the reader on concrete files, the properties of
    the reader are proved for every [Sscanf]. *)

Definition isDigit (c : ascii) : bool := ((48 <=? code c) && (code c <=? 57))%N.

Definition digitVal (c : ascii) : Z := Z.of_N (code c) - 48.

(** The digits at the front of [s]: the number they spell after [acc], how
    many there are, and what follows them. *)
Fixpoint scanDigits (s : gostring) (acc : Z) (n : nat) : Z * nat * gostring :=
  match s with
  | c :: s1 => if isDigit c then scanDigits s1 (10 * acc + digitVal c) (S n) else (acc, n, s)
  | [] => (acc, n, [])
  end.

(** An optional sign: whether it is a minus, and the rest. *)
Definition scanSign (s : gostring) : bool * gostring :=
  match s with
  | c :: s1 =>
      if (code c =? 45)%N then (true, s1)
      else if (code c =? 43)%N then (false, s1)
      else (false, s)
  | [] => (false, [])
  end.

Definition plain_d (tok : gostring) : option Z :=
  let '(neg, s) := scanSign tok in
  let '(v, n, rest) := scanDigits s 0 0 in
  match n, rest with
  | S _, [] =>
      let v := if neg then - v else v in
      if (- 2 ^ 63 <=? v) && (v <? 2 ^ 63) then Some v else None
  | _, _ => None
  end.

(** The [float32] nearest to [m / 10^k], ties to even. *)
Definition decimal32 (neg : bool) (m : Z) (k : nat) : float32 :=
  match m with
  | Z0 => S754_zero neg
  | _ =>
      let '(q, e, l) := SFdiv_core_binary 24 128 m 0 (10 ^ Z.of_nat k) 0 in
      binary_round_aux 24 128 neg q e l
  end.

Definition plain_f (tok : gostring) : option float32 :=
  let '(neg, s) := scanSign tok in
  let '(v, n, rest) := scanDigits s 0 0 in
  let '(m, k, digits, rest) :=
    match rest with
    | c :: s1 =>
        if (code c =? 46)%N then
          let '(m, k, rest) := scanDigits s1 v 0 in (m, k, (n + k)%nat, rest)
        else (v, O, n, rest)
    | [] => (v, O, n, [])
    end in
  match digits, rest with
  | S _, [] =>
      match decimal32 neg m k with
      | S754_infinity _ => None
      | f => Some f
      end
  | _, _ => None
  end.

#[local] Instance plainScan : Sscanf := {| Sscanf_d := plain_d; Sscanf_f := plain_f |}.

(** ** A run-time system to run the reader with

    It grants every allocation of at most 2^48 bytes, the limit of
    [makeslice] on linux/amd64, whatever was allocated before. *)
Definition maxAlloc : Z := 2 ^ 48.

Definition grants (k mem : Z) : bool := mem <=? maxAlloc.

#[local] Instance limitRuntime : Runtime :=
  {| allocates := grants;
     allocates_int := fun k mem (H : grants k mem = true) =>
       Z.le_lt_trans mem maxAlloc (2 ^ 63) (proj1 (Z.leb_le mem maxAlloc) H) eq_refl |}.

(** The [float32] of an integer. *)
Definition ofZ (z : Z) : float32 := binary_normalize 24 128 z 0 false.

(** ** Example grids and files *)

(** A one-by-one grid with the no-data value of the documentation, as the
    reader leaves it before the first data line. *)
Definition grid1 : ConcreteEsriGrid :=
  with_height (SetNoDataValue (SetNRows (SetNCols MakeEsriGrid 1) 1) (ofZ (-9999)))
    [[zero32]].

(** The file of the format documentation (README and the comment at the
    head of [ReadEsriGridFromFile]). *)
Definition exampleLines : list gostring :=
  [ bytes "ncols         4";
    bytes "nrows         6";
    bytes "xllcorner     0.0";
    bytes "yllcorner     0.0";
    bytes "cellsize      50.0";
    bytes "NODATA_value  -9999";
    bytes "-9999 -9999 5 2";
    bytes "-9999 20 100 36";
    bytes "3 8 35 10";
    bytes "32 42 50 6";
    bytes "88 75 27 9";
    bytes "13 5 1 -9999" ].

Definition exampleFile : gostring := unlines exampleLines.

(** The same file without the line feed after its last line. *)
Definition exampleUnfinished : gostring :=
  unlines (removelast exampleLines) ++ bytes "13 5 1 -9999".

Definition exampleHeader : list HeaderLine :=
  [ mkHeaderLine (bytes "ncols") 8 (bytes "4");
    mkHeaderLine (bytes "nrows") 8 (bytes "6");
    mkHeaderLine (bytes "xllcorner") 4 (bytes "0.0");
    mkHeaderLine (bytes "yllcorner") 4 (bytes "0.0");
    mkHeaderLine (bytes "cellsize") 5 (bytes "50.0");
    mkHeaderLine (bytes "NODATA_value") 1 (bytes "-9999") ].

Definition exampleRows : list (list gostring) :=
  [ [bytes "-9999"; bytes "-9999"; bytes "5"; bytes "2"];
    [bytes "-9999"; bytes "20"; bytes "100"; bytes "36"];
    [bytes "3"; bytes "8"; bytes "35"; bytes "10"];
    [bytes "32"; bytes "42"; bytes "50"; bytes "6"];
    [bytes "88"; bytes "75"; bytes "27"; bytes "9"];
    [bytes "13"; bytes "5"; bytes "1"; bytes "-9999"] ].

(** A file for a grid of three rows and two columns whose second data line
    is one token short. *)
Definition shortHeader : list HeaderLine :=
  [ mkHeaderLine (bytes "ncols") 0 (bytes "2");
    mkHeaderLine (bytes "nrows") 0 (bytes "3");
    mkHeaderLine (bytes "xllcorner") 0 (bytes "0.0");
    mkHeaderLine (bytes "yllcorner") 0 (bytes "0.0");
    mkHeaderLine (bytes "cellsize") 0 (bytes "50.0");
    mkHeaderLine (bytes "NODATA_value") 0 (bytes "-9999") ].

Definition shortData : list gostring :=
  [ bytes "1 2"; bytes "3"; bytes "5 6" ].

(** * Properties *)

(** ** Slices *)

Lemma index_Some {A} (s : list A) (i : Z) (x : A) :
  index s i = Some x <-> 0 <= i /\ s !! Z.to_nat i = Some x.
Proof.
  unfold index. destruct (Z.ltb_spec i 0); split.
  - discriminate.
  - intros [? _]. lia.
  - auto.
  - tauto.
Qed.

Lemma index_None {A} (s : list A) (i : Z) :
  index s i = None <-> i < 0 \/ Z.of_nat (length s) <= i.
Proof.
  unfold index. destruct (Z.ltb_spec i 0).
  - split; auto.
  - rewrite lookup_ge_None. split; [intros; right; lia | intros [|]; lia].
Qed.

Lemma index_neg {A} (s : list A) (i : Z) : i < 0 -> index s i = None.
Proof. intros. apply index_None. auto. Qed.

Lemma index_in_range {A} (s : list A) (i : Z) :
  0 <= i < Z.of_nat (length s) -> exists x, index s i = Some x.
Proof.
  intros Hi. destruct (index s i) eqn:E; eauto.
  apply index_None in E. lia.
Qed.

Lemma store_Some m row col v m' :
  store m row col v = Some m' <->
  exists r old, index m row = Some r /\ index r col = Some old
                /\ m' = <[Z.to_nat row := <[Z.to_nat col := v]> r]> m.
Proof.
  unfold store. split.
  - destruct (index m row) as [r|]; [|discriminate].
    destruct (index r col) as [old|] eqn:E; [|discriminate].
    intros [= <-]. by exists r, old.
  - intros (r & old & -> & -> & ->). reflexivity.
Qed.

Lemma store_None m row col v :
  store m row col v = None <->
  index m row = None \/ exists r, index m row = Some r /\ index r col = None.
Proof.
  unfold store. destruct (index m row) as [r|].
  - destruct (index r col) eqn:E.
    + split; [discriminate|]. intros [|(r' & [= <-] & ?)]; congruence.
    + split; eauto.
  - tauto.
Qed.

(** ** Height and SetHeight, call by call *)

Lemma Height_Return ceg row col v :
  Height ceg row col = Return v <->
  exists r, index (height ceg) row = Some r /\ index r col = Some v.
Proof.
  unfold Height. split.
  - destruct (index (height ceg) row) as [r|]; [|discriminate].
    destruct (index r col) eqn:E; [|discriminate].
    intros [= <-]. eauto.
  - intros (r & -> & ->). reflexivity.
Qed.

Lemma Height_Panic ceg row col :
  Height ceg row col = Panic <-> store (height ceg) row col zero32 = None.
Proof.
  unfold Height, store. destruct (index (height ceg) row) as [r|]; [|tauto].
  destruct (index r col); split; congruence.
Qed.

Lemma store_None_any m row col v w :
  store m row col v = None -> store m row col w = None.
Proof. rewrite !store_None. auto. Qed.

Lemma Height_with_store ceg m row col v :
  store (height ceg) row col v = Some m ->
  Height (with_height ceg m) row col = Return v.
Proof.
  intros (r & old & Hr & Hc & ->)%store_Some.
  apply index_Some in Hr as [Hrow Hr]. apply index_Some in Hc as [Hcol Hc].
  apply Height_Return. exists (<[Z.to_nat col := v]> r). split.
  - apply index_Some. split; [done|]. simpl.
    apply list_lookup_insert_eq. by eapply lookup_lt_Some.
  - apply index_Some. split; [done|].
    apply list_lookup_insert_eq. by eapply lookup_lt_Some.
Qed.

(** The guard lets the call through: the store is attempted. *)
Lemma SetHeight_past_guard rd ceg row col h :
  row < nrows ceg -> col < ncols ceg ->
  SetHeight rd ceg row col h =
    match store (height ceg) row col h with
    | None => Panic
    | Some m =>
        let ceg := with_height ceg m in
        if isNoData rd ceg h then Return ceg
        else
          let ceg :=
            if maxHeightSet ceg then
              if fgt h (maxHeight ceg) then with_maxHeight ceg h (maxHeightSet ceg) else ceg
            else with_maxHeight ceg h true in
          let ceg :=
            if minHeightSet ceg then
              if flt h (minHeight ceg) then with_minHeight ceg h (minHeightSet ceg) else ceg
            else with_minHeight ceg h true in
          Return ceg
    end.
Proof.
  intros Hr Hc. unfold SetHeight.
  destruct (Z.geb_spec row (nrows ceg)), (Z.geb_spec col (ncols ceg)); simpl; try lia.
  reflexivity.
Qed.

Lemma sameHeader_refl a : sameHeader a a.
Proof. by repeat split. Qed.

Lemma sameHeader_trans a b c : sameHeader a b -> sameHeader b c -> sameHeader a c.
Proof. unfold sameHeader. intros H1 H2. destruct_and!. repeat split; congruence. Qed.

Lemma allocated_cell ceg row col :
  allocated ceg -> 0 <= row < nrows ceg -> 0 <= col < ncols ceg ->
  exists v, Height ceg row col = Return v.
Proof.
  intros [Hlen Hrows] Hrow Hcol.
  destruct (index_in_range (height ceg) row) as [r Hr]; [lia|].
  assert (Z.of_nat (length r) = ncols ceg) as Hr'.
  { apply index_Some in Hr as [_ Hr].
    eapply Forall_lookup_1 in Hrows; eauto. }
  destruct (index_in_range r col) as [v Hv]; [lia|].
  exists v. apply Height_Return. eauto.
Qed.

(** ** C1: a no-data sample *)

(** C1.  A call [SetHeight(row, col, value)] with the indices in range and
    [value] equal to the no-data value of the grid leaves [MinHeight()],
    [MaxHeight()] and the two flags as they were, and the cell holds [value]
    afterwards; this is so for the statement of line 162 as written and as
    meant.  The call can only fail to return when the matrix has no such
    cell, and then nothing was assigned either. *)
Theorem SetHeight_noData (rd : line162) (ceg : ConcreteEsriGrid) (row col : Z)
    (value : float32) :
  0 <= row < nrows ceg -> 0 <= col < ncols ceg ->
  feq value (noDataValue ceg) = true ->
  match SetHeight rd ceg row col value with
  | Return ceg' =>
      MinHeight ceg' = MinHeight ceg /\ MaxHeight ceg' = MaxHeight ceg
      /\ minHeightSet ceg' = minHeightSet ceg /\ maxHeightSet ceg' = maxHeightSet ceg
      /\ sameHeader ceg ceg'
      /\ Height ceg' row col = Return value
  | Panic => Height ceg row col = Panic
  end.
Proof.
  intros Hrow Hcol Hnd.
  rewrite SetHeight_past_guard by lia.
  destruct (store (height ceg) row col value) as [m|] eqn:Hst.
  - cbv zeta.
    assert (isNoData rd (with_height ceg m) value = true) as ->.
    { destruct rd; [reflexivity | exact Hnd]. }
    repeat split. by apply Height_with_store.
  - apply Height_Panic. by eapply store_None_any.
Qed.

Lemma SetHeight_returns rd ceg row col value :
  allocated ceg -> 0 <= row < nrows ceg -> 0 <= col < ncols ceg ->
  exists ceg', SetHeight rd ceg row col value = Return ceg'.
Proof.
  intros Ha Hrow Hcol.
  destruct (allocated_cell ceg row col Ha Hrow Hcol) as [v0 Hv0].
  rewrite SetHeight_past_guard by lia.
  destruct (store (height ceg) row col value) as [m|] eqn:Hst.
  - cbv zeta. repeat match goal with |- context [if ?b then _ else _] => destruct b end; eauto.
  - eapply store_None_any in Hst. apply Height_Panic in Hst. congruence.
Qed.

Lemma SetHeight_noData_witness :
  (0 <= 0 < nrows grid1) /\ (0 <= 0 < ncols grid1)
  /\ feq (ofZ (-9999)) (noDataValue grid1) = true
  /\ match SetHeight AsWritten grid1 0 0 (ofZ (-9999)) with
     | Return ceg' =>
         MinHeight ceg' = MinHeight grid1 /\ MaxHeight ceg' = MaxHeight grid1
         /\ minHeightSet ceg' = minHeightSet grid1 /\ maxHeightSet ceg' = maxHeightSet grid1
         /\ sameHeader grid1 ceg'
         /\ Height ceg' 0 0 = Return (ofZ (-9999))
     | Panic => Height grid1 0 0 = Panic
     end.
Proof.
  split; [vm_compute; split; [discriminate | reflexivity] |].
  split; [vm_compute; split; [discriminate | reflexivity] |].
  split; [reflexivity |].
  apply (SetHeight_noData AsWritten grid1 0 0 (ofZ (-9999))).
  - vm_compute; split; [discriminate | reflexivity].
  - vm_compute; split; [discriminate | reflexivity].
  - reflexivity.
Defined.

(** ** C5: indices out of range *)

(** C5, as the code has it.  When [row >= nrows] or [col >= ncols] the call
    returns and the grid is the one it was given: matrix, extrema, flags and
    header fields are untouched. *)
Theorem SetHeight_out_of_range (rd : line162) (ceg : ConcreteEsriGrid) (row col : Z)
    (value : float32) :
  row >= nrows ceg \/ col >= ncols ceg ->
  SetHeight rd ceg row col value = Return ceg.
Proof.
  intros Hout. unfold SetHeight.
  destruct (Z.geb_spec row (nrows ceg)), (Z.geb_spec col (ncols ceg)); simpl; try done.
  lia.
Qed.

Lemma SetHeight_out_of_range_witness :
  (7 >= nrows grid1 \/ 0 >= ncols grid1)
  /\ SetHeight AsWritten grid1 7 0 (ofZ 5) = Return grid1.
Proof.
  split.
  - left. vm_compute. discriminate.
  - apply (SetHeight_out_of_range AsWritten grid1 7 0 (ofZ 5)).
    left. vm_compute. discriminate.
Defined.

(** C5 as stated fails below zero: the guard of [SetHeight] compares with the
    upper bounds only, so row -1 of a one-by-one grid passes it and the
    store [ceg.height[-1][0] = height] panics instead of returning. *)
Lemma SetHeight_negative_row :
  ~ (0 <= -1 < nrows grid1 /\ 0 <= 0 < ncols grid1)
  /\ SetHeight AsWritten grid1 (-1) 0 (ofZ 5) = Panic
  /\ SetHeight AsMeant grid1 (-1) 0 (ofZ 5) = Panic
  /\ SetHeight AsWritten grid1 (-1) 0 (ofZ 5) <> Return grid1.
Proof.
  split; [intros [[H _] _]; by apply H |].
  repeat split. discriminate.
Qed.

(** Below zero in general: an index under zero that the guard lets through
    ends in a panic, whatever the matrix is. *)
Lemma SetHeight_negative rd ceg row col value :
  row < nrows ceg -> col < ncols ceg -> row < 0 \/ col < 0 ->
  SetHeight rd ceg row col value = Panic.
Proof.
  intros Hr Hc Hneg. rewrite SetHeight_past_guard by lia.
  assert (store (height ceg) row col value = None) as ->; [|done].
  apply store_None. destruct (index (height ceg) row) as [r|] eqn:E; [|by left].
  right. exists r. split; [done|].
  destruct Hneg as [Hneg|Hneg].
  - apply index_Some in E. lia.
  - by apply index_neg.
Qed.

(** ** C9: Height *)

(** C9.  [Height] indexes the matrix without a check.  On a grid whose
    matrix is allocated ([nrows] rows of [ncols] cells) it returns a value
    exactly for [0 <= row < nrows] and [0 <= col < ncols] and panics for every
    other index; on a grid whose matrix is absent it panics for every index. *)
Theorem Height_unchecked (ceg : ConcreteEsriGrid) (row col : Z) :
  (allocated ceg ->
     (0 <= row < nrows ceg /\ 0 <= col < ncols ceg -> exists v, Height ceg row col = Return v)
     /\ (~ (0 <= row < nrows ceg /\ 0 <= col < ncols ceg) -> Height ceg row col = Panic))
  /\ (height ceg = [] -> Height ceg row col = Panic).
Proof.
  split.
  - intros Ha. split.
    + intros [? ?]. by apply allocated_cell.
    + intros Hout. destruct (Height ceg row col) as [v|] eqn:E; [|done].
      exfalso. apply Hout.
      apply Height_Return in E as (r & Hr & Hv).
      destruct Ha as [Hlen Hrows].
      apply index_Some in Hr as [? Hr]. apply index_Some in Hv as [? Hv].
      pose proof (lookup_lt_Some _ _ _ Hr). pose proof (lookup_lt_Some _ _ _ Hv).
      eapply Forall_lookup_1 in Hrows; eauto. simpl in Hrows. lia.
  - intros Hnil. unfold Height. rewrite Hnil.
    unfold index. destruct (row <? 0); [done|]. by rewrite lookup_nil.
Qed.

Lemma Height_unchecked_witness :
  allocated grid1
  /\ (exists v, Height grid1 0 0 = Return v)
  /\ Height grid1 1 0 = Panic
  /\ Height grid1 0 (-1) = Panic
  /\ Height MakeEsriGrid 0 0 = Panic.
Proof.
  assert (allocated grid1) as Ha.
  { split; [reflexivity|]. repeat constructor. }
  split; [exact Ha|].
  destruct (Height_unchecked grid1 0 0) as [H00 _].
  destruct (Height_unchecked grid1 1 0) as [H10 _].
  destruct (Height_unchecked grid1 0 (-1)) as [H0m _].
  destruct (Height_unchecked MakeEsriGrid 0 0) as [_ Hnil].
  split; [apply (proj1 (H00 Ha)); simpl; lia |].
  split; [apply (proj2 (H10 Ha)); simpl; lia |].
  split; [apply (proj2 (H0m Ha)); simpl; lia |].
  apply Hnil. reflexivity.
Defined.

(** ** C10: the scalar setters *)

Lemma call_height ceg s : height (call ceg s) = height ceg.
Proof. by destruct s. Qed.

Lemma calls_height ceg ss : height (foldl call ceg ss) = height ceg.
Proof.
  revert ceg. induction ss as [|s ss IH]; intros ceg; [done|].
  simpl. by rewrite IH, call_height.
Qed.

(** C10.  [SetNCols] and [SetNRows] assign their field and nothing else; in
    particular the matrix stays what it was.  So on a grid made by
    [MakeEsriGrid] and sized through the setters alone the matrix is still
    absent, and every [SetHeight] with [0 <= row < nrows] and
    [0 <= col < ncols] panics on the store instead of writing a cell. *)
Theorem setters_do_not_allocate (rd : line162) (calls : list setter) (row col : Z)
    (value : float32) :
  (forall ceg v, height (SetNCols ceg v) = height ceg /\ nrows (SetNCols ceg v) = nrows ceg
                 /\ ncols (SetNCols ceg v) = v)
  /\ (forall ceg v, height (SetNRows ceg v) = height ceg /\ ncols (SetNRows ceg v) = ncols ceg
                    /\ nrows (SetNRows ceg v) = v)
  /\ height (foldl call MakeEsriGrid calls) = []
  /\ (0 <= row < nrows (foldl call MakeEsriGrid calls) ->
      0 <= col < ncols (foldl call MakeEsriGrid calls) ->
      SetHeight rd (foldl call MakeEsriGrid calls) row col value = Panic).
Proof.
  split; [done|]. split; [done|].
  assert (height (foldl call MakeEsriGrid calls) = []) as Hnil by apply calls_height.
  split; [done|].
  intros Hrow Hcol. rewrite SetHeight_past_guard by lia.
  rewrite Hnil. unfold store, index. destruct (row <? 0); [done|]. by rewrite lookup_nil.
Qed.

Lemma setters_do_not_allocate_witness :
  (0 <= 2 < nrows (foldl call MakeEsriGrid [CallSetNCols 4; CallSetNRows 6]))
  /\ (0 <= 3 < ncols (foldl call MakeEsriGrid [CallSetNCols 4; CallSetNRows 6]))
  /\ SetHeight AsWritten (foldl call MakeEsriGrid [CallSetNCols 4; CallSetNRows 6]) 2 3 (ofZ 5)
     = Panic.
Proof.
  split; [vm_compute; split; [discriminate | reflexivity] |].
  split; [vm_compute; split; [discriminate | reflexivity] |].
  apply (setters_do_not_allocate AsWritten [CallSetNCols 4; CallSetNRows 6] 2 3 (ofZ 5)).
  - vm_compute; split; [discriminate | reflexivity].
  - vm_compute; split; [discriminate | reflexivity].
Defined.

(** ** Lines and tokens *)

Lemma graphic_not_space c : graphic c = true -> asciiSpace c = false.
Proof.
  unfold graphic, asciiSpace. intros H.
  apply andb_true_iff in H as [H1 H2].
  apply N.leb_le in H1. apply N.leb_le in H2.
  apply orb_false_iff. split.
  - apply andb_false_iff. right. apply N.leb_gt. lia.
  - apply N.eqb_neq. lia.
Qed.

Lemma graphic_low c : graphic c = true -> (code c < 128)%N.
Proof.
  unfold graphic. intros H. apply andb_true_iff in H as [_ H2].
  apply N.leb_le in H2. lia.
Qed.

Lemma graphic_not_sp c : graphic c = true -> Ascii.eqb c sp = false.
Proof.
  intros H. apply Ascii.eqb_neq. intros ->. discriminate H.
Qed.

Lemma spaceRune2_low_l c d : (code c < 128)%N -> spaceRune2 c d = false.
Proof.
  intros H. unfold spaceRune2. apply andb_false_iff. left. apply N.eqb_neq. lia.
Qed.

Lemma spaceRune2_low_r c d : (code d < 128)%N -> spaceRune2 c d = false.
Proof.
  intros H. unfold spaceRune2. apply andb_false_iff. right.
  apply orb_false_iff. split; apply N.eqb_neq; lia.
Qed.

Lemma spaceRune3_low_l c d e : (code c < 128)%N -> spaceRune3 c d e = false.
Proof.
  intros H. unfold spaceRune3.
  assert ((code c =? 225) = false)%N as -> by (apply N.eqb_neq; lia).
  assert ((code c =? 226) = false)%N as -> by (apply N.eqb_neq; lia).
  assert ((code c =? 227) = false)%N as -> by (apply N.eqb_neq; lia).
  reflexivity.
Qed.

Lemma spaceRune3_low_r c d e : (code e < 128)%N -> spaceRune3 c d e = false.
Proof.
  intros H. unfold spaceRune3.
  assert ((code e =? 128) = false)%N as -> by (apply N.eqb_neq; lia).
  assert ((128 <=? code e) = false)%N as -> by (apply N.leb_gt; lia).
  assert ((code e =? 168) = false)%N as -> by (apply N.eqb_neq; lia).
  assert ((code e =? 169) = false)%N as -> by (apply N.eqb_neq; lia).
  assert ((code e =? 175) = false)%N as -> by (apply N.eqb_neq; lia).
  assert ((code e =? 159) = false)%N as -> by (apply N.eqb_neq; lia).
  simpl. rewrite !andb_false_r. reflexivity.
Qed.

(** Trimming stops at a printable byte, from either end. *)
Lemma TrimLeft_graphic c s : graphic c = true -> TrimLeft (c :: s) = c :: s.
Proof.
  intros H. simpl. rewrite (graphic_not_space c H).
  pose proof (graphic_low c H) as Hlow.
  destruct s as [|d s]; [done|].
  rewrite (spaceRune2_low_l c d Hlow).
  destruct s as [|e s]; [done|].
  by rewrite (spaceRune3_low_l c d e Hlow).
Qed.

Lemma TrimLeftRev_graphic c s : graphic c = true -> TrimLeftRev (c :: s) = c :: s.
Proof.
  intros H. simpl. rewrite (graphic_not_space c H).
  pose proof (graphic_low c H) as Hlow.
  destruct s as [|d s]; [done|].
  rewrite (spaceRune2_low_r d c Hlow).
  destruct s as [|e s]; [done|].
  by rewrite (spaceRune3_low_r e d c Hlow).
Qed.

Lemma TrimLeftRev_nl s : TrimLeftRev (nl :: s) = TrimLeftRev s.
Proof. reflexivity. Qed.

Lemma TrimRight_line s z :
  graphic z = true -> TrimRight ((s ++ [z]) ++ [nl]) = s ++ [z].
Proof.
  intros Hz. unfold TrimRight.
  rewrite !rev_app_distr.
  change (rev [nl] ++ rev [z] ++ rev s) with (nl :: z :: rev s).
  rewrite TrimLeftRev_nl, (TrimLeftRev_graphic z _ Hz).
  change (z :: rev s) with ([z] ++ rev s).
  by rewrite rev_app_distr, rev_involutive.
Qed.

(** A line that starts and ends with a printable byte loses exactly its
    line feed. *)
Lemma TrimSpace_line l c s z s' :
  l = c :: s -> l = s' ++ [z] -> graphic c = true -> graphic z = true ->
  TrimSpace (l ++ [nl]) = l.
Proof.
  intros Hfront Hback Hc Hz. unfold TrimSpace.
  rewrite Hfront at 1.
  change ((c :: s) ++ [nl]) with (c :: s ++ [nl]).
  rewrite (TrimLeft_graphic c _ Hc).
  change (c :: s ++ [nl]) with ((c :: s) ++ [nl]).
  rewrite <- Hfront, Hback. by apply TrimRight_line.
Qed.

(** The pattern of [stripSpaces] leaves bytes other than the space alone
    and turns a run of spaces into one. *)
Lemma ReplaceAllLiteralString_cons c s :
  Ascii.eqb c sp = false -> ReplaceAllLiteralString (c :: s) = c :: ReplaceAllLiteralString s.
Proof. intros H. simpl. rewrite H. by destruct s. Qed.

Lemma ReplaceAllLiteralString_token t s :
  Forall (fun c => graphic c = true) t ->
  ReplaceAllLiteralString (t ++ s) = t ++ ReplaceAllLiteralString s.
Proof.
  induction 1 as [|c t Hc _ IH]; [done|].
  simpl app. rewrite ReplaceAllLiteralString_cons by by apply graphic_not_sp.
  by rewrite IH.
Qed.

Lemma ReplaceAllLiteralString_run n c s :
  Ascii.eqb c sp = false ->
  ReplaceAllLiteralString (replicate (S n) sp ++ c :: s) = sp :: ReplaceAllLiteralString (c :: s).
Proof.
  intros Hc. induction n as [|n IH].
  - change (replicate 1 sp ++ c :: s) with (sp :: c :: s).
    change (ReplaceAllLiteralString (sp :: c :: s))
      with (if Ascii.eqb sp sp && Ascii.eqb c sp
            then ReplaceAllLiteralString (c :: s) else sp :: ReplaceAllLiteralString (c :: s)).
    by rewrite Hc, andb_false_r.
  - change (replicate (S (S n)) sp ++ c :: s)
      with (sp :: sp :: replicate n sp ++ c :: s).
    change (ReplaceAllLiteralString (sp :: sp :: replicate n sp ++ c :: s))
      with (ReplaceAllLiteralString (sp :: replicate n sp ++ c :: s)).
    exact IH.
Qed.

Lemma Split_nonempty s sep : Split s sep <> [].
Proof.
  destruct s as [|c s]; [done|]. simpl.
  destruct (Ascii.eqb c sep); [done|]. by destruct (Split s sep).
Qed.

Lemma Split_token t s :
  Forall (fun c => graphic c = true) t ->
  Split (t ++ sp :: s) sp = t :: Split s sp.
Proof.
  induction 1 as [|c t Hc _ IH].
  - reflexivity.
  - change (Split ((c :: t) ++ sp :: s) sp)
      with (if Ascii.eqb c sp then [] :: Split (t ++ sp :: s) sp
            else match Split (t ++ sp :: s) sp with
                 | t0 :: ts => (c :: t0) :: ts
                 | [] => [[c]]
                 end).
    by rewrite (graphic_not_sp c Hc), IH.
Qed.

Lemma Split_last t :
  Forall (fun c => graphic c = true) t -> Split t sp = [t].
Proof.
  induction 1 as [|c t Hc _ IH]; [done|].
  change (Split (c :: t) sp)
    with (if Ascii.eqb c sp then [] :: Split t sp
          else match Split t sp with
               | t0 :: ts => (c :: t0) :: ts
               | [] => [[c]]
               end).
  by rewrite (graphic_not_sp c Hc), IH.
Qed.

Lemma plainToken_front t :
  plainToken t -> exists c s, t = c :: s /\ graphic c = true.
Proof.
  intros [Hne Hall]. destruct t as [|c s]; [done|].
  exists c, s. split; [done|]. by inversion Hall.
Qed.

Lemma plainToken_back t :
  plainToken t -> exists s z, t = s ++ [z] /\ graphic z = true.
Proof.
  intros [Hne Hall]. destruct (exists_last Hne) as (s & z & ->).
  exists s, z. split; [done|].
  apply Forall_app in Hall as [_ Hz]. by inversion Hz.
Qed.

Lemma spaced_cons t n t' rest :
  spaced t ((n, t') :: rest) = t ++ replicate (S n) sp ++ spaced t' rest.
Proof. unfold spaced. simpl. by rewrite <- !app_assoc. Qed.

Lemma spaced_front t rest :
  plainToken t -> exists c s, spaced t rest = c :: s /\ graphic c = true.
Proof.
  intros (c & s & -> & Hc)%plainToken_front.
  exists c, (s ++ concat (map (fun p => replicate (S (fst p)) sp ++ snd p) rest)).
  by split.
Qed.

Lemma spaced_back t rest :
  plainToken t -> Forall (fun p => plainToken (snd p)) rest ->
  exists s z, spaced t rest = s ++ [z] /\ graphic z = true.
Proof.
  intros Ht Hrest. revert t Ht.
  induction Hrest as [|[n t'] rest Ht' _ IH]; intros t Ht.
  - destruct (plainToken_back t Ht) as (s & z & -> & Hz).
    exists s, z. unfold spaced. simpl. by rewrite app_nil_r.
  - destruct (IH t' Ht') as (s & z & Hs & Hz).
    exists (t ++ replicate (S n) sp ++ s), z. split; [|done].
    rewrite spaced_cons, Hs. by rewrite <- !app_assoc.
Qed.

Lemma ReplaceAllLiteralString_spaced t rest :
  plainToken t -> Forall (fun p => plainToken (snd p)) rest ->
  ReplaceAllLiteralString (spaced t rest) = spaced t (map (fun p => (O, snd p)) rest).
Proof.
  intros Ht Hrest. revert t Ht.
  induction Hrest as [|[n t'] rest Ht' _ IH]; intros t Ht.
  - unfold spaced. simpl. rewrite !app_nil_r.
    rewrite <- (app_nil_r t) at 1. rewrite ReplaceAllLiteralString_token by apply Ht.
    by rewrite app_nil_r.
  - simpl map. rewrite !spaced_cons.
    rewrite ReplaceAllLiteralString_token by apply Ht.
    destruct (spaced_front t' rest Ht') as (c & s & Hs & Hc).
    rewrite Hs, ReplaceAllLiteralString_run by by apply graphic_not_sp.
    rewrite <- Hs, IH by done. reflexivity.
Qed.

Lemma Split_spaced t ts :
  plainToken t -> Forall plainToken ts ->
  Split (spaced t (map (fun t' => (O, t')) ts)) sp = t :: ts.
Proof.
  intros Ht Hts. revert t Ht.
  induction Hts as [|t' ts Ht' _ IH]; intros t Ht.
  - unfold spaced. simpl. rewrite app_nil_r. apply Split_last, Ht.
  - simpl map. rewrite spaced_cons.
    change (replicate 1 sp ++ spaced t' (map (fun t'0 => (O, t'0)) ts))
      with (sp :: spaced t' (map (fun t'0 => (O, t'0)) ts)).
    rewrite Split_token by apply Ht. by rewrite IH.
Qed.

(** However many spaces stand between them, the tokens of a line of plain
    tokens are these tokens. *)
Lemma tokens_spaced t rest :
  plainToken t -> Forall (fun p => plainToken (snd p)) rest ->
  tokens (spaced t rest ++ [nl]) = t :: map snd rest.
Proof.
  intros Ht Hrest. unfold tokens, stripSpaces. cbv zeta. simpl fst.
  destruct (spaced_front t rest Ht) as (c & s & Hfront & Hc).
  destruct (spaced_back t rest Ht Hrest) as (s' & z & Hback & Hz).
  rewrite (TrimSpace_line _ c s z s' Hfront Hback Hc Hz).
  rewrite ReplaceAllLiteralString_spaced by done.
  rewrite <- (map_map snd (fun t' => (O, t'))).
  apply Split_spaced; [done|].
  apply Forall_map. exact Hrest.
Qed.

Lemma tokens_joinSp t ts :
  Forall plainToken (t :: ts) -> tokens (joinSp (t :: ts) ++ [nl]) = t :: ts.
Proof.
  intros H. inversion H as [|? ? Ht Hts]; subst. unfold joinSp.
  rewrite tokens_spaced; [|done|].
  - by rewrite map_map, map_id.
  - apply Forall_map. exact Hts.
Qed.

Lemma spaced_no_nl t rest :
  plainToken t -> Forall (fun p => plainToken (snd p)) rest ->
  nl ∉ spaced t rest.
Proof.
  intros Ht Hrest. revert t Ht.
  induction Hrest as [|[n t'] rest Ht' _ IH]; intros t Ht.
  - unfold spaced. simpl. rewrite app_nil_r.
    intros Hin. destruct Ht as [_ Ht].
    rewrite Forall_forall in Ht. specialize (Ht _ Hin). discriminate Ht.
  - rewrite spaced_cons. rewrite !elem_of_app. intros [Hin|[Hin|Hin]].
    + destruct Ht as [_ Ht]. rewrite Forall_forall in Ht.
      specialize (Ht _ Hin). discriminate Ht.
    + apply elem_of_replicate in Hin as [Hin _]. discriminate Hin.
    + by apply (IH t' Ht').
Qed.

(** ** The reader, line by line *)

Lemma unlines_cons l ls : unlines (l :: ls) = l ++ nl :: unlines ls.
Proof. unfold unlines. simpl. by rewrite <- app_assoc. Qed.

Lemma unlines_app ls1 ls2 : unlines (ls1 ++ ls2) = unlines ls1 ++ unlines ls2.
Proof. unfold unlines. by rewrite map_app, concat_app. Qed.

Lemma unlines_cons_app l ls tail :
  unlines (l :: ls) ++ tail = l ++ nl :: unlines ls ++ tail.
Proof. by rewrite unlines_cons, <- app_assoc. Qed.

Lemma ReadString_line l rest :
  nl ∉ l -> ReadString (l ++ nl :: rest) nl = (l ++ [nl], None, rest).
Proof.
  induction l as [|c l IH]; intros Hnl.
  - reflexivity.
  - apply not_elem_of_cons in Hnl as [Hc Hl].
    simpl. destruct (Ascii.eqb_spec c nl) as [->|_]; [done|].
    by rewrite (IH Hl).
Qed.

Lemma ReadString_eof l : nl ∉ l -> ReadString l nl = (l, Some EOF, []).
Proof.
  induction l as [|c l IH]; intros Hnl.
  - reflexivity.
  - apply not_elem_of_cons in Hnl as [Hc Hl].
    simpl. destruct (Ascii.eqb_spec c nl) as [->|_]; [done|].
    by rewrite (IH Hl).
Qed.

(** A successful [ReadString] takes at least one byte. *)
Lemma ReadString_shorter r s r' :
  ReadString r nl = (s, None, r') -> (length r' < length r)%nat.
Proof.
  revert s r'. induction r as [|c r IH]; intros s r'; simpl.
  - discriminate.
  - destruct (Ascii.eqb c nl).
    + intros [= <- <-]. lia.
    + destruct (ReadString r nl) as [[s1 e1] r1] eqn:E.
      intros [= <- -> <-]. specialize (IH _ _ eq_refl). lia.
Qed.

Section ReadingFacts.

Context `{Scan : Sscanf} `{Run : Runtime}.

(** One iteration of the loop over the data lines. *)
Lemma dataLoop_S fuel rd ceg r row lineNum linesExpected vb :
  dataLoop (S fuel) rd ceg r row lineNum linesExpected vb =
    match ReadString r nl with
    | (_, Some _, _) => Some (Return (ceg, None))
    | (line, None, r') =>
        if lineNum + 1 >? linesExpected then Some (Return (ceg, None))
        else if Z.of_nat (length (tokens line)) >? ncols ceg then
          dataLoop fuel rd ceg r' (row + 1) (lineNum + 1) linesExpected vb
        else if Z.of_nat (length (tokens line)) <? ncols ceg then
          dataLoop fuel rd ceg r' (row + 1) (lineNum + 1) linesExpected vb
        else
          match scanRow rd ceg row 0 (tokens line) vb with
          | Panic => Some Panic
          | Return (ceg', Some e) => Some (Return (ceg', Some e))
          | Return (ceg', None) =>
              dataLoop fuel rd ceg' r' (row + 1) (lineNum + 1) linesExpected vb
          end
    end.
Proof.
  simpl. destruct (ReadString r nl) as [[line [e|]] r']; reflexivity.
Qed.

(** The loop over the data lines never runs out of the fuel that
    [ReadEsriGridFromFile] gives it: it always ends. *)
Lemma dataLoop_total fuel rd ceg r row lineNum linesExpected vb :
  (length r < fuel)%nat ->
  exists o, dataLoop fuel rd ceg r row lineNum linesExpected vb = Some o.
Proof.
  revert ceg r row lineNum.
  induction fuel as [|fuel IH]; intros ceg r row lineNum Hlen; [lia|].
  rewrite dataLoop_S. destruct (ReadString r nl) as [[line err] r'] eqn:E.
  destruct err as [e|]; [eauto|].
  apply ReadString_shorter in E.
  destruct (lineNum + 1 >? linesExpected); [eauto|].
  destruct (Z.of_nat (length (tokens line)) >? ncols ceg); [apply IH; lia|].
  destruct (Z.of_nat (length (tokens line)) <? ncols ceg); [apply IH; lia|].
  destruct (scanRow rd ceg row 0 (tokens line) vb) as [[ceg' [e|]]|]; eauto.
  apply IH. lia.
Qed.

Lemma tokens_first line : exists t, tokens line !! 0%nat = Some t.
Proof.
  unfold tokens. destruct (Split (fst (stripSpaces line)) sp) as [|t ts] eqn:E.
  - by apply Split_nonempty in E.
  - by exists t.
Qed.

Lemma readIntFromHeader_line line rest name vb :
  nl ∉ line ->
  readIntFromHeader (line ++ nl :: rest) name vb =
    match tokens (line ++ [nl]) !! 1%nat with
    | None => Panic
    | Some tok =>
        match Sscanf_d tok with
        | None => Return (0, Some ScanError, rest)
        | Some v => Return (v, None, rest)
        end
    end.
Proof.
  intros Hnl. unfold readIntFromHeader. rewrite (ReadString_line _ _ Hnl).
  destruct (tokens_first (line ++ [nl])) as [t Ht]. unfold tokens in *.
  destruct (stripSpaces (line ++ [nl])) as [line' e]; simpl in *.
  by rewrite Ht.
Qed.

Lemma readFloat32FromHeader_line line rest name vb :
  nl ∉ line ->
  readFloat32FromHeader (line ++ nl :: rest) name vb =
    match tokens (line ++ [nl]) !! 1%nat with
    | None => Panic
    | Some tok =>
        match Sscanf_f tok with
        | None => Return (zero32, Some ScanError, rest)
        | Some v => Return (v, None, rest)
        end
    end.
Proof.
  intros Hnl. unfold readFloat32FromHeader. rewrite (ReadString_line _ _ Hnl).
  destruct (tokens_first (line ++ [nl])) as [t Ht]. unfold tokens in *.
  destruct (stripSpaces (line ++ [nl])) as [line' e]; simpl in *.
  by rewrite Ht.
Qed.

(** The allocation of the matrix. *)
Lemma make_granted {A} k size (zero : A) n :
  0 <= n -> allocates k (size * n) = true ->
  make k size zero n = Return (replicate (Z.to_nat n) zero).
Proof.
  intros Hn Hk. unfold make. rewrite Hk. by destruct (Z.ltb_spec n 0); [lia|].
Qed.

Lemma allocRows_spec todo n :
  0 <= n ->
  forall i m,
    (forall j, Z.of_nat i <= j < Z.of_nat (i + todo) ->
               allocates (j + 1) (float32Size * n) = true) ->
    m = replicate i (replicate (Z.to_nat n) zero32) ++ replicate todo [] ->
    allocRows todo (Z.of_nat i) n m
    = Return (replicate (i + todo) (replicate (Z.to_nat n) zero32)).
Proof.
  intros Hn. induction todo as [|todo IH]; intros i m Hgrant ->.
  - simpl. by rewrite app_nil_r, Nat.add_0_r.
  - simpl. rewrite (make_granted _ _ _ n Hn) by (apply Hgrant; lia). cbn [obind].
    replace (Z.of_nat i + 1) with (Z.of_nat (S i)) by lia.
    rewrite (IH (S i)).
    + f_equal. f_equal. lia.
    + intros j Hj. apply Hgrant. lia.
    + rewrite Nat2Z.id.
      replace i with (length (replicate i (replicate (Z.to_nat n) zero32)) + 0)%nat at 1
        by (rewrite length_replicate; lia).
      rewrite insert_app_r. simpl.
      by rewrite cons_middle, app_assoc, <- replicate_S_end.
Qed.

Lemma allocRows_all nr nc :
  0 <= nc ->
  (forall i, 0 <= i < nr -> allocates (i + 1) (float32Size * nc) = true) ->
  allocRows (Z.to_nat nr) 0 nc (replicate (Z.to_nat nr) [])
  = Return (replicate (Z.to_nat nr) (replicate (Z.to_nat nc) zero32)).
Proof.
  intros Hc Hgrant. apply (allocRows_spec (Z.to_nat nr) nc Hc 0%nat); [|done].
  intros j Hj. apply Hgrant. lia.
Qed.

(** One call of [SetHeight] that the guard lets through and whose cell
    exists: the matrix gets the value, the header fields stay. *)
Lemma SetHeight_stored rd ceg row col h m :
  row < nrows ceg -> col < ncols ceg ->
  store (height ceg) row col h = Some m ->
  exists ceg', SetHeight rd ceg row col h = Return ceg'
               /\ sameHeader ceg ceg' /\ height ceg' = m.
Proof.
  intros Hr Hc Hst. rewrite SetHeight_past_guard, Hst by done. cbv zeta.
  repeat match goal with |- context [if ?b then _ else _] => destruct b end;
    eexists; (split; [reflexivity|]); by repeat split.
Qed.

Lemma allocated_insert ceg ceg' i r :
  allocated ceg -> sameHeader ceg ceg' ->
  height ceg' = <[i := r]> (height ceg) ->
  Z.of_nat (length r) = ncols ceg ->
  allocated ceg'.
Proof.
  intros [Hlen Hrows] Hsame Hh Hr.
  destruct Hsame as (Hc & Hn & _).
  split.
  - by rewrite Hh, length_insert, Hn.
  - rewrite Hh, Hc. by apply Forall_insert.
Qed.

(** One column of a data line whose token scans.  [pre] are the cells of
    the row already written, [o] is the cell of this column. *)
Lemma scanRow_cons rd vb row tok v toks ceg pre o old :
  Sscanf_f tok = Some v ->
  0 <= row < nrows ceg ->
  Z.of_nat (length (pre ++ o :: old)) = ncols ceg ->
  height ceg !! Z.to_nat row = Some (pre ++ o :: old) ->
  exists ceg1,
    scanRow rd ceg row (Z.of_nat (length pre)) (tok :: toks) vb
    = scanRow rd ceg1 row (Z.of_nat (length (pre ++ [v]))) toks vb
    /\ sameHeader ceg ceg1
    /\ height ceg1 = <[Z.to_nat row := (pre ++ [v]) ++ old]> (height ceg).
Proof.
  intros Hv Hrow Hcols Hlook.
  rewrite length_app in Hcols. simpl in Hcols.
  assert (store (height ceg) row (Z.of_nat (length pre)) v
          = Some (<[Z.to_nat row := (pre ++ [v]) ++ old]> (height ceg))) as Hst.
  { apply store_Some. exists (pre ++ o :: old), o. split.
    - apply index_Some. split; [lia | done].
    - split.
      + apply index_Some. split; [lia|].
        rewrite Nat2Z.id. by rewrite list_lookup_middle.
      + rewrite Nat2Z.id.
        replace (length pre) with (length pre + 0)%nat at 1 by lia.
        rewrite insert_app_r. simpl. by rewrite <- app_assoc. }
  destruct (SetHeight_stored rd ceg row (Z.of_nat (length pre)) v _ ltac:(lia) ltac:(lia) Hst)
    as (ceg1 & Hset & Hsame1 & Hh1).
  exists ceg1. split; [|done].
  simpl. rewrite Hv, Hset. cbn [obind].
  assert ((if vb then Height ceg1 row (Z.of_nat (length pre)) else Return v) = Return v) as ->.
  { destruct vb; [|done].
    rewrite <- Hh1 in Hst.
    assert (ceg1 = with_height ceg1 (height ceg1)) as -> by by destruct ceg1.
    apply (Height_with_store ceg _ row (Z.of_nat (length pre)) v) in Hst as Hread.
    revert Hread. unfold Height. simpl. done. }
  cbn [obind]. rewrite length_app. simpl.
  by replace (Z.of_nat (length pre) + 1) with (Z.of_nat (length pre + 1)) by lia.
Qed.

(** The columns of one data line whose tokens all scan: the row gets their
    values. *)
Lemma scanRow_ok rd vb row toks vals :
  Forall2 (fun t v => Sscanf_f t = Some v) toks vals ->
  forall ceg pre old,
    0 <= row < nrows ceg ->
    Z.of_nat (length (pre ++ old)) = ncols ceg ->
    height ceg !! Z.to_nat row = Some (pre ++ old) ->
    length old = length toks ->
    exists ceg',
      scanRow rd ceg row (Z.of_nat (length pre)) toks vb = Return (ceg', None)
      /\ sameHeader ceg ceg'
      /\ height ceg' = <[Z.to_nat row := pre ++ vals]> (height ceg).
Proof.
  induction 1 as [|tok v toks vals Hv _ IH]; intros ceg pre old Hrow Hcols Hlook Hlen.
  - destruct old; [|done]. exists ceg. simpl. split; [done|].
    split; [apply sameHeader_refl|]. symmetry. by apply list_insert_id.
  - destruct old as [|o old]; [done|]. simpl in Hlen.
    destruct (scanRow_cons rd vb row tok v toks ceg pre o old Hv Hrow Hcols Hlook)
      as (ceg1 & -> & Hsame1 & Hh1).
    pose proof Hsame1 as (Hc1 & Hn1 & _).
    destruct (IH ceg1 (pre ++ [v]) old) as (ceg' & Hscan & Hsame' & Hh').
    + lia.
    + rewrite Hc1, <- Hcols. rewrite !length_app. simpl. lia.
    + rewrite Hh1. apply list_lookup_insert_eq. by eapply lookup_lt_Some.
    + lia.
    + exists ceg'. split; [done|]. split; [by eapply sameHeader_trans|].
      rewrite Hh', Hh1, list_insert_insert_eq. by rewrite <- app_assoc.
Qed.

(** The columns of a data line one of whose tokens does not scan: the
    error of [Sscanf] comes back, after the cells before it were written. *)
Lemma scanRow_bad rd vb row toks :
  mapM Sscanf_f toks = None ->
  forall ceg pre old,
    0 <= row < nrows ceg ->
    Z.of_nat (length (pre ++ old)) = ncols ceg ->
    height ceg !! Z.to_nat row = Some (pre ++ old) ->
    length old = length toks ->
    exists ceg',
      scanRow rd ceg row (Z.of_nat (length pre)) toks vb = Return (ceg', Some ScanError)
      /\ sameHeader ceg ceg'.
Proof.
  induction toks as [|tok toks IH]; intros Hbad ceg pre old Hrow Hcols Hlook Hlen; [done|].
  destruct (Sscanf_f tok) as [v|] eqn:Hv.
  - destruct old as [|o old]; [done|]. simpl in Hlen.
    destruct (scanRow_cons rd vb row tok v toks ceg pre o old Hv Hrow Hcols Hlook)
      as (ceg1 & -> & Hsame1 & Hh1).
    pose proof Hsame1 as (Hc1 & Hn1 & _).
    destruct (IH) with (ceg := ceg1) (pre := pre ++ [v]) (old := old)
      as (ceg' & Hscan & Hsame').
    + apply mapM_None in Hbad. apply mapM_None.
      inversion Hbad as [? ? Hhead|]; subst; [congruence | done].
    + lia.
    + rewrite Hc1, <- Hcols. rewrite !length_app. simpl. lia.
    + rewrite Hh1. apply list_lookup_insert_eq. by eapply lookup_lt_Some.
    + lia.
    + exists ceg'. split; [done|]. by eapply sameHeader_trans.
  - exists ceg. simpl. rewrite Hv. split; [done | apply sameHeader_refl].
Qed.

(** *** What the data lines leave in the matrix *)

Lemma fillRows_length n ls : forall m row, length (fillRows n m row ls) = length m.
Proof.
  induction ls as [|l ls IH]; intros m row; [done|].
  simpl. rewrite IH. destruct (rowOf n l); [apply length_insert | done].
Qed.

Lemma fillRows_ge n ls : forall m row, (length m <= row)%nat -> fillRows n m row ls = m.
Proof.
  induction ls as [|l ls IH]; intros m row Hge; [done|].
  simpl. destruct (rowOf n l) as [vs|].
  - rewrite list_insert_ge by done. apply IH. lia.
  - apply IH. lia.
Qed.

Lemma fillRows_before n ls : forall m row i,
  (i < row)%nat -> fillRows n m row ls !! i = m !! i.
Proof.
  induction ls as [|l ls IH]; intros m row i Hlt; [done|].
  simpl. rewrite IH by lia. destruct (rowOf n l); [|done].
  apply list_lookup_insert_ne. lia.
Qed.

(** Row [row + k] after the data lines: the values of line [k], or what the
    row held before. *)
Lemma fillRows_lookup n ls : forall m row k l,
  ls !! k = Some l -> (row + k < length m)%nat ->
  fillRows n m row ls !! (row + k)%nat
  = match rowOf n l with Some vs => Some vs | None => m !! (row + k)%nat end.
Proof.
  induction ls as [|l0 ls IH]; intros m row k l Hk Hlt; [done|].
  destruct k as [|k]; simpl in Hk.
  - injection Hk as ->. simpl. rewrite Nat.add_0_r in *.
    rewrite fillRows_before by lia.
    destruct (rowOf n l); [by apply list_lookup_insert_eq | done].
  - simpl. replace (row + S k)%nat with (S row + k)%nat by lia.
    rewrite (IH _ (S row) k l Hk).
    + destruct (rowOf n l); [done|].
      destruct (rowOf n l0); [|done]. apply list_lookup_insert_ne. lia.
    + destruct (rowOf n l0); [rewrite length_insert|]; lia.
Qed.

(** One iteration on a line that is not fatal, while rows are left: the
    row gets the values of the line or is passed over, and the loop goes on
    with the next row. *)
Lemma dataLoop_step rd vb fuel ceg row l r :
  lineOK (ncols ceg) l -> allocated ceg -> Z.of_nat row < nrows ceg ->
  exists ceg',
    dataLoop (S fuel) rd ceg (l ++ nl :: r) (Z.of_nat row) (Z.of_nat row + 6)
      (nrows ceg + 6) vb
    = dataLoop fuel rd ceg' r (Z.of_nat (S row)) (Z.of_nat (S row) + 6)
        (nrows ceg + 6) vb
    /\ sameHeader ceg ceg' /\ allocated ceg'
    /\ height ceg'
       = match rowOf (ncols ceg) l with
         | Some vs => <[row := vs]> (height ceg)
         | None => height ceg
         end.
Proof.
  intros [Hnl Hl] Halloc Hrow.
  rewrite dataLoop_S, (ReadString_line _ _ Hnl).
  destruct (Z.gtb_spec (Z.of_nat row + 6 + 1) (nrows ceg + 6)) as [?|_]; [lia|].
  replace (Z.of_nat row + 1) with (Z.of_nat (S row)) by lia.
  replace (Z.of_nat row + 6 + 1) with (Z.of_nat (S row) + 6) by lia.
  unfold rowOf. cbv zeta.
  destruct (Z.gtb_spec (Z.of_nat (length (tokens (l ++ [nl])))) (ncols ceg)) as [Hgt|Hle].
  { destruct (Z.eqb_spec (Z.of_nat (length (tokens (l ++ [nl])))) (ncols ceg)); [lia|].
    exists ceg. split; [done|]. split; [apply sameHeader_refl | done]. }
  destruct (Z.ltb_spec (Z.of_nat (length (tokens (l ++ [nl])))) (ncols ceg)) as [Hlt|Hge].
  { destruct (Z.eqb_spec (Z.of_nat (length (tokens (l ++ [nl])))) (ncols ceg)); [lia|].
    exists ceg. split; [done|]. split; [apply sameHeader_refl | done]. }
  destruct (Z.eqb_spec (Z.of_nat (length (tokens (l ++ [nl])))) (ncols ceg)) as [Heq|]; [|lia].
  destruct Hl as [Hne|[vals Hvals]]; [done|].
  rewrite Hvals. apply mapM_Some in Hvals as Hall.
  pose proof Halloc as [Hlen Hrows].
  destruct (lookup_lt_is_Some_2 (height ceg) row) as [cells Hcells]; [lia|].
  assert (Z.of_nat (length cells) = ncols ceg) as Hclen.
  { eapply Forall_lookup_1 in Hrows; eauto. }
  destruct (scanRow_ok rd vb (Z.of_nat row) _ _ Hall ceg [] cells)
    as (ceg1 & Hscan & Hsame & Hh).
  - lia.
  - done.
  - by rewrite Nat2Z.id.
  - apply Forall2_length in Hall. lia.
  - change (Z.of_nat (length [])) with 0 in Hscan.
    rewrite Hscan. rewrite Nat2Z.id in Hh. simpl in Hh.
    exists ceg1. split; [done|]. split; [done|]. split; [|done].
    eapply (allocated_insert ceg); [done | done | done |].
    apply Forall2_length in Hall. lia.
Qed.

(** The loop over the data lines, on lines none of which is fatal, followed
    by an unfinished line or, once all rows are there, by anything: it ends
    without an error and the matrix holds the lines' values. *)
Lemma dataLoop_lines rd vb ls : forall fuel ceg row tail,
  Forall (lineOK (ncols ceg)) ls ->
  (nl ∉ tail) \/ nrows ceg <= Z.of_nat (row + length ls) ->
  allocated ceg ->
  (length (unlines ls ++ tail) < fuel)%nat ->
  exists ceg',
    dataLoop fuel rd ceg (unlines ls ++ tail) (Z.of_nat row) (Z.of_nat row + 6)
      (nrows ceg + 6) vb = Some (Return (ceg', None))
    /\ sameHeader ceg ceg'
    /\ height ceg' = fillRows (ncols ceg) (height ceg) row ls.
Proof.
  induction ls as [|l ls IH]; intros fuel ceg row tail Hok Htail Halloc Hfuel.
  - destruct fuel as [|fuel]; [lia|].
    exists ceg. split; [|split; [apply sameHeader_refl | done]].
    rewrite dataLoop_S. simpl app.
    destruct (ReadString tail nl) as [[line [e|]] r'] eqn:E; [done|].
    destruct Htail as [Htail|Hfull]; [by rewrite (ReadString_eof _ Htail) in E|].
    simpl in Hfull.
    by destruct (Z.gtb_spec (Z.of_nat row + 6 + 1) (nrows ceg + 6)); [|lia].
  - destruct fuel as [|fuel]; [lia|].
    inversion Hok as [|? ? Hl Hok']; subst.
    assert ((nl ∉ tail) \/ nrows ceg <= Z.of_nat (S row + length ls)) as Htail'.
    { destruct Htail as [?|Hfull]; [by left | right; simpl in Hfull; lia]. }
    rewrite unlines_cons_app in *.
    rewrite length_app in Hfuel. simpl in Hfuel.
    destruct (Z.lt_ge_cases (Z.of_nat row) (nrows ceg)) as [Hrow|Hrow].
    + destruct (dataLoop_step rd vb fuel ceg row l (unlines ls ++ tail) Hl Halloc Hrow)
        as (ceg1 & -> & Hsame & Halloc1 & Hh).
      pose proof Hsame as (Hc1 & Hn1 & _).
      destruct (IH fuel ceg1 (S row) tail) as (ceg' & Hloop & Hsame' & Hh');
        [by rewrite Hc1 | by rewrite Hn1 | done | lia |].
      rewrite Hn1 in Hloop. exists ceg'. split; [done|].
      split; [by eapply sameHeader_trans|].
      simpl fillRows. rewrite Hh', Hc1, Hh. by destruct (rowOf (ncols ceg) l).
    + destruct Hl as [Hnl _]. destruct Halloc as [Hlen _].
      rewrite dataLoop_S, (ReadString_line _ _ Hnl).
      destruct (Z.gtb_spec (Z.of_nat row + 6 + 1) (nrows ceg + 6)) as [_|?]; [|lia].
      exists ceg. split; [done|]. split; [apply sameHeader_refl|].
      symmetry. apply fillRows_ge. lia.
Qed.

(** The loop on lines that are not fatal followed, before the rows are
    used up, by a line of [ncols] tokens one of which does not scan: the
    loop ends with the error of [Sscanf]. *)
Lemma dataLoop_bad_token rd vb pre : forall fuel ceg row bad rest,
  Forall (lineOK (ncols ceg)) pre -> allocated ceg ->
  Z.of_nat (row + length pre) < nrows ceg ->
  nl ∉ bad ->
  Z.of_nat (length (tokens (bad ++ [nl]))) = ncols ceg ->
  mapM Sscanf_f (tokens (bad ++ [nl])) = None ->
  (length (unlines pre ++ bad ++ nl :: rest) < fuel)%nat ->
  exists ceg',
    dataLoop fuel rd ceg (unlines pre ++ bad ++ nl :: rest) (Z.of_nat row)
      (Z.of_nat row + 6) (nrows ceg + 6) vb = Some (Return (ceg', Some ScanError))
    /\ sameHeader ceg ceg'.
Proof.
  induction pre as [|l pre IH];
    intros fuel ceg row bad rest Hok Halloc Hrow Hnl Hcount Hbad Hfuel.
  - destruct fuel as [|fuel]; [lia|]. simpl in Hrow. simpl app.
    rewrite dataLoop_S, (ReadString_line _ _ Hnl).
    destruct (Z.gtb_spec (Z.of_nat row + 6 + 1) (nrows ceg + 6)) as [?|_]; [lia|].
    destruct (Z.gtb_spec (Z.of_nat (length (tokens (bad ++ [nl])))) (ncols ceg)); [lia|].
    destruct (Z.ltb_spec (Z.of_nat (length (tokens (bad ++ [nl])))) (ncols ceg)); [lia|].
    pose proof Halloc as [Hlen Hrows].
    destruct (lookup_lt_is_Some_2 (height ceg) row) as [cells Hcells]; [lia|].
    assert (Z.of_nat (length cells) = ncols ceg) as Hclen.
    { eapply Forall_lookup_1 in Hrows; eauto. }
    destruct (scanRow_bad rd vb (Z.of_nat row) _ Hbad ceg [] cells)
      as (ceg' & Hscan & Hsame); [lia | done | by rewrite Nat2Z.id | lia |].
    change (Z.of_nat (length [])) with 0 in Hscan. rewrite Hscan. eauto.
  - destruct fuel as [|fuel]; [lia|].
    inversion Hok as [|? ? Hl Hok']; subst. simpl in Hrow.
    rewrite unlines_cons_app in *. rewrite length_app in Hfuel. simpl in Hfuel.
    destruct (dataLoop_step rd vb fuel ceg row l (unlines pre ++ bad ++ nl :: rest)
                Hl Halloc ltac:(lia)) as (ceg1 & -> & Hsame & Halloc1 & _).
    pose proof Hsame as (Hc1 & Hn1 & _).
    destruct (IH fuel ceg1 (S row) bad rest) as (ceg' & Hloop & Hsame');
      [by rewrite Hc1 | done | rewrite Hn1; lia | done | by rewrite Hc1 | done | lia |].
    rewrite Hn1 in Hloop. exists ceg'. split; [done|]. by eapply sameHeader_trans.
Qed.

(** *** The whole file *)

(** The six header lines: [ReadEsriGridFromFile] comes to the loop over
    the data lines with the grid [afterHeader]. *)
Lemma ReadEsriGridFromFile_header rd ceg0 vb hs nc nr x y cs nd r :
  headerReads hs nc nr x y cs nd ->
  0 <= nr -> 0 <= nc -> matrixAllocates nr nc ->
  ReadEsriGridFromFile rd ceg0 (Some (unlines hs ++ r)) vb
  = match dataLoop (S (length r)) rd (afterHeader ceg0 nc nr x y cs nd) r 0 6 (nr + 6) vb with
    | Some o => o
    | None => Panic
    end.
Proof.
  intros (h1 & h2 & h3 & h4 & h5 & h6 & t1 & t2 & t3 & t4 & t5 & t6 & -> &
          [N1 T1] & S1 & [N2 T2] & S2 & [N3 T3] & S3 & [N4 T4] & S4 &
          [N5 T5] & S5 & [N6 T6] & S6) Hnr Hnc [Hrows Hcells].
  unfold ReadEsriGridFromFile.
  rewrite !unlines_cons_app. change (unlines [] ++ r) with r.
  rewrite (readIntFromHeader_line h1 _ _ _ N1), T1, S1. cbn [obind].
  rewrite (readIntFromHeader_line h2 _ _ _ N2), T2, S2. cbn [obind].
  change (nrows (SetNRows (SetNCols ceg0 nc) nr)) with nr.
  change (ncols (SetNRows (SetNCols ceg0 nc) nr)) with nc.
  rewrite (make_granted _ _ _ nr Hnr Hrows). cbn [obind].
  rewrite (allocRows_all nr nc Hnc Hcells). cbn [obind].
  rewrite (readFloat32FromHeader_line h3 _ _ _ N3), T3, S3. cbn [obind].
  rewrite (readFloat32FromHeader_line h4 _ _ _ N4), T4, S4. cbn [obind].
  rewrite (readFloat32FromHeader_line h5 _ _ _ N5), T5, S5. cbn [obind].
  rewrite (readFloat32FromHeader_line h6 _ _ _ N6), T6, S6. cbn [obind].
  reflexivity.
Qed.

Lemma afterHeader_allocated ceg0 nc nr x y cs nd :
  0 <= nr -> 0 <= nc -> allocated (afterHeader ceg0 nc nr x y cs nd).
Proof.
  intros Hnr Hnc. split; simpl.
  - rewrite length_replicate. lia.
  - apply Forall_replicate. rewrite length_replicate. lia.
Qed.

(** Reading a file of six good header lines and data lines none of which
    is fatal, followed by an unfinished line or, when the lines are at least
    [nrows], by anything at all: the call returns without error, the header
    fields hold the header values, and the matrix is the allocated one
    filled by the data lines. *)
Lemma ReadEsriGridFromFile_lines rd ceg0 vb hs nc nr x y cs nd ls tail :
  headerReads hs nc nr x y cs nd ->
  0 <= nr -> 0 <= nc -> matrixAllocates nr nc ->
  Forall (lineOK nc) ls ->
  (nl ∉ tail) \/ nr <= Z.of_nat (length ls) ->
  exists ceg,
    ReadEsriGridFromFile rd ceg0 (Some (unlines (hs ++ ls) ++ tail)) vb
    = Return (ceg, None)
    /\ ncols ceg = nc /\ nrows ceg = nr
    /\ xllcorner ceg = x /\ yllcorner ceg = y /\ cellsize ceg = cs
    /\ noDataValue ceg = nd
    /\ height ceg
       = fillRows nc (replicate (Z.to_nat nr) (replicate (Z.to_nat nc) zero32)) 0 ls.
Proof.
  intros Hhdr Hnr Hnc Hmem Hok Htail.
  rewrite unlines_app, <- app_assoc.
  rewrite (ReadEsriGridFromFile_header rd ceg0 vb hs nc nr x y cs nd _ Hhdr Hnr Hnc Hmem).
  destruct (dataLoop_lines rd vb ls (S (length (unlines ls ++ tail)))
              (afterHeader ceg0 nc nr x y cs nd) 0 tail)
    as (ceg' & Hloop & Hsame & Hh);
    [done | simpl; tauto | by apply afterHeader_allocated | lia |].
  change (Z.of_nat 0) with 0 in Hloop. change (0 + 6) with 6 in Hloop.
  change (nrows (afterHeader ceg0 nc nr x y cs nd)) with nr in Hloop.
  rewrite Hloop. exists ceg'. split; [done|].
  destruct Hsame as (? & ? & ? & ? & ? & ? & ?).
  by repeat split.
Qed.

(** A token of a data line that [Sscanf] refuses is fatal: with six good
    header lines whose matrix the run-time system allocates, with data
    lines before it that are not fatal, and while rows are left, a line of
    [ncols] tokens one of which does not scan makes the call return the
    scan error, whatever follows. *)
Lemma ReadEsriGridFromFile_bad_token rd ceg0 vb hs nc nr x y cs nd pre bad rest :
  headerReads hs nc nr x y cs nd ->
  0 <= nr -> 0 <= nc -> matrixAllocates nr nc ->
  Forall (lineOK nc) pre -> Z.of_nat (length pre) < nr ->
  nl ∉ bad ->
  Z.of_nat (length (tokens (bad ++ [nl]))) = nc ->
  mapM Sscanf_f (tokens (bad ++ [nl])) = None ->
  exists ceg,
    ReadEsriGridFromFile rd ceg0 (Some (unlines (hs ++ pre ++ [bad]) ++ rest)) vb
    = Return (ceg, Some ScanError)
    /\ ncols ceg = nc /\ nrows ceg = nr.
Proof.
  intros Hhdr Hnr Hnc Hmem Hok Hpre Hnl Hcount Hbad.
  rewrite !unlines_app, <- !app_assoc, (unlines_cons_app bad []).
  change (unlines [] ++ rest) with rest.
  rewrite (ReadEsriGridFromFile_header rd ceg0 vb hs nc nr x y cs nd _ Hhdr Hnr Hnc Hmem).
  destruct (dataLoop_bad_token rd vb pre
              (S (length (unlines pre ++ bad ++ nl :: rest)))
              (afterHeader ceg0 nc nr x y cs nd) 0 bad rest)
    as (ceg' & Hloop & Hsame);
    [done | by apply afterHeader_allocated | simpl; lia | done | done | done | lia |].
  change (Z.of_nat 0) with 0 in Hloop. change (0 + 6) with 6 in Hloop.
  change (nrows (afterHeader ceg0 nc nr x y cs nd)) with nr in Hloop.
  rewrite Hloop. exists ceg'. split; [done|].
  destruct Hsame as (? & ? & _). by split.
Qed.

Lemma headerLine_second h : plainHeader h -> secondToken (headerLine h) (hvalue h).
Proof.
  intros [Hn Hv]. unfold headerLine. split.
  - apply spaced_no_nl; [done|]. constructor; [exact Hv | constructor].
  - rewrite tokens_spaced; [done | done |]. constructor; [exact Hv | constructor].
Qed.

Lemma goodHeader_reads hs nc nr x y cs nd :
  goodHeader hs nc nr x y cs nd ->
  headerReads (map headerLine hs) nc nr x y cs nd.
Proof.
  intros (h1 & h2 & h3 & h4 & h5 & h6 & -> & Hplain & S1 & S2 & S3 & S4 & S5 & S6).
  repeat match goal with
         | H : Forall _ (_ :: _) |- _ => inversion H; clear H; subst
         end.
  exists (headerLine h1), (headerLine h2), (headerLine h3), (headerLine h4),
    (headerLine h5), (headerLine h6), (hvalue h1), (hvalue h2), (hvalue h3),
    (hvalue h4), (hvalue h5), (hvalue h6).
  split; [done|]. by repeat (split; [by apply headerLine_second || done|]).
Qed.

Lemma goodRow_rowOf nc toks :
  0 < nc -> goodRow nc toks ->
  (nl ∉ joinSp toks) /\ rowOf nc (joinSp toks) = mapM Sscanf_f toks
  /\ is_Some (mapM Sscanf_f toks).
Proof.
  intros Hnc (Hlen & Hplain & Hscan).
  destruct toks as [|t ts]; [simpl in Hlen; lia|].
  split.
  - unfold joinSp. inversion Hplain; subst.
    apply spaced_no_nl; [done|]. by apply Forall_map.
  - unfold rowOf. cbv zeta. rewrite (tokens_joinSp t ts Hplain).
    destruct (Z.eqb_spec (Z.of_nat (length (t :: ts))) nc); [|done].
    split; [done|]. by apply mapM_is_Some.
Qed.

Lemma goodRow_lineOK nc toks :
  0 < nc -> goodRow nc toks -> lineOK nc (joinSp toks).
Proof.
  intros Hnc Hrow.
  destruct (goodRow_rowOf nc toks Hnc Hrow) as (Hnl & Hrow' & Hsome).
  split; [done|]. right.
  destruct Hrow as (Hlen & Hplain & Hscan).
  destruct toks as [|t ts]; [simpl in Hlen; lia|].
  by rewrite (tokens_joinSp t ts Hplain).
Qed.

Lemma rowOf_length n l vs : rowOf n l = Some vs -> Z.of_nat (length vs) = n.
Proof.
  unfold rowOf. cbv zeta.
  destruct (Z.eqb_spec (Z.of_nat (length (tokens (l ++ [nl])))) n) as [Heq|]; [|done].
  intros Hm%length_mapM. lia.
Qed.

Lemma fillRows_rows n ls : forall m row,
  Forall (fun r => Z.of_nat (length r) = n) m ->
  Forall (fun r => Z.of_nat (length r) = n) (fillRows n m row ls).
Proof.
  induction ls as [|l ls IH]; intros m row Hm; [done|].
  simpl. apply IH. destruct (rowOf n l) as [vs|] eqn:E; [|done].
  apply Forall_insert; [done|]. by eapply rowOf_length.
Qed.

(** C4, as the code has it.  For every file made of six header lines of
    the format and of exactly [nrows] data lines of exactly [ncols] numeric
    tokens each, in which every line, the last one included, is ended by a
    line feed, and whose matrix the run-time system allocates, reading
    succeeds, the matrix has [nrows] rows of [ncols] values, row [i] holds
    the values of data line [i], and [Height(nrows-1, 0)] is the first
    token of the last data line as [Sscanf] reads it.  This holds for both
    readings of line 162. *)
Theorem wellformed_file_read (rd : line162) (ceg0 : ConcreteEsriGrid) (vb : bool)
    (hs : list HeaderLine) (nc nr : Z) (x y cs nd : float32)
    (rows : list (list gostring)) :
  goodHeader hs nc nr x y cs nd ->
  0 < nc -> 0 < nr -> matrixAllocates nr nc ->
  Z.of_nat (length rows) = nr ->
  Forall (goodRow nc) rows ->
  exists ceg,
    ReadEsriGridFromFile rd ceg0
      (Some (unlines (map headerLine hs ++ map joinSp rows))) vb = Return (ceg, None)
    /\ Ncols ceg = nc /\ Nrows ceg = nr
    /\ Z.of_nat (length (height ceg)) = nr
    /\ Forall (fun r => Z.of_nat (length r) = nc) (height ceg)
    /\ (forall i toks vs,
          rows !! i = Some toks -> mapM Sscanf_f toks = Some vs ->
          height ceg !! i = Some vs)
    /\ (forall toks t v,
          last rows = Some toks -> head toks = Some t -> Sscanf_f t = Some v ->
          Height ceg (nr - 1) 0 = Return v).
Proof.
  intros Hhdr Hnc Hnr Hmem Hlen Hrows.
  destruct (ReadEsriGridFromFile_lines rd ceg0 vb (map headerLine hs) nc nr x y cs nd
              (map joinSp rows) [])
    as (ceg & Hread & Hc & Hn & _ & _ & _ & _ & Hh).
  - by apply goodHeader_reads.
  - lia.
  - lia.
  - done.
  - apply Forall_map. eapply Forall_impl; [exact Hrows|].
    intros toks Htoks. by apply goodRow_lineOK.
  - left. apply not_elem_of_nil.
  - rewrite app_nil_r in Hread. exists ceg. split; [done|].
    split; [done|]. split; [done|].
    assert (forall i toks vs,
              rows !! i = Some toks -> mapM Sscanf_f toks = Some vs ->
              height ceg !! i = Some vs) as Hrow.
    { intros i toks vs Hi Hvs.
      pose proof (lookup_lt_Some _ _ _ Hi) as Hilt.
      rewrite Hh.
      rewrite (fillRows_lookup nc (map joinSp rows) _ 0 i (joinSp toks)).
      - eapply Forall_lookup_1 in Hrows; [|exact Hi].
        destruct (goodRow_rowOf nc toks Hnc Hrows) as (_ & -> & _).
        by rewrite Hvs.
      - by rewrite list_lookup_fmap, Hi.
      - rewrite length_replicate. lia. }
    split; [rewrite Hh, fillRows_length, length_replicate; lia|].
    split.
    { rewrite Hh. apply fillRows_rows, Forall_replicate.
      rewrite length_replicate. lia. }
    split; [exact Hrow|].
    intros toks t v Hlast Hhead Hv.
    rewrite last_lookup in Hlast.
    eapply Forall_lookup_1 in Hrows as Hgood; [|exact Hlast].
    destruct (goodRow_rowOf nc toks Hnc Hgood) as (_ & _ & [vs Hvs]).
    specialize (Hrow _ _ _ Hlast Hvs).
    apply Height_Return. exists vs. split.
    + apply index_Some. split; [lia|].
      replace (Z.to_nat (nr - 1)) with (pred (length rows)) by lia. done.
    + apply index_Some. split; [done|].
      apply mapM_Some in Hvs. destruct Hvs as [|t' v' toks' vs' Ht' _]; [done|].
      simpl in Hhead. injection Hhead as ->. simpl. congruence.
Qed.

(** C7.  In a file with six good header lines, whose matrix the run-time
    system allocates, and data lines none of which holds a token that does
    not scan, followed by a last line without its line feed or by nothing,
    a data line (among the first [nrows]) whose number of tokens after
    normalisation is not [ncols] is passed over: the call still returns
    without an error and the cells of that row are the zero values of the
    allocation.  This holds for both readings of line 162. *)
Theorem misshapen_line_skipped (rd : line162) (ceg0 : ConcreteEsriGrid) (vb : bool)
    (hs : list HeaderLine) (nc nr : Z) (x y cs nd : float32)
    (ls : list gostring) (tail : gostring) (i : nat) (l : gostring) :
  goodHeader hs nc nr x y cs nd ->
  0 <= nc -> 0 <= nr -> matrixAllocates nr nc ->
  Forall (lineOK nc) ls -> nl ∉ tail ->
  ls !! i = Some l -> Z.of_nat i < nr ->
  Z.of_nat (length (tokens (l ++ [nl]))) <> nc ->
  exists ceg,
    ReadEsriGridFromFile rd ceg0 (Some (unlines (map headerLine hs ++ ls) ++ tail)) vb
    = Return (ceg, None)
    /\ Ncols ceg = nc /\ Nrows ceg = nr
    /\ height ceg !! i = Some (replicate (Z.to_nat nc) zero32)
    /\ (forall col, 0 <= col < nc -> Height ceg (Z.of_nat i) col = Return zero32).
Proof.
  intros Hhdr Hnc Hnr Hmem Hok Htail Hi Hilt Hcount.
  destruct (ReadEsriGridFromFile_lines rd ceg0 vb (map headerLine hs) nc nr x y cs nd ls tail)
    as (ceg & Hread & Hc & Hn & _ & _ & _ & _ & Hh);
    [by apply goodHeader_reads | done | done | done | done | by left |].
  exists ceg.
  split; [done|]. split; [done|]. split; [done|].
  assert (height ceg !! i = Some (replicate (Z.to_nat nc) zero32)) as Hrow.
  { rewrite Hh.
    rewrite (fillRows_lookup nc ls _ 0 i l Hi) by (rewrite length_replicate; lia).
    unfold rowOf. cbv zeta.
    destruct (Z.eqb_spec (Z.of_nat (length (tokens (l ++ [nl])))) nc); [done|].
    apply lookup_replicate_2. lia. }
  split; [done|].
  intros col Hcol. apply Height_Return.
  exists (replicate (Z.to_nat nc) zero32). split.
  - apply index_Some. split; [lia|]. by rewrite Nat2Z.id.
  - apply index_Some. split; [lia|]. apply lookup_replicate_2. lia.
Qed.

End ReadingFacts.

(** ** The file of the documentation *)

Lemma exampleFile_lines :
  unlines (map headerLine exampleHeader ++ map joinSp exampleRows) = exampleFile.
Proof. reflexivity. Qed.

Ltac plain :=
  repeat constructor; try discriminate; try (eexists; vm_compute; reflexivity).

(** [limitRuntime] grants a matrix whose slices are within its limit. *)
Ltac granted := split; [reflexivity | intros ? _; reflexivity].

Lemma exampleHeader_good :
  goodHeader exampleHeader 4 6 zero32 zero32 (ofZ 50) (ofZ (-9999)).
Proof.
  unfold goodHeader, exampleHeader. do 6 eexists.
  split; [reflexivity|]. split; [plain|]. by repeat split.
Qed.

Lemma exampleRows_good : Forall (goodRow 4) exampleRows.
Proof. unfold exampleRows, goodRow. plain. Qed.

Lemma wellformed_file_read_witness :
  goodHeader exampleHeader 4 6 zero32 zero32 (ofZ 50) (ofZ (-9999))
  /\ 0 < 4 /\ 0 < 6 /\ matrixAllocates 6 4
  /\ Z.of_nat (length exampleRows) = 6
  /\ Forall (goodRow 4) exampleRows
  /\ exists ceg,
       ReadEsriGridFromFile AsWritten MakeEsriGrid
         (Some (unlines (map headerLine exampleHeader ++ map joinSp exampleRows))) false
       = Return (ceg, None)
       /\ Ncols ceg = 4 /\ Nrows ceg = 6
       /\ Z.of_nat (length (height ceg)) = 6
       /\ Forall (fun r => Z.of_nat (length r) = 4) (height ceg)
       /\ (forall i toks vs,
             exampleRows !! i = Some toks -> mapM Sscanf_f toks = Some vs ->
             height ceg !! i = Some vs)
       /\ (forall toks t v,
             last exampleRows = Some toks -> head toks = Some t -> Sscanf_f t = Some v ->
             Height ceg (6 - 1) 0 = Return v).
Proof.
  split; [exact exampleHeader_good|].
  split; [lia|]. split; [lia|]. split; [granted|]. split; [reflexivity|].
  split; [exact exampleRows_good|].
  apply (wellformed_file_read AsWritten MakeEsriGrid false exampleHeader 4 6
           zero32 zero32 (ofZ 50) (ofZ (-9999)) exampleRows).
  - exact exampleHeader_good.
  - lia.
  - lia.
  - granted.
  - reflexivity.
  - exact exampleRows_good.
Defined.

(** C4 as stated fails when the last data line has no line feed after it.
    The file of the documentation without its final line feed has six good
    header lines and six data lines of four numeric tokens, the last of
    which begins with 13.  [ReadString] returns this last line together
    with [io.EOF], and the loop ends without looking at it (lines 304 to
    307), as the header readers do (lines 362 to 365): reading succeeds,
    but row 5 is still the row of zeros of the allocation and [Height(5, 0)]
    is 0, not 13; this is so for both readings of line 162. *)
Lemma wellformed_file_unfinished :
  exampleUnfinished ++ [nl]
  = unlines (map headerLine exampleHeader ++ map joinSp exampleRows)
  /\ goodHeader exampleHeader 4 6 zero32 zero32 (ofZ 50) (ofZ (-9999))
  /\ Z.of_nat (length exampleRows) = 6 /\ Forall (goodRow 4) exampleRows
  /\ matrixAllocates 6 4
  /\ last exampleRows = Some [bytes "13"; bytes "5"; bytes "1"; bytes "-9999"]
  /\ Sscanf_f (bytes "13") = Some (ofZ 13)
  /\ feq zero32 (ofZ 13) = false
  /\ (exists ceg,
        ReadEsriGridFromFile AsWritten MakeEsriGrid (Some exampleUnfinished) false
        = Return (ceg, None)
        /\ Nrows ceg = 6 /\ Ncols ceg = 4
        /\ height ceg !! 5%nat = Some [zero32; zero32; zero32; zero32]
        /\ Height ceg (6 - 1) 0 = Return zero32)
  /\ (exists ceg,
        ReadEsriGridFromFile AsMeant MakeEsriGrid (Some exampleUnfinished) false
        = Return (ceg, None)
        /\ Nrows ceg = 6 /\ Ncols ceg = 4
        /\ height ceg !! 5%nat = Some [zero32; zero32; zero32; zero32]
        /\ Height ceg (6 - 1) 0 = Return zero32).
Proof.
  split; [reflexivity|]. split; [exact exampleHeader_good|]. split; [reflexivity|].
  split; [exact exampleRows_good|]. split; [granted|]. split; [reflexivity|].
  split; [reflexivity|]. split; [reflexivity|].
  split; (eexists; split; [vm_compute; reflexivity|]; by vm_compute).
Qed.

Ltac no_nl :=
  let H := fresh in
  intros H; repeat (apply elem_of_cons in H as [H|H]; [discriminate H|]);
  by apply elem_of_nil in H.

Lemma shortHeader_good :
  goodHeader shortHeader 2 3 zero32 zero32 (ofZ 50) (ofZ (-9999)).
Proof.
  unfold goodHeader, shortHeader. do 6 eexists.
  split; [reflexivity|]. split; [plain|]. by repeat split.
Qed.

Lemma shortData_ok : Forall (lineOK 2) shortData.
Proof.
  unfold shortData.
  repeat (apply List.Forall_cons || apply List.Forall_nil); (split; [no_nl|]).
  - right. eexists. vm_compute. reflexivity.
  - left. vm_compute. discriminate.
  - right. eexists. vm_compute. reflexivity.
Qed.

Lemma misshapen_line_skipped_witness :
  goodHeader shortHeader 2 3 zero32 zero32 (ofZ 50) (ofZ (-9999))
  /\ 0 <= 2 /\ 0 <= 3 /\ matrixAllocates 3 2
  /\ Forall (lineOK 2) shortData /\ (nl ∉ bytes "7 8")
  /\ shortData !! 1%nat = Some (bytes "3") /\ Z.of_nat 1 < 3
  /\ Z.of_nat (length (tokens (bytes "3" ++ [nl]))) <> 2
  /\ exists ceg,
       ReadEsriGridFromFile AsWritten MakeEsriGrid
         (Some (unlines (map headerLine shortHeader ++ shortData) ++ bytes "7 8")) false
       = Return (ceg, None)
       /\ Ncols ceg = 2 /\ Nrows ceg = 3
       /\ height ceg !! 1%nat = Some (replicate (Z.to_nat 2) zero32)
       /\ (forall col, 0 <= col < 2 -> Height ceg (Z.of_nat 1) col = Return zero32).
Proof.
  split; [exact shortHeader_good|].
  split; [lia|]. split; [lia|]. split; [granted|].
  split; [exact shortData_ok|]. split; [no_nl|].
  split; [reflexivity|]. split; [lia|].
  split; [vm_compute; discriminate|].
  apply (misshapen_line_skipped AsWritten MakeEsriGrid false shortHeader 2 3
           zero32 zero32 (ofZ 50) (ofZ (-9999)) shortData (bytes "7 8") 1 (bytes "3")).
  - exact shortHeader_good.
  - lia.
  - lia.
  - granted.
  - exact shortData_ok.
  - no_nl.
  - reflexivity.
  - lia.
  - vm_compute. discriminate.
Defined.

(** ** C3: the documented example, run *)

(** C3, on the code as written.  Reading the file of the documentation
    succeeds and gives [Ncols() = 4], [Nrows() = 6], [CellSize() = 50],
    [NoDataValue() = -9999] and [Height(5, 0) = 13]; but the extrema are
    never assigned: [MaxHeight()] and [MinHeight()] are still the zero values
    of [MakeEsriGrid], not 100 and 1, and the two flags are unset. *)
Lemma example_read_as_written :
  exists ceg,
    ReadEsriGridFromFile AsWritten MakeEsriGrid (Some exampleFile) false = Return (ceg, None)
    /\ Ncols ceg = 4 /\ Nrows ceg = 6
    /\ CellSize ceg = ofZ 50 /\ NoDataValue ceg = ofZ (-9999)
    /\ Height ceg 5 0 = Return (ofZ 13)
    /\ MaxHeight ceg = zero32 /\ MinHeight ceg = zero32
    /\ feq (MaxHeight ceg) (ofZ 100) = false /\ feq (MinHeight ceg) (ofZ 1) = false
    /\ maxHeightSet ceg = false /\ minHeightSet ceg = false.
Proof. eexists. split; [vm_compute; reflexivity|]. by vm_compute. Qed.

(** With the comparison that line 162 was meant to make, the same file
    gives the seven values of the documentation. *)
Lemma example_read_as_meant :
  exists ceg,
    ReadEsriGridFromFile AsMeant MakeEsriGrid (Some exampleFile) false = Return (ceg, None)
    /\ Ncols ceg = 4 /\ Nrows ceg = 6
    /\ CellSize ceg = ofZ 50 /\ NoDataValue ceg = ofZ (-9999)
    /\ MaxHeight ceg = ofZ 100 /\ MinHeight ceg = ofZ 1
    /\ Height ceg 5 0 = Return (ofZ 13).
Proof. eexists. split; [vm_compute; reflexivity|]. by vm_compute. Qed.

(** ** C2: the extrema *)

(** C2, on the code as written.  One in-range call with the sample 5 on a
    fresh one-by-one grid whose no-data value is -9999: the cell is written,
    5 is not the no-data value, and yet [MaxHeight()] is still 0, so that
    [5 <= MaxHeight()] fails (and the flags are still unset). *)
Lemma SetHeight_as_written_loses_sample :
  exists ceg,
    SetHeight AsWritten grid1 0 0 (ofZ 5) = Return ceg
    /\ Height ceg 0 0 = Return (ofZ 5)
    /\ feq (ofZ 5) (NoDataValue ceg) = false
    /\ MaxHeight ceg = zero32 /\ MinHeight ceg = zero32
    /\ fle (ofZ 5) (MaxHeight ceg) = false
    /\ maxHeightSet ceg = false /\ minHeightSet ceg = false.
Proof. eexists. split; [vm_compute; reflexivity|]. by vm_compute. Qed.

(** ** C6: header lines that cannot be read *)

Section HeaderErrors.

Context `{Scan : Sscanf} `{Run : Runtime}.

(** C6, where it fails.  A first header line that consists of the field
    name alone has one token; [readIntFromHeader] indexes [field[1]]
    unchecked, so the call ends in a run-time panic (index out of range)
    and not in an error returned to the caller.  The rest of the file and
    what [Sscanf] would do are irrelevant. *)
Lemma header_without_value_panics (rd : line162) (ceg : ConcreteEsriGrid)
    (rest : gostring) (vb : bool) :
  ReadEsriGridFromFile rd ceg (Some (bytes "ncols" ++ nl :: rest)) vb = Panic.
Proof.
  unfold ReadEsriGridFromFile.
  rewrite (readIntFromHeader_line (bytes "ncols")) by no_nl.
  reflexivity.
Qed.

Ltac header_int l Hnl Hgood k :=
  let tok := fresh "tok" in let Htok := fresh "Htok" in
  let v := fresh "v" in let Hv := fresh "Hv" in
  destruct (Hgood k l eq_refl) as (tok & Htok & [v Hv]);
  rewrite (readIntFromHeader_line l _ _ _ Hnl), Htok, Hv; cbn [obind].

Ltac header_float l Hnl Hgood k :=
  let tok := fresh "tok" in let Htok := fresh "Htok" in
  let v := fresh "v" in let Hv := fresh "Hv" in
  destruct (Hgood k l eq_refl) as (tok & Htok & [v Hv]);
  rewrite (readFloat32FromHeader_line l _ _ _ Hnl), Htok, Hv; cbn [obind].

Ltac header_alloc Hdims l1 l2 :=
  let Hnr := fresh "Hnr" in let Hnc := fresh "Hnc" in
  let Hrows := fresh "Hrows" in let Hcells := fresh "Hcells" in
  match goal with
  | H1 : tokens (l1 ++ [nl]) !! 1%nat = Some ?t1, V1 : Sscanf_d ?t1 = Some ?nc,
    H2 : tokens (l2 ++ [nl]) !! 1%nat = Some ?t2, V2 : Sscanf_d ?t2 = Some ?nr |- _ =>
      destruct (Hdims l1 l2 nc nr eq_refl eq_refl) as (Hnr & Hnc & Hrows & Hcells);
      [unfold headerInt; by rewrite H1 | unfold headerInt; by rewrite H2 |];
      change (nrows (SetNRows (SetNCols ?c nc) nr)) with nr;
      change (ncols (SetNRows (SetNCols ?c nc) nr)) with nc;
      rewrite (make_granted _ _ _ nr Hnr Hrows); cbn [obind];
      rewrite (allocRows_all nr nc Hnc Hcells); cbn [obind]
  end.

(** The part of C6 that holds.  When the header lines before it can be read
    (and the run-time system allocates the matrix), a header line whose
    value [Sscanf] refuses makes [ReadEsriGridFromFile] return the scan
    error; this is so for each of the six header lines. *)
Lemma header_unreadable_value rd ceg0 vb (good : list gostring) (bad rest : gostring) :
  (length good < 6)%nat ->
  Forall (fun l => nl ∉ l) (good ++ [bad]) ->
  (forall k l, good !! k = Some l -> valueReadable k l) ->
  valueUnreadable (length good) bad ->
  dimensionsOK good ->
  exists ceg,
    ReadEsriGridFromFile rd ceg0 (Some (unlines (good ++ [bad]) ++ rest)) vb
    = Return (ceg, Some ScanError).
Proof.
  intros Hlen Hnl Hgood (tokb & Htokb & Hbad) Hdims.
  unfold ReadEsriGridFromFile.
  destruct good as [|l1 good]; simpl in Hbad; simpl app.
  { inversion Hnl as [|? ? N0 _]; subst.
    rewrite unlines_cons_app, (readIntFromHeader_line bad _ _ _ N0), Htokb, Hbad.
    cbn [obind]. eauto. }
  inversion Hnl as [|? ? N1 Hnl1]; subst.
  rewrite unlines_cons_app. header_int l1 N1 Hgood 0%nat.
  destruct good as [|l2 good]; simpl in Hbad; simpl app.
  { inversion Hnl1 as [|? ? N0 _]; subst.
    rewrite unlines_cons_app, (readIntFromHeader_line bad _ _ _ N0), Htokb, Hbad.
    cbn [obind]. eauto. }
  inversion Hnl1 as [|? ? N2 Hnl2]; subst.
  rewrite unlines_cons_app. header_int l2 N2 Hgood 1%nat.
  header_alloc Hdims l1 l2.
  destruct good as [|l3 good]; simpl in Hbad; simpl app.
  { inversion Hnl2 as [|? ? N0 _]; subst.
    rewrite unlines_cons_app, (readFloat32FromHeader_line bad _ _ _ N0), Htokb, Hbad.
    cbn [obind]. eauto. }
  inversion Hnl2 as [|? ? N3 Hnl3]; subst.
  rewrite unlines_cons_app. header_float l3 N3 Hgood 2%nat.
  destruct good as [|l4 good]; simpl in Hbad; simpl app.
  { inversion Hnl3 as [|? ? N0 _]; subst.
    rewrite unlines_cons_app, (readFloat32FromHeader_line bad _ _ _ N0), Htokb, Hbad.
    cbn [obind]. eauto. }
  inversion Hnl3 as [|? ? N4 Hnl4]; subst.
  rewrite unlines_cons_app. header_float l4 N4 Hgood 3%nat.
  destruct good as [|l5 good]; simpl in Hbad; simpl app.
  { inversion Hnl4 as [|? ? N0 _]; subst.
    rewrite unlines_cons_app, (readFloat32FromHeader_line bad _ _ _ N0), Htokb, Hbad.
    cbn [obind]. eauto. }
  inversion Hnl4 as [|? ? N5 Hnl5]; subst.
  rewrite unlines_cons_app. header_float l5 N5 Hgood 4%nat.
  destruct good as [|l6 good]; simpl in Hbad; simpl app.
  { inversion Hnl5 as [|? ? N0 _]; subst.
    rewrite unlines_cons_app, (readFloat32FromHeader_line bad _ _ _ N0), Htokb, Hbad.
    cbn [obind]. eauto. }
  simpl in Hlen. lia.
Qed.

End HeaderErrors.

(** The example of C6: [ncols abc] as the first line. *)
Lemma header_ncols_abc (rd : line162) (ceg : ConcreteEsriGrid) (rest : gostring) (vb : bool) :
  ReadEsriGridFromFile rd ceg (Some (bytes "ncols abc" ++ nl :: rest)) vb
  = Return (SetNCols ceg 0, Some ScanError).
Proof.
  unfold ReadEsriGridFromFile.
  rewrite (readIntFromHeader_line (bytes "ncols abc")) by no_nl.
  reflexivity.
Qed.

(** ** C8: what [stripSpaces] normalises *)

(** White space at either end of a line goes, whatever ASCII white space
    it is. *)
Lemma TrimLeft_spaces ws s :
  Forall (fun c => asciiSpace c = true) ws -> TrimLeft (ws ++ s) = TrimLeft s.
Proof.
  induction 1 as [|c ws Hc _ IH]; [done|].
  simpl app. cbn [TrimLeft]. by rewrite Hc.
Qed.

Lemma TrimLeftRev_spaces ws s :
  Forall (fun c => asciiSpace c = true) ws -> TrimLeftRev (ws ++ s) = TrimLeftRev s.
Proof.
  induction 1 as [|c ws Hc _ IH]; [done|].
  simpl app. cbn [TrimLeftRev]. by rewrite Hc.
Qed.

Lemma TrimSpace_padded before l after c s z s' :
  Forall (fun c => asciiSpace c = true) before ->
  Forall (fun c => asciiSpace c = true) after ->
  l = c :: s -> l = s' ++ [z] -> graphic c = true -> graphic z = true ->
  TrimSpace (before ++ l ++ after ++ [nl]) = l.
Proof.
  intros Hb Ha Hfront Hback Hc Hz. unfold TrimSpace.
  rewrite (TrimLeft_spaces _ _ Hb).
  rewrite Hfront at 1.
  change ((c :: s) ++ after ++ [nl]) with (c :: s ++ after ++ [nl]).
  rewrite (TrimLeft_graphic c _ Hc).
  change (c :: s ++ after ++ [nl]) with ((c :: s) ++ after ++ [nl]).
  rewrite <- Hfront. unfold TrimRight.
  rewrite !rev_app_distr, <- app_assoc.
  change (rev [nl]) with [nl].
  change ([nl] ++ rev after ++ rev l) with (nl :: rev after ++ rev l).
  rewrite TrimLeftRev_nl, TrimLeftRev_spaces by by apply Forall_rev.
  rewrite Hback at 1. rewrite rev_app_distr.
  change (rev [z] ++ rev s') with (z :: rev s').
  rewrite (TrimLeftRev_graphic z _ Hz).
  change (z :: rev s') with ([z] ++ rev s').
  rewrite rev_app_distr, rev_involutive. simpl. by rewrite Hback.
Qed.

(** The part of C8 that holds.  For tokens of printable bytes, any leading
    and trailing ASCII white space and any number of spaces between the
    tokens give the same token sequence. *)
Lemma tokens_padded before t rest after :
  Forall (fun c => asciiSpace c = true) before ->
  Forall (fun c => asciiSpace c = true) after ->
  plainToken t -> Forall (fun p => plainToken (snd p)) rest ->
  tokens (before ++ spaced t rest ++ after ++ [nl]) = t :: map snd rest.
Proof.
  intros Hb Ha Ht Hrest. unfold tokens, stripSpaces. cbv zeta. simpl fst.
  destruct (spaced_front t rest Ht) as (c & s & Hfront & Hc).
  destruct (spaced_back t rest Ht Hrest) as (s' & z & Hback & Hz).
  rewrite (TrimSpace_padded before _ after c s z s' Hb Ha Hfront Hback Hc Hz).
  rewrite ReplaceAllLiteralString_spaced by done.
  rewrite <- (map_map snd (fun t' => (O, t'))).
  apply Split_spaced; [done|]. by apply Forall_map.
Qed.

(** C8, where it fails.  The pattern of [stripSpaces] is two spaces and a
    [+]: it finds runs of space characters only.  A tab between two tokens
    stays, [strings.Split] on the space does not separate them, and the line
    has one token where the same line written with a space has two; a run
    of tabs is not even collapsed. *)
Lemma stripSpaces_keeps_tabs :
  fst (stripSpaces (bytes "1" ++ tab :: bytes "2" ++ [nl])) = bytes "1" ++ tab :: bytes "2"
  /\ tokens (bytes "1" ++ tab :: bytes "2" ++ [nl]) = [bytes "1" ++ tab :: bytes "2"]
  /\ tokens (bytes "1 2" ++ [nl]) = [bytes "1"; bytes "2"]
  /\ fst (stripSpaces (bytes "1" ++ tab :: tab :: bytes "2" ++ [nl]))
     = bytes "1" ++ tab :: tab :: bytes "2".
Proof. by vm_compute. Qed.

(** What follows for the reader: a data line whose two values are separated
    by a tab counts as a line of one token and is passed over, and a header
    line whose value follows a tab has no second token. *)
Lemma tab_separated_lines :
  (exists ceg,
     ReadEsriGridFromFile AsMeant MakeEsriGrid
       (Some (unlines (map headerLine shortHeader
                       ++ [bytes "1" ++ tab :: bytes "2"; bytes "3 4"; bytes "5 6"]))) false
     = Return (ceg, None)
     /\ Height ceg 0 0 = Return zero32 /\ Height ceg 0 1 = Return zero32
     /\ Height ceg 1 0 = Return (ofZ 3))
  /\ ReadEsriGridFromFile AsMeant MakeEsriGrid
       (Some (unlines [bytes "ncols" ++ tab :: bytes "2"])) false = Panic.
Proof.
  split; [|by vm_compute].
  eexists. split; [vm_compute; reflexivity|]. by vm_compute.
Qed.

(** ** The extrema with the comparison of line 162 in place *)

(** The order of [SpecFloat] on values that are not NaN. *)
Ltac cmp_cases :=
  repeat match goal with
  | H : context [Z.compare ?a ?b] |- _ => destruct (Z.compare_spec a b); simpl in H
  | H : context [Pos.compare_cont Eq ?a ?b] |- _ =>
      change (Pos.compare_cont Eq a b) with (Pos.compare a b) in H;
      destruct (Pos.compare_spec a b); simpl in H
  | |- context [Z.compare ?a ?b] => destruct (Z.compare_spec a b); simpl
  | |- context [Pos.compare_cont Eq ?a ?b] =>
      change (Pos.compare_cont Eq a b) with (Pos.compare a b);
      destruct (Pos.compare_spec a b); simpl
  end.

Lemma fle_trans a b c : fle a b = true -> fle b c = true -> fle a c = true.
Proof.
  unfold fle, SFleb, SFcompare.
  destruct a as [sa|sa| |sa ma ea], b as [sb|sb| |sb mb eb], c as [sc|sc| |sc mc ec];
    try destruct sa; try destruct sb; try destruct sc; simpl; try congruence;
    intros H1 H2; cmp_cases; subst; try congruence; try lia.
Qed.

Lemma fle_refl a : is_nan a = false -> fle a a = true.
Proof.
  unfold fle, SFleb, SFcompare.
  destruct a as [s|s| |s m e]; try destruct s; simpl; try congruence;
    intros _; cmp_cases; try congruence; try lia.
Qed.

Lemma fle_total a b :
  is_nan a = false -> is_nan b = false -> flt b a = false -> fle a b = true.
Proof.
  unfold fle, flt, SFleb, SFltb, SFcompare.
  destruct a as [sa|sa| |sa ma ea], b as [sb|sb| |sb mb eb];
    try destruct sa; try destruct sb; simpl; try congruence;
    intros _ _ H; cmp_cases; subst; try congruence; try lia.
Qed.

Lemma flt_fle a b : flt a b = true -> fle a b = true.
Proof. unfold fle, flt, SFleb, SFltb. destruct (SFcompare a b) as [[]|]; congruence. Qed.

Lemma fle_not_nan a b : fle a b = true -> is_nan a = false /\ is_nan b = false.
Proof.
  unfold fle, SFleb, SFcompare. destruct a, b; simpl; try congruence; auto.
Qed.

(** A NaN sample is where the bounds end even then: it is not the no-data
    value, it becomes both extrema, and no comparison with it holds. *)
Lemma SetHeight_as_meant_nan :
  exists ceg,
    SetHeight AsMeant grid1 0 0 S754_nan = Return ceg
    /\ MaxHeight ceg = S754_nan /\ MinHeight ceg = S754_nan
    /\ fle (MinHeight ceg) (MaxHeight ceg) = false.
Proof. eexists. split; [vm_compute; reflexivity|]. by vm_compute. Qed.

Lemma SetHeight_as_meant_step ceg seen row col h ceg' :
  extremaOf ceg seen ->
  row < nrows ceg -> col < ncols ceg -> is_nan h = false ->
  SetHeight AsMeant ceg row col h = Return ceg' ->
  sameHeader ceg ceg'
  /\ extremaOf ceg' (if feq h (noDataValue ceg) then seen else h :: seen).
Proof.
  intros (Hflags & Hunset & Hset) Hrow Hcol Hnan.
  rewrite SetHeight_past_guard by done.
  destruct (store (height ceg) row col h) as [m|]; [|done].
  cbv zeta. unfold isNoData.
  change (noDataValue (with_height ceg m)) with (noDataValue ceg).
  destruct (feq h (noDataValue ceg)).
  { intros [= <-]. split; [by repeat split|].
    exact (conj Hflags (conj Hunset Hset)). }
  change (maxHeightSet (with_height ceg m)) with (maxHeightSet ceg).
  change (maxHeight (with_height ceg m)) with (maxHeight ceg).
  pose proof (fle_refl h Hnan) as Hhh.
  destruct (maxHeightSet ceg) eqn:Emax.
  - destruct (Hset eq_refl) as [Hmm Hall]. clear Hunset Hset.
    destruct (fle_not_nan _ _ Hmm) as [Hnmin Hnmax].
    destruct (fgt h (maxHeight ceg)) eqn:Egt; unfold fgt in Egt.
    + (* a new maximum *)
      apply flt_fle in Egt as Hmaxh.
      pose proof (fle_trans _ _ _ Hmm Hmaxh) as Hminh.
      simpl. rewrite Hflags.
      destruct (flt h (minHeight ceg)) eqn:Elt.
      * intros [= <-]. split; [by repeat split|]. simpl.
        split; [done|]. split; [done|]. intros _. split; [done|].
        constructor; [done|]. apply flt_fle in Elt.
        eapply Forall_impl; [exact Hall|]. intros v [Hv1 Hv2]. split.
        -- by eapply fle_trans.
        -- by eapply fle_trans.
      * intros [= <-]. split; [by repeat split|]. simpl.
        split; [done|]. split; [done|]. intros _. split; [done|].
        constructor; [done|].
        eapply Forall_impl; [exact Hall|]. intros v [Hv1 Hv2]. split; [done|].
        by eapply fle_trans.
    + (* not above the maximum *)
      pose proof (fle_total h (maxHeight ceg) Hnan Hnmax Egt) as Hhmax.
      unfold with_height. simpl. rewrite Hflags, Emax.
      destruct (flt h (minHeight ceg)) eqn:Elt.
      * intros [= <-]. split; [by repeat split|]. simpl.
        split; [done|]. split; [done|]. intros _. split; [done|].
        constructor; [done|]. apply flt_fle in Elt.
        eapply Forall_impl; [exact Hall|]. intros v [Hv1 Hv2]. split; [|done].
        by eapply fle_trans.
      * pose proof (fle_total (minHeight ceg) h Hnmin Hnan Elt) as Hminh.
        intros [= <-]. split; [by repeat split|]. simpl.
        split; [done|]. split; [done|]. intros _. split; [done|].
        by constructor.
  - (* the first sample *)
    rewrite (Hunset eq_refl). simpl. rewrite Hflags.
    intros [= <-]. split; [by repeat split|]. simpl.
    split; [done|]. split; [done|]. intros _. split; [done|].
    by repeat constructor.
Qed.

Lemma samplesOf_incl nd calls : forall seen v, v ∈ seen -> v ∈ samplesOf nd calls seen.
Proof.
  induction calls as [|[[r c] h] calls IH]; intros seen v Hv; [done|].
  simpl. apply IH. destruct (feq h nd); [done|]. by right.
Qed.

Lemma samplesOf_written nd calls : forall seen row col h,
  (row, col, h) ∈ calls -> feq h nd = false -> h ∈ samplesOf nd calls seen.
Proof.
  induction calls as [|[[r c] h0] calls IH]; intros seen row col h Hin Hnd.
  - by apply elem_of_nil in Hin.
  - apply elem_of_cons in Hin as [[= -> -> ->]|Hin].
    + simpl. rewrite Hnd. apply samplesOf_incl. by left.
    + simpl. by eapply IH.
Qed.

Lemma SetHeights_as_meant calls : forall ceg seen ceg',
  extremaOf ceg seen ->
  Forall (fun c => c.1.1 < nrows ceg /\ c.1.2 < ncols ceg /\ is_nan c.2 = false) calls ->
  SetHeights AsMeant ceg calls = Return ceg' ->
  sameHeader ceg ceg' /\ extremaOf ceg' (samplesOf (noDataValue ceg) calls seen).
Proof.
  induction calls as [|[[row col] h] calls IH]; intros ceg seen ceg' Hinv Hcalls.
  - intros [= <-]. split; [apply sameHeader_refl | done].
  - inversion Hcalls as [|? ? (Hrow & Hcol & Hnan) Hcalls']; subst. simpl in *.
    destruct (SetHeight AsMeant ceg row col h) as [ceg1|] eqn:E1; [|done].
    cbn [obind]. intros Hrun.
    destruct (SetHeight_as_meant_step ceg seen row col h ceg1 Hinv Hrow Hcol Hnan E1)
      as [Hsame1 Hinv1].
    pose proof Hsame1 as (Hc & Hn & _ & _ & _ & Hnd & _).
    destruct (IH ceg1 _ ceg' Hinv1) as [Hsame' Hinv']; [|done|].
    + eapply Forall_impl; [exact Hcalls'|]. intros c. rewrite Hc, Hn. done.
    + split; [by eapply sameHeader_trans|]. by rewrite Hnd in Hinv'.
Qed.

(** What C2 says, for the comparison that line 162 was meant to make: from
    a grid whose extrema are unset, after any sequence of calls that pass
    the guard and whose samples are not NaN, every sample written that is
    not the no-data value lies between [MinHeight()] and [MaxHeight()], and
    once set the two are in order. *)
Lemma SetHeight_as_meant_bounds (ceg0 ceg : ConcreteEsriGrid)
    (calls : list (Z * Z * float32)) :
  minHeightSet ceg0 = false -> maxHeightSet ceg0 = false ->
  Forall (fun c => c.1.1 < nrows ceg0 /\ c.1.2 < ncols ceg0 /\ is_nan c.2 = false) calls ->
  SetHeights AsMeant ceg0 calls = Return ceg ->
  (forall row col h,
     (row, col, h) ∈ calls -> feq h (NoDataValue ceg0) = false ->
     fle (MinHeight ceg) h = true /\ fle h (MaxHeight ceg) = true)
  /\ (minHeightSet ceg = true -> maxHeightSet ceg = true ->
      fle (MinHeight ceg) (MaxHeight ceg) = true).
Proof.
  intros Hmin Hmax Hcalls Hrun.
  destruct (SetHeights_as_meant calls ceg0 [] ceg) as [_ (Hflags & Hunset & Hset)];
    [|done|done|].
  { split; [congruence|]. split; [done|]. rewrite Hmax. discriminate. }
  split.
  - intros row col h Hin Hnd. unfold NoDataValue in Hnd.
    pose proof (samplesOf_written _ calls [] row col h Hin Hnd) as Hs.
    destruct (maxHeightSet ceg) eqn:E.
    + destruct (Hset eq_refl) as [_ Hall].
      rewrite Forall_forall in Hall. by apply Hall.
    + rewrite (Hunset eq_refl) in Hs. by apply elem_of_nil in Hs.
  - intros _ Hm. by destruct (Hset Hm).
Qed.

(** ** Further properties of the reader, on examples *)

(** The loop over the data lines ends for every input. *)
Lemma dataLoop_ends `{Scan : Sscanf} rd ceg r row lineNum linesExpected vb :
  exists o, dataLoop (S (length r)) rd ceg r row lineNum linesExpected vb = Some o.
Proof. apply dataLoop_total. lia. Qed.

(** A file that cannot be opened: the error of [os.Open] is returned and
    the grid is untouched. *)
Lemma ReadEsriGridFromFile_no_file `{Scan : Sscanf} `{Run : Runtime} rd ceg vb :
  ReadEsriGridFromFile rd ceg None vb = Return (ceg, Some PathError).
Proof. reflexivity. Qed.

Lemma SetHeight_negative_witness :
  (-1 < nrows grid1) /\ (0 < ncols grid1) /\ (-1 < 0 \/ 0 < 0)
  /\ SetHeight AsWritten grid1 (-1) 0 (ofZ 5) = Panic.
Proof.
  split; [reflexivity|]. split; [reflexivity|]. split; [left; reflexivity|].
  apply (SetHeight_negative AsWritten grid1 (-1) 0 (ofZ 5));
    [reflexivity | reflexivity | left; reflexivity].
Defined.

Lemma shortHeader_reads :
  headerReads (map headerLine shortHeader) 2 3 zero32 zero32 (ofZ 50) (ofZ (-9999)).
Proof. apply goodHeader_reads, shortHeader_good. Qed.

Lemma ReadEsriGridFromFile_bad_token_witness :
  headerReads (map headerLine shortHeader) 2 3 zero32 zero32 (ofZ 50) (ofZ (-9999))
  /\ 0 <= 3 /\ 0 <= 2 /\ matrixAllocates 3 2
  /\ Forall (lineOK 2) [bytes "1 2"] /\ Z.of_nat (length [bytes "1 2"]) < 3
  /\ (nl ∉ bytes "3 x")
  /\ Z.of_nat (length (tokens (bytes "3 x" ++ [nl]))) = 2
  /\ mapM Sscanf_f (tokens (bytes "3 x" ++ [nl])) = None
  /\ exists ceg,
       ReadEsriGridFromFile AsWritten MakeEsriGrid
         (Some (unlines (map headerLine shortHeader ++ [bytes "1 2"] ++ [bytes "3 x"])
                ++ unlines [bytes "5 6"])) false
       = Return (ceg, Some ScanError)
       /\ ncols ceg = 2 /\ nrows ceg = 3.
Proof.
  assert (Forall (lineOK 2) [bytes "1 2"]) as Hpre.
  { repeat (apply List.Forall_cons || apply List.Forall_nil). split; [no_nl|].
    right. eexists. vm_compute. reflexivity. }
  split; [exact shortHeader_reads|].
  split; [lia|]. split; [lia|]. split; [granted|].
  split; [exact Hpre|]. split; [reflexivity|].
  split; [no_nl|]. split; [reflexivity|]. split; [reflexivity|].
  apply (ReadEsriGridFromFile_bad_token AsWritten MakeEsriGrid false
           (map headerLine shortHeader) 2 3 zero32 zero32 (ofZ 50) (ofZ (-9999))
           [bytes "1 2"] (bytes "3 x") (unlines [bytes "5 6"])).
  - exact shortHeader_reads.
  - lia.
  - lia.
  - granted.
  - exact Hpre.
  - reflexivity.
  - no_nl.
  - reflexivity.
  - reflexivity.
Defined.

Lemma header_unreadable_value_witness :
  (length [bytes "ncols 2"; bytes "nrows 3"] < 6)%nat
  /\ Forall (fun l => nl ∉ l) ([bytes "ncols 2"; bytes "nrows 3"] ++ [bytes "xllcorner abc"])
  /\ (forall k l, [bytes "ncols 2"; bytes "nrows 3"] !! k = Some l -> valueReadable k l)
  /\ valueUnreadable (length [bytes "ncols 2"; bytes "nrows 3"]) (bytes "xllcorner abc")
  /\ dimensionsOK [bytes "ncols 2"; bytes "nrows 3"]
  /\ exists ceg,
       ReadEsriGridFromFile AsWritten MakeEsriGrid
         (Some (unlines ([bytes "ncols 2"; bytes "nrows 3"] ++ [bytes "xllcorner abc"])
                ++ [])) false
       = Return (ceg, Some ScanError).
Proof.
  assert (forall k l, [bytes "ncols 2"; bytes "nrows 3"] !! k = Some l -> valueReadable k l)
    as Hgood.
  { intros [|[|k]] l Hl; [| |done]; injection Hl as <-.
    - exists (bytes "2"). split; [reflexivity|]. eexists. reflexivity.
    - exists (bytes "3"). split; [reflexivity|]. eexists. reflexivity. }
  assert (valueUnreadable (length [bytes "ncols 2"; bytes "nrows 3"]) (bytes "xllcorner abc"))
    as Hbad.
  { exists (bytes "abc"). split; reflexivity. }
  assert (dimensionsOK [bytes "ncols 2"; bytes "nrows 3"]) as Hdims.
  { intros l1 l2 nc nr [= <-] [= <-] H1 H2. vm_compute in H1, H2.
    injection H1 as <-. injection H2 as <-.
    split; [lia|]. split; [lia | granted]. }
  assert (Forall (fun l => nl ∉ l)
            ([bytes "ncols 2"; bytes "nrows 3"] ++ [bytes "xllcorner abc"])) as Hnl.
  { repeat (apply List.Forall_cons || apply List.Forall_nil); no_nl. }
  split; [simpl; lia|]. split; [exact Hnl|]. split; [exact Hgood|].
  split; [exact Hbad|]. split; [exact Hdims|].
  apply (header_unreadable_value AsWritten MakeEsriGrid false
           [bytes "ncols 2"; bytes "nrows 3"] (bytes "xllcorner abc") []);
    [simpl; lia | exact Hnl | exact Hgood | exact Hbad | exact Hdims].
Defined.

Lemma tokens_padded_witness :
  Forall (fun c => asciiSpace c = true) [sp; tab]
  /\ Forall (fun c => asciiSpace c = true) [ascii_of_N 13]
  /\ plainToken (bytes "ncols")
  /\ Forall (fun p => plainToken (snd p)) [(7%nat, bytes "4")]
  /\ tokens ([sp; tab] ++ spaced (bytes "ncols") [(7%nat, bytes "4")]
             ++ [ascii_of_N 13] ++ [nl])
     = bytes "ncols" :: map snd [(7%nat, bytes "4")].
Proof.
  assert (Forall (fun c => asciiSpace c = true) [sp; tab]) as H1 by by repeat constructor.
  assert (Forall (fun c => asciiSpace c = true) [ascii_of_N 13]) as H2 by by repeat constructor.
  assert (plainToken (bytes "ncols")) as H3 by plain.
  assert (Forall (fun p => plainToken (snd p)) [(7%nat, bytes "4")]) as H4 by plain.
  split; [exact H1|]. split; [exact H2|]. split; [exact H3|]. split; [exact H4|].
  exact (tokens_padded [sp; tab] (bytes "ncols") [(7%nat, bytes "4")] [ascii_of_N 13]
           H1 H2 H3 H4).
Defined.

(** * More about [SetHeight] and [Height] *)

(** ** Writing and reading a cell *)

Lemma Height_height a b row col : height a = height b -> Height a row col = Height b row col.
Proof. unfold Height. by intros ->. Qed.

(** The matrix after a store, cell by cell. *)
Lemma Height_after_store ceg m row col v r c :
  store (height ceg) row col v = Some m ->
  Height (with_height ceg m) r c
  = if (r =? row) && (c =? col) then Return v else Height ceg r c.
Proof.
  intros Hst. apply store_Some in Hst as (cells & old & Hrow & Hcol & ->).
  apply index_Some in Hrow as [Hr0 Hrow]. apply index_Some in Hcol as [Hc0 Hcol].
  unfold Height, index. simpl.
  destruct (Z.ltb_spec r 0) as [Hneg|Hr].
  { by destruct (Z.eqb_spec r row); [lia|]. }
  destruct (Z.eqb_spec r row) as [->|Hne]; simpl.
  - rewrite list_lookup_insert_eq by by eapply lookup_lt_Some.
    rewrite Hrow.
    destruct (Z.ltb_spec c 0) as [Hneg|Hc].
    { by destruct (Z.eqb_spec c col); [lia|]. }
    destruct (Z.eqb_spec c col) as [->|Hne].
    + by rewrite list_lookup_insert_eq by by eapply lookup_lt_Some.
    + rewrite list_lookup_insert_ne by lia. done.
  - rewrite list_lookup_insert_ne by lia. done.
Qed.

(** A call of [SetHeight] for a cell of an allocated matrix. *)
Lemma SetHeight_allocated rd ceg row col h :
  allocated ceg -> 0 <= row < nrows ceg -> 0 <= col < ncols ceg ->
  exists ceg' m,
    SetHeight rd ceg row col h = Return ceg'
    /\ store (height ceg) row col h = Some m /\ height ceg' = m
    /\ sameHeader ceg ceg' /\ allocated ceg'.
Proof.
  intros Halloc Hrow Hcol. pose proof Halloc as [Hlen Hrows].
  destruct (lookup_lt_is_Some_2 (height ceg) (Z.to_nat row)) as [cells Hcells]; [lia|].
  assert (Z.of_nat (length cells) = ncols ceg) as Hclen.
  { eapply Forall_lookup_1 in Hrows; eauto. }
  destruct (lookup_lt_is_Some_2 cells (Z.to_nat col)) as [old Hold]; [lia|].
  assert (store (height ceg) row col h
          = Some (<[Z.to_nat row := <[Z.to_nat col := h]> cells]> (height ceg))) as Hst.
  { apply store_Some. exists cells, old.
    split; [apply index_Some; split; [lia | done]|].
    split; [apply index_Some; split; [lia | done] | done]. }
  destruct (SetHeight_stored rd ceg row col h _ ltac:(lia) ltac:(lia) Hst)
    as (ceg' & Hset & Hsame & Hh).
  exists ceg', (<[Z.to_nat row := <[Z.to_nat col := h]> cells]> (height ceg)).
  split; [done|]. split; [done|]. split; [done|]. split; [done|].
  eapply (allocated_insert ceg); [done | done | done |].
  by rewrite length_insert.
Qed.

(** [SetHeight] followed by [Height].  On an allocated grid a call of
    [SetHeight] for a cell of the matrix returns; afterwards [Height] gives
    the value for this cell and what it gave before for every other pair of
    indices, the header values are the same and the matrix has kept its
    shape.  This is so for both readings of line 162. *)
Theorem SetHeight_then_Height (rd : line162) (ceg : ConcreteEsriGrid) (row col : Z)
    (h : float32) :
  allocated ceg -> 0 <= row < nrows ceg -> 0 <= col < ncols ceg ->
  exists ceg',
    SetHeight rd ceg row col h = Return ceg'
    /\ Height ceg' row col = Return h
    /\ (forall r c, r <> row \/ c <> col -> Height ceg' r c = Height ceg r c)
    /\ sameHeader ceg ceg' /\ allocated ceg'.
Proof.
  intros Halloc Hrow Hcol.
  destruct (SetHeight_allocated rd ceg row col h Halloc Hrow Hcol)
    as (ceg' & m & Hset & Hst & Hh & Hsame & Halloc').
  exists ceg'. split; [done|].
  assert (forall r c, Height ceg' r c = Height (with_height ceg m) r c) as Hread.
  { intros r c. by apply Height_height. }
  split; [|split; [|done]].
  - rewrite Hread, (Height_after_store _ _ _ _ _ _ _ Hst).
    by rewrite !Z.eqb_refl.
  - intros r c Hne. rewrite Hread, (Height_after_store _ _ _ _ _ _ _ Hst).
    destruct (Z.eqb_spec r row), (Z.eqb_spec c col); simpl; try done.
    destruct Hne; done.
Qed.

Lemma SetHeight_then_Height_witness :
  allocated grid1 /\ (0 <= 0 < nrows grid1) /\ (0 <= 0 < ncols grid1)
  /\ exists ceg',
       SetHeight AsMeant grid1 0 0 (ofZ 5) = Return ceg'
       /\ Height ceg' 0 0 = Return (ofZ 5)
       /\ (forall r c, r <> 0 \/ c <> 0 -> Height ceg' r c = Height grid1 r c)
       /\ sameHeader grid1 ceg' /\ allocated ceg'.
Proof.
  assert (allocated grid1) as Halloc.
  { split; [reflexivity | by repeat constructor]. }
  split; [exact Halloc|]. split; [simpl; lia|]. split; [simpl; lia|].
  apply (SetHeight_then_Height AsMeant grid1 0 0 (ofZ 5) Halloc); simpl; lia.
Defined.

(** ** A NaN among the samples, and the setters of the dimensions *)

(** Extrema that are NaN stay NaN: no sample is above or below a NaN. *)
Lemma SetHeight_as_meant_nan_kept ceg row col h ceg' :
  maxHeightSet ceg = true -> minHeightSet ceg = true ->
  maxHeight ceg = S754_nan -> minHeight ceg = S754_nan ->
  SetHeight AsMeant ceg row col h = Return ceg' ->
  maxHeightSet ceg' = true /\ minHeightSet ceg' = true
  /\ maxHeight ceg' = S754_nan /\ minHeight ceg' = S754_nan.
Proof.
  intros Hmaxs Hmins Hmax Hmin. unfold SetHeight.
  destruct ((row >=? nrows ceg) || (col >=? ncols ceg)); [by intros [= <-]|].
  destruct (store (height ceg) row col h) as [m|]; [|done]. cbv zeta.
  destruct (isNoData AsMeant (with_height ceg m) h); [by intros [= <-]|].
  change (maxHeightSet (with_height ceg m)) with (maxHeightSet ceg).
  change (maxHeight (with_height ceg m)) with (maxHeight ceg).
  rewrite Hmaxs, Hmax.
  assert (fgt h S754_nan = false) as -> by by destruct h.
  change (minHeightSet (with_height ceg m)) with (minHeightSet ceg).
  change (minHeight (with_height ceg m)) with (minHeight ceg).
  rewrite Hmins, Hmin.
  assert (flt h S754_nan = false) as -> by by destruct h.
  by intros [= <-].
Qed.

Lemma SetHeights_as_meant_nan_kept calls : forall ceg ceg',
  maxHeightSet ceg = true -> minHeightSet ceg = true ->
  maxHeight ceg = S754_nan -> minHeight ceg = S754_nan ->
  SetHeights AsMeant ceg calls = Return ceg' ->
  maxHeight ceg' = S754_nan /\ minHeight ceg' = S754_nan.
Proof.
  induction calls as [|[[row col] h] calls IH]; intros ceg ceg' Hmaxs Hmins Hmax Hmin.
  - by intros [= <-].
  - simpl. destruct (SetHeight AsMeant ceg row col h) as [ceg1|] eqn:Hset; [|done].
    cbn [obind].
    destruct (SetHeight_as_meant_nan_kept _ _ _ _ _ Hmaxs Hmins Hmax Hmin Hset)
      as (? & ? & ? & ?).
    by apply IH.
Qed.

(** A NaN that is written first fixes the extrema.  With the comparison of
    line 162 in place, a NaN is never equal to the no-data value; written
    to a grid without extrema it becomes the maximum and the minimum, and
    no sample written later is above or below it: [MaxHeight] and
    [MinHeight] are NaN from then on. *)
Theorem nan_sample_fixes_extrema (ceg ceg' : ConcreteEsriGrid) (row col : Z)
    (calls : list (Z * Z * float32)) :
  row < nrows ceg -> col < ncols ceg ->
  maxHeightSet ceg = false -> minHeightSet ceg = false ->
  SetHeights AsMeant ceg ((row, col, S754_nan) :: calls) = Return ceg' ->
  MaxHeight ceg' = S754_nan /\ MinHeight ceg' = S754_nan.
Proof.
  intros Hrow Hcol Hmaxs Hmins. simpl.
  rewrite SetHeight_past_guard by done.
  destruct (store (height ceg) row col S754_nan) as [m|]; [|done]. cbv zeta.
  change (isNoData AsMeant (with_height ceg m) S754_nan) with false. cbv iota.
  change (maxHeightSet (with_height ceg m)) with (maxHeightSet ceg). rewrite Hmaxs.
  cbv iota.
  change (minHeightSet (with_maxHeight (with_height ceg m) S754_nan true))
    with (minHeightSet ceg).
  rewrite Hmins. cbv iota. cbn [obind]. intros Hcalls.
  by apply (SetHeights_as_meant_nan_kept calls
              (with_minHeight (with_maxHeight (with_height ceg m) S754_nan true)
                 S754_nan true) ceg').
Qed.

Lemma nan_sample_fixes_extrema_witness :
  (0 < nrows grid1) /\ (0 < ncols grid1)
  /\ maxHeightSet grid1 = false /\ minHeightSet grid1 = false
  /\ SetHeights AsMeant grid1 [(0, 0, S754_nan); (0, 0, ofZ 5)]
     = Return (with_minHeight (with_maxHeight (with_height grid1 [[ofZ 5]]) S754_nan true)
                 S754_nan true)
  /\ MaxHeight (with_minHeight (with_maxHeight (with_height grid1 [[ofZ 5]]) S754_nan true)
                  S754_nan true) = S754_nan.
Proof.
  assert (SetHeights AsMeant grid1 [(0, 0, S754_nan); (0, 0, ofZ 5)]
          = Return (with_minHeight (with_maxHeight (with_height grid1 [[ofZ 5]]) S754_nan true)
                      S754_nan true)) as Hset by (vm_compute; reflexivity).
  split; [simpl; lia|]. split; [simpl; lia|]. split; [reflexivity|]. split; [reflexivity|].
  split; [exact Hset|].
  apply (nan_sample_fixes_extrema grid1 _ 0 0 [(0, 0, ofZ 5)]);
    [simpl; lia | simpl; lia | reflexivity | reflexivity | exact Hset].
Defined.

(** The setters of the dimensions do not resize the matrix.  After
    [SetNCols] has raised [ncols] on an allocated grid, [SetHeight] lets the
    new columns through its guard and panics on the store, and [Height]
    panics for them as well; the same holds for [SetNRows] and new rows. *)
Theorem setters_do_not_resize (rd : line162) (ceg : ConcreteEsriGrid) (v row col : Z)
    (h : float32) :
  allocated ceg ->
  (0 <= row < nrows ceg -> ncols ceg <= col < v ->
   SetHeight rd (SetNCols ceg v) row col h = Panic
   /\ Height (SetNCols ceg v) row col = Panic)
  /\ (nrows ceg <= row < v -> 0 <= col < ncols ceg ->
      SetHeight rd (SetNRows ceg v) row col h = Panic
      /\ Height (SetNRows ceg v) row col = Panic).
Proof.
  intros [Hlen Hrows]. split; intros Hrow Hcol.
  - destruct (lookup_lt_is_Some_2 (height ceg) (Z.to_nat row)) as [cells Hcells]; [lia|].
    assert (Z.of_nat (length cells) = ncols ceg) as Hclen.
    { eapply Forall_lookup_1 in Hrows; eauto. }
    assert (forall w, store (height ceg) row col w = None) as Hst.
    { intros w. apply store_None. right. exists cells.
      split; [apply index_Some; split; [lia | done]|].
      apply index_None. lia. }
    split.
    + rewrite SetHeight_past_guard by (simpl; lia). simpl. by rewrite Hst.
    + apply Height_Panic. apply Hst.
  - assert (forall w, store (height ceg) row col w = None) as Hst.
    { intros w. apply store_None. left. apply index_None. lia. }
    split.
    + rewrite SetHeight_past_guard by (simpl; lia). simpl. by rewrite Hst.
    + apply Height_Panic. apply Hst.
Qed.

Lemma setters_do_not_resize_witness :
  allocated grid1
  /\ SetHeight AsWritten (SetNCols grid1 3) 0 2 (ofZ 5) = Panic
  /\ Height (SetNCols grid1 3) 0 2 = Panic
  /\ SetHeight AsWritten (SetNRows grid1 3) 2 0 (ofZ 5) = Panic
  /\ Height (SetNRows grid1 3) 2 0 = Panic.
Proof.
  assert (allocated grid1) as Halloc.
  { split; [reflexivity | by repeat constructor]. }
  split; [exact Halloc|].
  destruct (setters_do_not_resize AsWritten grid1 3 0 2 (ofZ 5) Halloc) as [Hc _].
  destruct (setters_do_not_resize AsWritten grid1 3 2 0 (ofZ 5) Halloc) as [_ Hr].
  destruct Hc as [Hc1 Hc2]; [simpl; lia | simpl; lia |].
  destruct Hr as [Hr1 Hr2]; [simpl; lia | simpl; lia |].
  repeat split; assumption.
Defined.

(** * The reader on arbitrary files *)

Section AnyFile.

Context `{Scan : Sscanf} `{Run : Runtime}.

(** [ReadEsriGridFromFile] is its header part followed by the loop over the
    data lines. *)
Lemma ReadEsriGridFromFile_parts rd ceg0 file vb :
  ReadEsriGridFromFile rd ceg0 (Some file) vb
  = do (ceg, x) <- headerPart ceg0 file vb;
    match x with
    | inl e => Return (ceg, Some e)
    | inr r =>
        match dataLoop (S (length r)) rd ceg r 0 6 (nrows ceg + 6) vb with
        | Some o => o
        | None => Panic
        end
    end.
Proof.
  unfold ReadEsriGridFromFile, headerPart.
  repeat match goal with
  | |- context [readIntFromHeader ?r ?n ?v] =>
      destruct (readIntFromHeader r n v) as [[[? [?|]] ?]|]; cbn [obind]; try reflexivity
  | |- context [readFloat32FromHeader ?r ?n ?v] =>
      destruct (readFloat32FromHeader r n v) as [[[? [?|]] ?]|]; cbn [obind]; try reflexivity
  | |- context [make ?k ?sz ?z ?n] =>
      destruct (make k sz z n) as [?|]; cbn [obind]; try reflexivity
  | |- context [allocRows ?a ?b ?c ?d] =>
      destruct (allocRows a b c d) as [?|]; cbn [obind]; try reflexivity
  end.
Qed.

(** The columns of a data line from column [col] on, on an allocated grid
    with room for them: no panic, the shape of the matrix stays, and so does
    every property [I] of the grid that no call of [SetHeight] breaks. *)
Lemma scanRow_invariant (I : ConcreteEsriGrid -> Prop) rd vb row :
  (forall ceg r c h ceg', I ceg -> SetHeight rd ceg r c h = Return ceg' -> I ceg') ->
  forall toks ceg col,
    allocated ceg -> I ceg -> 0 <= row < nrows ceg -> 0 <= col ->
    col + Z.of_nat (length toks) <= ncols ceg ->
    exists ceg' e,
      scanRow rd ceg row col toks vb = Return (ceg', e)
      /\ (e = None \/ e = Some ScanError)
      /\ sameHeader ceg ceg' /\ allocated ceg' /\ I ceg'.
Proof.
  intros HI. induction toks as [|tok toks IH]; intros ceg col Halloc Hinv Hrow Hcol Hlen.
  - exists ceg, None. simpl. eauto 10 using sameHeader_refl.
  - simpl in Hlen. simpl. destruct (Sscanf_f tok) as [v|].
    + destruct (SetHeight_allocated rd ceg row col v Halloc Hrow ltac:(lia))
        as (ceg1 & m & Hset & Hst & Hh & Hsame & Halloc1).
      rewrite Hset. cbn [obind].
      assert ((if vb then Height ceg1 row col else Return v) = Return v) as ->.
      { destruct vb; [|done].
        rewrite (Height_height ceg1 (with_height ceg m)) by done.
        by rewrite (Height_after_store _ _ _ _ _ _ _ Hst), !Z.eqb_refl. }
      cbn [obind]. pose proof Hsame as (Hc1 & Hn1 & _).
      destruct (IH ceg1 (col + 1)) as (ceg' & e & Hscan & He & Hsame' & Halloc' & Hinv');
        [done | by eapply HI | lia | lia | lia |].
      exists ceg', e. split; [done|]. split; [done|].
      split; [by eapply sameHeader_trans | done].
    + exists ceg, (Some ScanError). eauto 10 using sameHeader_refl.
Qed.

(** The loop over the data lines, started as [ReadEsriGridFromFile] starts
    it (line [row + 6] of the file is the one before row [row]): whatever
    the rest of the file holds, the loop does not panic, it ends without an
    error or with that of [Sscanf], and it keeps the header values, the
    shape of the matrix and every [I] as above. *)
Lemma dataLoop_invariant (I : ConcreteEsriGrid -> Prop) rd vb :
  (forall ceg r c h ceg', I ceg -> SetHeight rd ceg r c h = Return ceg' -> I ceg') ->
  forall fuel ceg r row o,
    allocated ceg -> I ceg -> 0 <= row ->
    dataLoop fuel rd ceg r row (row + 6) (nrows ceg + 6) vb = Some o ->
    exists ceg' e,
      o = Return (ceg', e)
      /\ (e = None \/ e = Some ScanError)
      /\ sameHeader ceg ceg' /\ allocated ceg' /\ I ceg'.
Proof.
  intros HI. induction fuel as [|fuel IH]; intros ceg r row o Halloc Hinv Hrow; [done|].
  rewrite dataLoop_S. destruct (ReadString r nl) as [[line [err|]] r'].
  { intros [= <-]. exists ceg, None. eauto 10 using sameHeader_refl. }
  destruct (Z.gtb_spec (row + 6 + 1) (nrows ceg + 6)) as [Hfull|Hleft].
  { intros [= <-]. exists ceg, None. eauto 10 using sameHeader_refl. }
  replace (row + 6 + 1) with (row + 1 + 6) by lia.
  destruct (Z.gtb_spec (Z.of_nat (length (tokens line))) (ncols ceg)) as [Hgt|Hle].
  { apply IH; [done | done | lia]. }
  destruct (Z.ltb_spec (Z.of_nat (length (tokens line))) (ncols ceg)) as [Hlt|Hge].
  { apply IH; [done | done | lia]. }
  destruct (scanRow_invariant I rd vb row HI (tokens line) ceg 0)
    as (ceg1 & e & -> & He & Hsame & Halloc1 & Hinv1); [done | done | lia | lia | lia |].
  pose proof Hsame as (Hc1 & Hn1 & _).
  destruct e as [e|].
  { intros [= <-]. exists ceg1, (Some e). eauto 10. }
  rewrite <- Hn1. intros Hloop.
  destruct (IH ceg1 r' (row + 1) o Halloc1 Hinv1 ltac:(lia) Hloop)
    as (ceg' & e & -> & He' & Hsame' & Halloc' & Hinv').
  exists ceg', e. split; [done|]. split; [done|].
  split; [by eapply sameHeader_trans | done].
Qed.

(** What the allocation of the matrix accepts. *)
Lemma make_Return {A} k size (zero : A) n l :
  make k size zero n = Return l -> 0 <= n /\ l = replicate (Z.to_nat n) zero.
Proof.
  unfold make. destruct (Z.ltb_spec n 0); [done|].
  destruct (allocates k (size * n)); [|done]. simpl. by intros [= <-].
Qed.

Lemma allocRows_Return todo n : forall i m m',
  m = replicate i (replicate (Z.to_nat n) zero32) ++ replicate todo [] ->
  allocRows todo (Z.of_nat i) n m = Return m' ->
  (todo <> 0%nat -> 0 <= n)
  /\ m' = replicate (i + todo) (replicate (Z.to_nat n) zero32).
Proof.
  induction todo as [|todo IH]; intros i m m' ->.
  - simpl. rewrite app_nil_r, Nat.add_0_r. by intros [= <-].
  - simpl. destruct (make (Z.of_nat i + 1) float32Size zero32 n) as [row|] eqn:Hrow; [|done].
    apply make_Return in Hrow as [Hn ->]. cbn [obind].
    replace (Z.of_nat i + 1) with (Z.of_nat (S i)) by lia.
    intros Hrest. apply IH in Hrest as [_ ->].
    + split; [done|]. f_equal. lia.
    + rewrite Nat2Z.id.
      replace i with (length (replicate i (replicate (Z.to_nat n) zero32)) + 0)%nat at 1
        by (rewrite length_replicate; lia).
      rewrite insert_app_r. simpl.
      by rewrite cons_middle, app_assoc, <- replicate_S_end.
Qed.

Lemma allocation nr nc m0 m :
  make 0 sliceSize [] nr = Return m0 -> allocRows (Z.to_nat nr) 0 nc m0 = Return m ->
  0 <= nr /\ (0 < nr -> 0 <= nc)
  /\ m = replicate (Z.to_nat nr) (replicate (Z.to_nat nc) zero32).
Proof.
  intros Hrows Hcells. apply make_Return in Hrows as [Hnr ->].
  apply (allocRows_Return (Z.to_nat nr) nc 0%nat) in Hcells as [Hnc ->]; [|done].
  split; [done|]. split; [|done]. intros Hpos. apply Hnc. lia.
Qed.

Ltac header_cases :=
  repeat match goal with
  | |- context [readIntFromHeader ?r ?n ?v] =>
      destruct (readIntFromHeader r n v) as [[[? [?|]] ?]|]; cbn [obind]
  | |- context [readFloat32FromHeader ?r ?n ?v] =>
      destruct (readFloat32FromHeader r n v) as [[[? [?|]] ?]|]; cbn [obind]
  | |- context [make ?k ?sz ?z ?n] =>
      let E := fresh "Emake" in destruct (make k sz z n) as [?|] eqn:E; cbn [obind]
  | |- context [allocRows ?a ?b ?c ?d] =>
      let E := fresh "Ealloc" in destruct (allocRows a b c d) as [?|] eqn:E; cbn [obind]
  end.

(** The header part leaves the extrema alone, and hands an allocated matrix
    to the loop over the data lines. *)
Lemma headerPart_result ceg0 file vb ceg x :
  headerPart ceg0 file vb = Return (ceg, x) ->
  sameExtrema ceg0 ceg
  /\ (forall r, x = inr r -> allocated ceg /\ 0 <= nrows ceg).
Proof.
  unfold headerPart. header_cases; intros H; try discriminate H;
    injection H as <- <-; (split; [by repeat split|]); intros r' Hr; try discriminate Hr.
  simpl in Emake, Ealloc.
  destruct (allocation _ _ _ _ Emake Ealloc) as (Hnr & Hnc & ->).
  split; [|done]. split; simpl.
  - rewrite length_replicate. lia.
  - destruct (Z.to_nat z0) as [|k] eqn:Hk; [by constructor|].
    apply Forall_replicate. rewrite length_replicate. lia.
Qed.

Lemma ReadEsriGridFromFile_shape rd ceg0 ceg file vb :
  ReadEsriGridFromFile rd ceg0 file vb = Return (ceg, None) ->
  allocated ceg /\ 0 <= nrows ceg.
Proof.
  destruct file as [file|]; [|done].
  rewrite ReadEsriGridFromFile_parts.
  destruct (headerPart ceg0 file vb) as [[ceg1 [e|r]]|] eqn:Hhead; cbn [obind]; try done.
  destruct (headerPart_result _ _ _ _ _ Hhead) as (_ & Hr).
  destruct (Hr r eq_refl) as [Halloc Hnr].
  destruct (dataLoop (S (length r)) rd ceg1 r 0 6 (nrows ceg1 + 6) vb) as [o|] eqn:Hloop;
    [|done].
  intros ->.
  destruct (dataLoop_invariant (fun _ => True) rd vb ltac:(done) _ _ _ 0 _ Halloc I
              ltac:(lia) Hloop) as (ceg' & e & [= <- <-] & _ & Hsame & Halloc' & _).
  destruct Hsame as (Hc & Hn & _).
  split; [done | lia].
Qed.

(** A read that returns no error leaves an allocated matrix.  Whatever the
    file holds and whatever the grid held before: when
    [ReadEsriGridFromFile] returns nil, the matrix has [nrows] rows of
    [ncols] cells each, [nrows] is not negative, and [Height] returns for
    every row and column in range. *)
Theorem ReadEsriGridFromFile_allocated (rd : line162) (ceg0 ceg : ConcreteEsriGrid)
    (file : option gostring) (vb : bool) :
  ReadEsriGridFromFile rd ceg0 file vb = Return (ceg, None) ->
  allocated ceg /\ 0 <= Nrows ceg
  /\ (forall row col, 0 <= row < Nrows ceg -> 0 <= col < Ncols ceg ->
       exists v, Height ceg row col = Return v).
Proof.
  intros Hread. destruct (ReadEsriGridFromFile_shape _ _ _ _ _ Hread) as [Halloc Hnr].
  split; [done|]. split; [done|].
  intros row col Hrow Hcol. by apply allocated_cell.
Qed.

(** Once the header is read, nothing in the file makes the reader panic.
    After six header lines whose values scan, with dimensions that are not
    negative and a matrix that the run-time system allocates,
    [ReadEsriGridFromFile] returns for every continuation of the file, with
    nil or with the error of [Sscanf]; the grid has the header values and
    an allocated matrix. *)
Theorem data_lines_never_panic (rd : line162) (ceg0 : ConcreteEsriGrid) (vb : bool)
    (hs : list gostring) (nc nr : Z) (x y cs nd : float32) (rest : gostring) :
  headerReads hs nc nr x y cs nd ->
  0 <= nr -> 0 <= nc -> matrixAllocates nr nc ->
  exists ceg e,
    ReadEsriGridFromFile rd ceg0 (Some (unlines hs ++ rest)) vb = Return (ceg, e)
    /\ (e = None \/ e = Some ScanError)
    /\ Ncols ceg = nc /\ Nrows ceg = nr
    /\ Xllcorner ceg = x /\ Yllcorner ceg = y /\ CellSize ceg = cs /\ NoDataValue ceg = nd
    /\ allocated ceg.
Proof.
  intros Hhead Hnr Hnc Hmem.
  rewrite (ReadEsriGridFromFile_header rd ceg0 vb hs nc nr x y cs nd rest Hhead Hnr Hnc
             Hmem).
  destruct (dataLoop_total (S (length rest)) rd (afterHeader ceg0 nc nr x y cs nd) rest
              0 6 (nr + 6) vb ltac:(lia)) as [o Hloop].
  rewrite Hloop.
  destruct (dataLoop_invariant (fun _ => True) rd vb ltac:(done) _
              (afterHeader ceg0 nc nr x y cs nd) _ 0 _
              (afterHeader_allocated ceg0 nc nr x y cs nd Hnr Hnc) I ltac:(lia) Hloop)
    as (ceg & e & -> & He & Hsame & Halloc & _).
  exists ceg, e. split; [done|]. split; [done|].
  destruct Hsame as (Hc & Hn & Hx & Hy & Hcs & Hnd & _).
  repeat (split; [done|]). done.
Qed.


(** What the data lines leave in the grid.  After six header lines whose
    values scan (the names are not looked at), with dimensions that are not
    negative and a matrix that the run-time system allocates, come data
    lines none of which has a token that does not scan among exactly [nc]
    tokens, and then an unfinished line or, when at least [nr] data lines
    are there, anything.  [ReadEsriGridFromFile]
    returns nil, the accessors give the header values, and the matrix is
    the matrix of zeros in which row [k] holds the values of data line [k],
    for every [k] below [nr] whose line has exactly [nc] tokens. *)
Theorem data_lines_fill_rows (rd : line162) (ceg0 : ConcreteEsriGrid) (vb : bool)
    (hs : list gostring) (nc nr : Z) (x y cs nd : float32)
    (ls : list gostring) (tail : gostring) :
  headerReads hs nc nr x y cs nd ->
  0 <= nr -> 0 <= nc -> matrixAllocates nr nc ->
  Forall (lineOK nc) ls ->
  (nl ∉ tail) \/ nr <= Z.of_nat (length ls) ->
  exists ceg,
    ReadEsriGridFromFile rd ceg0 (Some (unlines (hs ++ ls) ++ tail)) vb = Return (ceg, None)
    /\ Ncols ceg = nc /\ Nrows ceg = nr
    /\ Xllcorner ceg = x /\ Yllcorner ceg = y /\ CellSize ceg = cs /\ NoDataValue ceg = nd
    /\ height ceg
       = fillRows nc (replicate (Z.to_nat nr) (replicate (Z.to_nat nc) zero32)) 0 ls
    /\ (forall k l vs col v,
          ls !! k = Some l -> Z.of_nat k < nr -> rowOf nc l = Some vs ->
          vs !! col = Some v -> Height ceg (Z.of_nat k) (Z.of_nat col) = Return v).
Proof.
  intros Hhead Hnr Hnc Hmem Hls Htail.
  destruct (ReadEsriGridFromFile_lines rd ceg0 vb hs nc nr x y cs nd ls tail
              Hhead Hnr Hnc Hmem Hls Htail)
    as (ceg & Hread & Hc & Hn & Hx & Hy & Hcs & Hnd & Hh).
  exists ceg. repeat (split; [done|]).
  intros k l vs col v Hk Hlt Hvs Hv.
  apply Height_Return. exists vs. split.
  - apply index_Some. split; [lia|]. rewrite Nat2Z.id, Hh.
    rewrite (fillRows_lookup nc ls _ 0 k l Hk), Hvs; [done|].
    rewrite length_replicate. lia.
  - apply index_Some. split; [lia|]. by rewrite Nat2Z.id.
Qed.

(** *** The verbose mode *)

Lemma scanRow_verbose rd row toks : forall ceg col,
  allocated ceg -> 0 <= row < nrows ceg -> 0 <= col ->
  col + Z.of_nat (length toks) <= ncols ceg ->
  scanRow rd ceg row col toks true = scanRow rd ceg row col toks false.
Proof.
  induction toks as [|tok toks IH]; intros ceg col Halloc Hrow Hcol Hlen; [done|].
  simpl in Hlen. simpl. destruct (Sscanf_f tok) as [v|]; [|done].
  destruct (SetHeight_allocated rd ceg row col v Halloc Hrow ltac:(lia))
    as (ceg1 & m & -> & Hst & Hh & Hsame & Halloc1).
  cbn [obind].
  rewrite (Height_height ceg1 (with_height ceg m)) by done.
  rewrite (Height_after_store _ _ _ _ _ _ _ Hst), !Z.eqb_refl. cbn [andb obind].
  destruct Hsame as (Hc1 & Hn1 & _). apply IH; [done | lia | lia | lia].
Qed.

Lemma dataLoop_verbose rd : forall fuel ceg r row,
  allocated ceg -> 0 <= row ->
  dataLoop fuel rd ceg r row (row + 6) (nrows ceg + 6) true
  = dataLoop fuel rd ceg r row (row + 6) (nrows ceg + 6) false.
Proof.
  induction fuel as [|fuel IH]; intros ceg r row Halloc Hrow; [done|].
  rewrite !dataLoop_S. destruct (ReadString r nl) as [[line [err|]] r']; [done|].
  destruct (Z.gtb_spec (row + 6 + 1) (nrows ceg + 6)) as [Hfull|Hleft]; [done|].
  replace (row + 6 + 1) with (row + 1 + 6) by lia.
  destruct (Z.gtb_spec (Z.of_nat (length (tokens line))) (ncols ceg)) as [Hgt|Hle].
  { apply IH; [done | lia]. }
  destruct (Z.ltb_spec (Z.of_nat (length (tokens line))) (ncols ceg)) as [Hlt|Hge].
  { apply IH; [done | lia]. }
  rewrite scanRow_verbose by (done || lia).
  destruct (scanRow_invariant (fun _ => True) rd false row ltac:(done) (tokens line) ceg 0)
    as (ceg1 & e & -> & _ & Hsame & Halloc1 & _); [done | done | lia | lia | lia |].
  destruct e as [e|]; [done|].
  destruct Hsame as (_ & Hn1 & _). rewrite <- Hn1. apply IH; [done | lia].
Qed.

(** The verbose mode changes nothing but the log.  The only code of the
    package that runs in verbose mode alone and is more than a call of the
    logger is the read of [ceg.height[row][col]] for the log line of a cell
    just written; it never fails, so [ReadEsriGridFromFile] gives the same
    result in both modes for every file. *)
Theorem verbose_changes_nothing (rd : line162) (ceg0 : ConcreteEsriGrid)
    (file : option gostring) :
  ReadEsriGridFromFile rd ceg0 file true = ReadEsriGridFromFile rd ceg0 file false.
Proof.
  destruct file as [file|]; [|done].
  rewrite !ReadEsriGridFromFile_parts.
  change (headerPart ceg0 file true) with (headerPart ceg0 file false).
  destruct (headerPart ceg0 file false) as [[ceg1 [e|r]]|] eqn:Hhead; cbn [obind]; try done.
  destruct (headerPart_result _ _ _ _ _ Hhead) as (_ & Hr).
  destruct (Hr r eq_refl) as [Halloc Hnr].
  pose proof (dataLoop_verbose rd (S (length r)) ceg1 r 0 Halloc ltac:(lia)) as Hloop.
  change (0 + 6) with 6 in Hloop. by rewrite Hloop.
Qed.

(** *** The extrema of a grid that is read into *)

(** What one call of [SetHeight] can do to extrema that are set: the flags
    stay, the maximum does not go down and the minimum does not go up. *)
Lemma SetHeight_monotone rd ceg row col h ceg' :
  SetHeight rd ceg row col h = Return ceg' ->
  (maxHeightSet ceg = true ->
   maxHeightSet ceg' = true
   /\ forall M, fle M (maxHeight ceg) = true -> fle M (maxHeight ceg') = true)
  /\ (minHeightSet ceg = true ->
      minHeightSet ceg' = true
      /\ forall M, fle (minHeight ceg) M = true -> fle (minHeight ceg') M = true).
Proof.
  unfold SetHeight.
  destruct ((row >=? nrows ceg) || (col >=? ncols ceg)); [by intros [= <-]|].
  destruct (store (height ceg) row col h) as [m|]; [|done]. cbv zeta.
  destruct (isNoData rd (with_height ceg m) h); [by intros [= <-]|].
  change (maxHeightSet (with_height ceg m)) with (maxHeightSet ceg).
  change (maxHeight (with_height ceg m)) with (maxHeight ceg).
  destruct (maxHeightSet ceg) eqn:Emax;
    [destruct (fgt h (maxHeight ceg)) eqn:Egt|];
    simpl; (destruct (minHeightSet ceg) eqn:Emin;
            [destruct (flt h (minHeight ceg)) eqn:Elt|]);
    simpl; intros [= <-]; simpl; (split; intros H0; try discriminate H0);
    (split; [done|]); intros M HM; try done.
  all: try (eapply fle_trans; [exact HM|]; by apply flt_fle).
  all: try (eapply fle_trans; [|exact HM]; by apply flt_fle).
Qed.

(** A read never resets the extrema.  Whatever the file holds, the flags of
    extrema that were set before the call are set after it, a maximum that
    was set (and is a number) has not gone down and such a minimum has not
    gone up; so the extrema of a grid that is read into a second time still
    cover the first file. *)
Theorem ReadEsriGridFromFile_keeps_extrema (rd : line162) (ceg0 ceg : ConcreteEsriGrid)
    (file : option gostring) (vb : bool) (e : option error) :
  ReadEsriGridFromFile rd ceg0 file vb = Return (ceg, e) ->
  (maxHeightSet ceg0 = true ->
   maxHeightSet ceg = true
   /\ (is_nan (MaxHeight ceg0) = false -> fle (MaxHeight ceg0) (MaxHeight ceg) = true))
  /\ (minHeightSet ceg0 = true ->
      minHeightSet ceg = true
      /\ (is_nan (MinHeight ceg0) = false -> fle (MinHeight ceg) (MinHeight ceg0) = true)).
Proof.
  assert (forall a b, sameExtrema a b ->
    (maxHeightSet a = true ->
     maxHeightSet b = true
     /\ (is_nan (MaxHeight a) = false -> fle (MaxHeight a) (MaxHeight b) = true))
    /\ (minHeightSet a = true ->
        minHeightSet b = true
        /\ (is_nan (MinHeight a) = false -> fle (MinHeight b) (MinHeight a) = true)))
    as Hsame.
  { intros a b (Hmax & Hmin & Hmaxs & Hmins). unfold MaxHeight, MinHeight.
    rewrite Hmax, Hmin, Hmaxs, Hmins. split; intros ->; (split; [done|]); apply fle_refl. }
  destruct file as [file|]; [|intros [= <- <-]; by apply Hsame].
  rewrite ReadEsriGridFromFile_parts.
  destruct (headerPart ceg0 file vb) as [[ceg1 [e1|r]]|] eqn:Hhead; cbn [obind]; try done.
  { destruct (headerPart_result _ _ _ _ _ Hhead) as (Hext & _).
    intros [= <- <-]. by apply Hsame. }
  destruct (headerPart_result _ _ _ _ _ Hhead) as ((Hmax & Hmin & Hmaxs & Hmins) & Hr).
  destruct (Hr r eq_refl) as [Halloc Hnr].
  destruct (dataLoop (S (length r)) rd ceg1 r 0 6 (nrows ceg1 + 6) vb) as [o|] eqn:Hloop;
    [|done].
  intros ->.
  pose (I := fun c : ConcreteEsriGrid =>
    (maxHeightSet ceg0 = true ->
     maxHeightSet c = true
     /\ forall M, fle M (maxHeight ceg0) = true -> fle M (maxHeight c) = true)
    /\ (minHeightSet ceg0 = true ->
        minHeightSet c = true
        /\ forall M, fle (minHeight ceg0) M = true -> fle (minHeight c) M = true)).
  destruct (dataLoop_invariant I rd vb) with (fuel := S (length r)) (ceg := ceg1) (r := r)
    (row := 0) (o := Return (ceg, e)) as (ceg' & e' & [= <- <-] & _ & _ & _ & Hmaxi & Hmini);
    try done.
  - intros c r0 c0 h c' [Ha Hb] Hset.
    destruct (SetHeight_monotone _ _ _ _ _ _ Hset) as [Ha' Hb'].
    split; intros H0.
    + destruct (Ha H0) as [Hs HM]. destruct (Ha' Hs) as [Hs' HM']. split; [done|].
      intros M H. by apply HM', HM.
    + destruct (Hb H0) as [Hs HM]. destruct (Hb' Hs) as [Hs' HM']. split; [done|].
      intros M H. by apply HM', HM.
  - split; intros H0; rewrite ?Hmaxs, ?Hmins, ?Hmax, ?Hmin; done.
  - unfold MaxHeight, MinHeight. split; intros H0.
    + destruct (Hmaxi H0) as [Hs HM]. split; [done|]. intros Hnan. by apply HM, fle_refl.
    + destruct (Hmini H0) as [Hs HM]. split; [done|]. intros Hnan. by apply HM, fle_refl.
Qed.

(** *** The bytes after the last line feed *)

Lemma readIntFromHeader_eof tail name vb :
  nl ∉ tail -> readIntFromHeader tail name vb = Return (0, Some EOF, []).
Proof. intros Hnl. unfold readIntFromHeader. by rewrite (ReadString_eof _ Hnl). Qed.

Lemma readFloat32FromHeader_eof tail name vb :
  nl ∉ tail -> readFloat32FromHeader tail name vb = Return (zero32, Some EOF, []).
Proof. intros Hnl. unfold readFloat32FromHeader. by rewrite (ReadString_eof _ Hnl). Qed.

Lemma not_elem_of_nil_ascii : nl ∉ @nil ascii.
Proof. apply not_elem_of_nil. Qed.

(** A header reader on complete lines followed by an unfinished one: it
    fails the same way with and without the unfinished line, or reads the
    same value and leaves the unfinished line behind the others. *)
Lemma readIntFromHeader_tail ls tail name vb :
  Forall (fun l => nl ∉ l) ls -> nl ∉ tail ->
  (exists e, readIntFromHeader (unlines ls ++ tail) name vb = Return (0, Some e, [])
             /\ readIntFromHeader (unlines ls) name vb = Return (0, Some e, []))
  \/ (readIntFromHeader (unlines ls ++ tail) name vb = Panic
      /\ readIntFromHeader (unlines ls) name vb = Panic)
  \/ (exists l ls' v e,
        ls = l :: ls'
        /\ readIntFromHeader (unlines ls ++ tail) name vb = Return (v, e, unlines ls' ++ tail)
        /\ readIntFromHeader (unlines ls) name vb = Return (v, e, unlines ls')).
Proof.
  intros Hls Htail. destruct Hls as [|l ls' Hl Hls'].
  - left. exists EOF. simpl.
    split; [by apply readIntFromHeader_eof|].
    apply (readIntFromHeader_eof [] _ _ not_elem_of_nil_ascii).
  - right. rewrite unlines_cons_app, unlines_cons.
    rewrite !(readIntFromHeader_line l _ _ _ Hl).
    destruct (tokens (l ++ [nl]) !! 1%nat) as [tok|]; [|by left].
    right. destruct (Sscanf_d tok) as [v|]; eauto 10.
Qed.

Lemma readFloat32FromHeader_tail ls tail name vb :
  Forall (fun l => nl ∉ l) ls -> nl ∉ tail ->
  (exists e, readFloat32FromHeader (unlines ls ++ tail) name vb = Return (zero32, Some e, [])
             /\ readFloat32FromHeader (unlines ls) name vb = Return (zero32, Some e, []))
  \/ (readFloat32FromHeader (unlines ls ++ tail) name vb = Panic
      /\ readFloat32FromHeader (unlines ls) name vb = Panic)
  \/ (exists l ls' v e,
        ls = l :: ls'
        /\ readFloat32FromHeader (unlines ls ++ tail) name vb
           = Return (v, e, unlines ls' ++ tail)
        /\ readFloat32FromHeader (unlines ls) name vb = Return (v, e, unlines ls')).
Proof.
  intros Hls Htail. destruct Hls as [|l ls' Hl Hls'].
  - left. exists EOF. simpl.
    split; [by apply readFloat32FromHeader_eof|].
    apply (readFloat32FromHeader_eof [] _ _ not_elem_of_nil_ascii).
  - right. rewrite unlines_cons_app, unlines_cons.
    rewrite !(readFloat32FromHeader_line l _ _ _ Hl).
    destruct (tokens (l ++ [nl]) !! 1%nat) as [tok|]; [|by left].
    right. destruct (Sscanf_f tok) as [v|]; eauto 10.
Qed.

Ltac header_tail Hls Htail :=
  match goal with
  | |- context [readIntFromHeader (unlines ?ls ++ ?tail) ?n ?v] =>
      let l := fresh "l" in let ls' := fresh "ls" in
      let e := fresh "e" in let v' := fresh "v" in
      let E1 := fresh in let E2 := fresh in
      destruct (readIntFromHeader_tail ls tail n v Hls Htail)
        as [(e & E1 & E2)|[[E1 E2]|(l & ls' & v' & e & -> & E1 & E2)]];
      rewrite E1, E2; clear E1 E2; cbn [obind];
      [by left | by left
      | apply Forall_cons in Hls as [_ Hls]; destruct e as [e|]; [by left|]]
  | |- context [readFloat32FromHeader (unlines ?ls ++ ?tail) ?n ?v] =>
      let l := fresh "l" in let ls' := fresh "ls" in
      let e := fresh "e" in let v' := fresh "v" in
      let E1 := fresh in let E2 := fresh in
      destruct (readFloat32FromHeader_tail ls tail n v Hls Htail)
        as [(e & E1 & E2)|[[E1 E2]|(l & ls' & v' & e & -> & E1 & E2)]];
      rewrite E1, E2; clear E1 E2; cbn [obind];
      [by left | by left
      | apply Forall_cons in Hls as [_ Hls]; destruct e as [e|]; [by left|]]
  end.

Lemma headerPart_tail ceg0 vb ls tail :
  Forall (fun l => nl ∉ l) ls -> nl ∉ tail ->
  (headerPart ceg0 (unlines ls ++ tail) vb = headerPart ceg0 (unlines ls) vb
   /\ forall ceg r, headerPart ceg0 (unlines ls) vb <> Return (ceg, inr r))
  \/ (exists ceg ls',
        Forall (fun l => nl ∉ l) ls'
        /\ headerPart ceg0 (unlines ls ++ tail) vb = Return (ceg, inr (unlines ls' ++ tail))
        /\ headerPart ceg0 (unlines ls) vb = Return (ceg, inr (unlines ls'))).
Proof.
  intros Hls Htail. unfold headerPart.
  header_tail Hls Htail.
  header_tail Hls Htail.
  destruct (make 0 sliceSize [] _) as [m0|]; cbn [obind]; [|by left].
  destruct (allocRows _ _ _ _) as [m|]; cbn [obind]; [|by left].
  header_tail Hls Htail.
  header_tail Hls Htail.
  header_tail Hls Htail.
  header_tail Hls Htail.
  right. eauto.
Qed.

Lemma dataLoop_tail rd vb ls : forall fuel1 fuel2 ceg row lineNum linesExpected tail,
  Forall (fun l => nl ∉ l) ls -> nl ∉ tail ->
  (length (unlines ls ++ tail) < fuel1)%nat -> (length (unlines ls) < fuel2)%nat ->
  dataLoop fuel1 rd ceg (unlines ls ++ tail) row lineNum linesExpected vb
  = dataLoop fuel2 rd ceg (unlines ls) row lineNum linesExpected vb.
Proof.
  induction ls as [|l ls IH];
    intros fuel1 fuel2 ceg row lineNum linesExpected tail Hls Htail Hf1 Hf2.
  - destruct fuel1 as [|fuel1]; [lia|]. destruct fuel2 as [|fuel2]; [lia|].
    change (unlines []) with (@nil ascii). rewrite !dataLoop_S. simpl app.
    by rewrite (ReadString_eof _ Htail), (ReadString_eof _ not_elem_of_nil_ascii).
  - destruct fuel1 as [|fuel1]; [lia|]. destruct fuel2 as [|fuel2]; [lia|].
    apply Forall_cons in Hls as [Hl Hls].
    rewrite unlines_cons_app in *. rewrite unlines_cons in *.
    rewrite length_app in Hf1, Hf2. simpl in Hf1, Hf2.
    rewrite !dataLoop_S, !(ReadString_line _ _ Hl).
    destruct (lineNum + 1 >? linesExpected); [done|].
    destruct (Z.of_nat (length (tokens (l ++ [nl]))) >? ncols ceg); [apply IH; done || lia|].
    destruct (Z.of_nat (length (tokens (l ++ [nl]))) <? ncols ceg); [apply IH; done || lia|].
    destruct (scanRow rd ceg row 0 (tokens (l ++ [nl])) vb) as [[ceg1 [e|]]|]; try done.
    apply IH; done || lia.
Qed.

(** A last line without its line feed is not read.  [ReadString] returns
    the bytes after the last line feed together with [io.EOF], and both the
    header readers and the loop over the data lines drop them: the result of
    [ReadEsriGridFromFile] is that for the file without these bytes. *)
Theorem unfinished_line_ignored (rd : line162) (ceg0 : ConcreteEsriGrid) (vb : bool)
    (ls : list gostring) (tail : gostring) :
  Forall (fun l => nl ∉ l) ls -> nl ∉ tail ->
  ReadEsriGridFromFile rd ceg0 (Some (unlines ls ++ tail)) vb
  = ReadEsriGridFromFile rd ceg0 (Some (unlines ls)) vb.
Proof.
  intros Hls Htail. rewrite !ReadEsriGridFromFile_parts.
  destruct (headerPart_tail ceg0 vb ls tail Hls Htail)
    as [[-> _]|(ceg & ls' & Hls' & -> & ->)]; [done|].
  cbn [obind].
  by rewrite (dataLoop_tail rd vb ls' (S (length (unlines ls' ++ tail)))
                (S (length (unlines ls'))) ceg 0 6 (nrows ceg + 6) tail Hls' Htail
                ltac:(lia) ltac:(lia)).
Qed.

(** *** What the grid held before the call *)

Lemma sameContent_refl a : sameContent a a.
Proof. by repeat split. Qed.

Lemma SetHeight_sameContent rd a b row col h :
  sameContent a b ->
  match SetHeight rd a row col h, SetHeight rd b row col h with
  | Return a', Return b' => sameContent a' b'
  | Panic, Panic => True
  | _, _ => False
  end.
Proof.
  intros (Hc & Hn & Hx & Hy & Hcs & Hnd & Hh). unfold SetHeight.
  rewrite Hc, Hn, Hh.
  destruct ((row >=? nrows a) || (col >=? ncols a)); [by repeat split|].
  destruct (store (height a) row col h) as [m|]; [|done]. cbv zeta.
  assert (isNoData rd (with_height b m) h = isNoData rd (with_height a m) h) as ->.
  { destruct rd; [done|]. simpl. by rewrite Hnd. }
  destruct (isNoData rd (with_height a m) h); [by repeat split|].
  repeat match goal with |- context [if ?c then _ else _] => destruct c end;
    by repeat split.
Qed.

Lemma scanRow_sameContent rd vb row toks : forall a b col,
  sameContent a b ->
  match scanRow rd a row col toks vb, scanRow rd b row col toks vb with
  | Return (a', e), Return (b', e') => e = e' /\ sameContent a' b'
  | Panic, Panic => True
  | _, _ => False
  end.
Proof.
  induction toks as [|tok toks IH]; intros a b col Hab; [done|].
  simpl. destruct (Sscanf_f tok) as [v|]; [|done].
  pose proof (SetHeight_sameContent rd a b row col v Hab) as Hset.
  destruct (SetHeight rd a row col v) as [a1|], (SetHeight rd b row col v) as [b1|];
    try done.
  cbn [obind].
  rewrite (Height_height b1 a1) by by destruct Hset as (_ & _ & _ & _ & _ & _ & ?).
  destruct (if vb then Height a1 row col else Return v); [|done].
  cbn [obind]. by apply IH.
Qed.

Lemma dataLoop_sameContent rd vb : forall fuel a b r row lineNum linesExpected,
  sameContent a b ->
  match dataLoop fuel rd a r row lineNum linesExpected vb,
        dataLoop fuel rd b r row lineNum linesExpected vb with
  | Some (Return (a', e)), Some (Return (b', e')) => e = e' /\ sameContent a' b'
  | Some Panic, Some Panic => True
  | None, None => True
  | _, _ => False
  end.
Proof.
  induction fuel as [|fuel IH]; intros a b r row lineNum linesExpected Hab; [done|].
  rewrite !dataLoop_S. destruct (ReadString r nl) as [[line [err|]] r']; [done|].
  destruct (lineNum + 1 >? linesExpected); [done|].
  pose proof Hab as (-> & _).
  destruct (Z.of_nat (length (tokens line)) >? ncols a); [by apply IH|].
  destruct (Z.of_nat (length (tokens line)) <? ncols a); [by apply IH|].
  pose proof (scanRow_sameContent rd vb row (tokens line) a b 0 Hab) as Hrow.
  destruct (scanRow rd a row 0 (tokens line) vb) as [[a1 e]|],
           (scanRow rd b row 0 (tokens line) vb) as [[b1 e']|]; try done.
  destruct Hrow as [<- Hab1]. destruct e as [e|]; [done|]. by apply IH.
Qed.

Lemma headerPart_sameContent a b file vb :
  match headerPart a file vb, headerPart b file vb with
  | Return (a', inr r), Return (b', inr r') => r = r' /\ sameContent a' b'
  | Return (_, inl e), Return (_, inl e') => e = e'
  | Panic, Panic => True
  | _, _ => False
  end.
Proof.
  unfold headerPart.
  repeat match goal with
  | _ => progress cbn [nrows ncols SetNRows SetNCols]
  | |- context [readIntFromHeader ?r ?n ?v] =>
      destruct (readIntFromHeader r n v) as [[[? [?|]] ?]|]; cbn [obind]; try done
  | |- context [make ?k ?sz ?z ?n] =>
      destruct (make k sz z n) as [?|]; cbn [obind]; try done
  | |- context [allocRows ?a ?b ?c ?d] =>
      destruct (allocRows a b c d) as [?|]; cbn [obind]; try done
  | |- context [readFloat32FromHeader ?r ?n ?v] =>
      destruct (readFloat32FromHeader r n v) as [[[? [?|]] ?]|]; cbn [obind]; try done
  end.
Qed.

(** The grid a file is read into does not count.  For two grids and the
    same file, [ReadEsriGridFromFile] panics for both, or returns the same
    error for both, or returns nil for both; when it returns nil, both grids
    have the same dimensions, header values and samples afterwards.  (Their
    extrema may differ: a read does not reset them.) *)
Theorem previous_content_ignored (rd : line162) (a b : ConcreteEsriGrid)
    (file : gostring) (vb : bool) :
  match ReadEsriGridFromFile rd a (Some file) vb,
        ReadEsriGridFromFile rd b (Some file) vb with
  | Return (a', e), Return (b', e') => e = e' /\ (e = None -> sameContent a' b')
  | Panic, Panic => True
  | _, _ => False
  end.
Proof.
  rewrite !ReadEsriGridFromFile_parts.
  pose proof (headerPart_sameContent a b file vb) as Hhead.
  destruct (headerPart a file vb) as [[a1 [e|r]]|], (headerPart b file vb) as [[b1 [e'|r']]|];
    cbn [obind]; try done.
  { by subst. }
  destruct Hhead as [<- Hab]. pose proof Hab as (_ & -> & _).
  pose proof (dataLoop_sameContent rd vb (S (length r)) a1 b1 r 0 6 (nrows a1 + 6) Hab)
    as Hloop.
  destruct (dataLoop (S (length r)) rd a1 r 0 6 (nrows a1 + 6) vb) as [[[a' e]|]|],
           (dataLoop (S (length r)) rd b1 r 0 6 (nrows a1 + 6) vb) as [[[b' e']|]|];
    try done.
  by destruct Hloop.
Qed.

(** *** A file that ends in the header *)

Ltac read_int l Hnl Hgood k :=
  let tok := fresh "tok" in let Htok := fresh "Htok" in
  let v := fresh "v" in let Hv := fresh "Hv" in
  destruct (Hgood k l eq_refl) as (tok & Htok & [v Hv]);
  rewrite unlines_cons_app, (readIntFromHeader_line l _ _ _ Hnl), Htok, Hv; cbn [obind].

Ltac read_float l Hnl Hgood k :=
  let tok := fresh "tok" in let Htok := fresh "Htok" in
  let v := fresh "v" in let Hv := fresh "Hv" in
  destruct (Hgood k l eq_refl) as (tok & Htok & [v Hv]);
  rewrite unlines_cons_app, (readFloat32FromHeader_line l _ _ _ Hnl), Htok, Hv; cbn [obind].

Ltac at_end Htail :=
  simpl app;
  first [ rewrite (readIntFromHeader_eof _ _ _ Htail)
        | rewrite (readFloat32FromHeader_eof _ _ _ Htail) ];
  cbn [obind]; eauto.

(** A file that ends before its six header lines are complete gives
    [io.EOF].  When the complete lines that are there can be read, with
    dimensions that are not negative and a matrix that the run-time system
    allocates, [ReadEsriGridFromFile] returns the error of [ReadString];
    the empty file is the first case. *)
Theorem truncated_header (rd : line162) (ceg0 : ConcreteEsriGrid) (vb : bool)
    (good : list gostring) (tail : gostring) :
  (length good < 6)%nat ->
  Forall (fun l => nl ∉ l) good -> nl ∉ tail ->
  (forall k l, good !! k = Some l -> valueReadable k l) ->
  dimensionsOK good ->
  exists ceg,
    ReadEsriGridFromFile rd ceg0 (Some (unlines good ++ tail)) vb = Return (ceg, Some EOF).
Proof.
  intros Hlen Hnl Htail Hgood Hdims. unfold ReadEsriGridFromFile.
  destruct good as [|l1 good]; [at_end Htail|].
  apply Forall_cons in Hnl as [N1 Hnl]. read_int l1 N1 Hgood 0%nat.
  destruct good as [|l2 good]; [at_end Htail|].
  apply Forall_cons in Hnl as [N2 Hnl]. read_int l2 N2 Hgood 1%nat.
  destruct (Hdims l1 l2 v v0 eq_refl eq_refl) as (Hnr & Hnc & Hrows & Hcells);
    [unfold headerInt; by rewrite Htok | unfold headerInt; by rewrite Htok0 |].
  change (nrows (SetNRows (SetNCols ceg0 v) v0)) with v0.
  change (ncols (SetNRows (SetNCols ceg0 v) v0)) with v.
  rewrite (make_granted _ _ _ v0 Hnr Hrows); cbn [obind].
  rewrite (allocRows_all v0 v Hnc Hcells); cbn [obind].
  destruct good as [|l3 good]; [at_end Htail|].
  apply Forall_cons in Hnl as [N3 Hnl]. read_float l3 N3 Hgood 2%nat.
  destruct good as [|l4 good]; [at_end Htail|].
  apply Forall_cons in Hnl as [N4 Hnl]. read_float l4 N4 Hgood 3%nat.
  destruct good as [|l5 good]; [at_end Htail|].
  apply Forall_cons in Hnl as [N5 Hnl]. read_float l5 N5 Hgood 4%nat.
  destruct good as [|l6 good]; [at_end Htail|].
  simpl in Hlen. lia.
Qed.

(** *** Dimensions that cannot be allocated *)

(** A negative dimension in the header ends the program.  When the first
    two header lines give [ncols] and [nrows] with [nrows] negative, or with
    [nrows] positive and [ncols] negative, the allocation of the matrix
    ([make] with a negative length) panics: [ReadEsriGridFromFile] does not
    return an error. *)
Theorem negative_dimension_panics (rd : line162) (ceg0 : ConcreteEsriGrid) (vb : bool)
    (h1 h2 t1 t2 : gostring) (nc nr : Z) (rest : gostring) :
  secondToken h1 t1 -> Sscanf_d t1 = Some nc ->
  secondToken h2 t2 -> Sscanf_d t2 = Some nr ->
  nr < 0 \/ (0 < nr /\ nc < 0) ->
  ReadEsriGridFromFile rd ceg0 (Some (unlines [h1; h2] ++ rest)) vb = Panic.
Proof.
  intros [Hnl1 Ht1] Hv1 [Hnl2 Ht2] Hv2 Hdim.
  unfold ReadEsriGridFromFile. rewrite !unlines_cons_app.
  rewrite (readIntFromHeader_line h1 _ _ _ Hnl1), Ht1, Hv1. cbn [obind].
  rewrite (readIntFromHeader_line h2 _ _ _ Hnl2), Ht2, Hv2. cbn [obind].
  change (nrows (SetNRows (SetNCols ceg0 nc) nr)) with nr.
  change (ncols (SetNRows (SetNCols ceg0 nc) nr)) with nc.
  unfold make at 1. destruct (Z.ltb_spec nr 0) as [Hneg|Hnr]; [done|].
  destruct Hdim as [?|[Hpos Hnc]]; [lia|].
  destruct (allocates 0 (sliceSize * nr)); [|done]. cbn [orb negb obind].
  destruct (Z.to_nat nr) as [|k] eqn:Hk; [lia|].
  simpl. unfold make. by destruct (Z.ltb_spec nc 0); [|lia].
Qed.

(** A dimension beyond what an [int] can count in bytes ends the program
    on every platform.  When the header gives [nrows] with 24 [nrows] bytes
    not below 2^63, or [nrows] positive and [ncols] with 4 [ncols] bytes not
    below 2^63, no run-time system grants the slice: [make] panics
    ([makeslice: len out of range]) and [ReadEsriGridFromFile] does not
    return an error. *)
Theorem huge_dimension_panics (rd : line162) (ceg0 : ConcreteEsriGrid) (vb : bool)
    (h1 h2 t1 t2 : gostring) (nc nr : Z) (rest : gostring) :
  secondToken h1 t1 -> Sscanf_d t1 = Some nc ->
  secondToken h2 t2 -> Sscanf_d t2 = Some nr ->
  2 ^ 63 <= sliceSize * nr \/ (0 < nr /\ 2 ^ 63 <= float32Size * nc) ->
  ReadEsriGridFromFile rd ceg0 (Some (unlines [h1; h2] ++ rest)) vb = Panic.
Proof.
  intros [Hnl1 Ht1] Hv1 [Hnl2 Ht2] Hv2 Hdim.
  unfold ReadEsriGridFromFile. rewrite !unlines_cons_app.
  rewrite (readIntFromHeader_line h1 _ _ _ Hnl1), Ht1, Hv1. cbn [obind].
  rewrite (readIntFromHeader_line h2 _ _ _ Hnl2), Ht2, Hv2. cbn [obind].
  change (nrows (SetNRows (SetNCols ceg0 nc) nr)) with nr.
  change (ncols (SetNRows (SetNCols ceg0 nc) nr)) with nc.
  unfold make at 1. destruct (Z.ltb_spec nr 0) as [Hneg|Hnr]; [done|].
  destruct (allocates 0 (sliceSize * nr)) eqn:Hrows; [|done]. cbn [orb negb obind].
  apply allocates_int in Hrows.
  destruct Hdim as [?|[Hpos Hnc]]; [lia|].
  destruct (Z.to_nat nr) as [|k] eqn:Hk; [lia|].
  simpl. unfold make. destruct (Z.ltb_spec nc 0); [done|].
  destruct (allocates (0 + 1) (float32Size * nc)) eqn:Hcells; [|done].
  apply allocates_int in Hcells. lia.
Qed.

End AnyFile.

(** * The tokens of a line *)

Lemma TrimLeft_head n : forall s,
  (length s <= n)%nat ->
  match TrimLeft s with c :: _ => asciiSpace c = false | [] => True end.
Proof.
  induction n as [|n IH]; intros s Hlen.
  - by destruct s; [|simpl in Hlen; lia].
  - destruct s as [|c [|d [|e s3]]]; simpl in *; [done|..].
    + by destruct (asciiSpace c) eqn:E.
    + destruct (asciiSpace c) eqn:E; [apply (IH [d]); simpl; lia|].
      destruct (spaceRune2 c d); [done | by rewrite E].
    + destruct (asciiSpace c) eqn:E; [apply (IH (d :: e :: s3)); simpl; lia|].
      destruct (spaceRune2 c d); [apply (IH (e :: s3)); simpl; lia|].
      destruct (spaceRune3 c d e); [apply IH; lia | by rewrite E].
Qed.

Lemma TrimLeftRev_head n : forall s,
  (length s <= n)%nat ->
  match TrimLeftRev s with c :: _ => asciiSpace c = false | [] => True end.
Proof.
  induction n as [|n IH]; intros s Hlen.
  - by destruct s; [|simpl in Hlen; lia].
  - destruct s as [|c [|d [|e s3]]]; simpl in *; [done|..].
    + by destruct (asciiSpace c) eqn:E.
    + destruct (asciiSpace c) eqn:E; [apply (IH [d]); simpl; lia|].
      destruct (spaceRune2 d c); [done | by rewrite E].
    + destruct (asciiSpace c) eqn:E; [apply (IH (d :: e :: s3)); simpl; lia|].
      destruct (spaceRune2 d c); [apply (IH (e :: s3)); simpl; lia|].
      destruct (spaceRune3 e d c); [apply IH; lia | by rewrite E].
Qed.

Lemma TrimLeftRev_suffix n : forall s,
  (length s <= n)%nat -> exists p, s = p ++ TrimLeftRev s.
Proof.
  induction n as [|n IH]; intros s Hlen.
  - destruct s; [by exists [] | simpl in Hlen; lia].
  - destruct s as [|c [|d [|e s3]]]; simpl in *; [by exists []|..].
    + destruct (asciiSpace c); [by exists [c] | by exists []].
    + destruct (asciiSpace c).
      { destruct (IH [d]) as [p Hp]; [simpl; lia|]. exists (c :: p). by rewrite Hp at 1. }
      destruct (spaceRune2 d c); [by exists [c; d] | by exists []].
    + destruct (asciiSpace c).
      { destruct (IH (d :: e :: s3)) as [p Hp]; [simpl; lia|].
        exists (c :: p). by rewrite Hp at 1. }
      destruct (spaceRune2 d c).
      { destruct (IH (e :: s3)) as [p Hp]; [simpl; lia|].
        exists (c :: d :: p). by rewrite Hp at 1. }
      destruct (spaceRune3 e d c); [|by exists []].
      destruct (IH s3) as [p Hp]; [lia|].
      exists (c :: d :: e :: p). by rewrite Hp at 1.
Qed.

(** [strings.TrimSpace] leaves the empty string or a string that neither
    begins nor ends with white space. *)
Lemma TrimSpace_ends s :
  TrimSpace s = []
  \/ exists c t z t', TrimSpace s = c :: t /\ TrimSpace s = t' ++ [z]
                      /\ asciiSpace c = false /\ asciiSpace z = false.
Proof.
  unfold TrimSpace, TrimRight.
  pose proof (TrimLeft_head (length s) s ltac:(lia)) as Hhead.
  set (u := TrimLeft s) in *.
  pose proof (TrimLeftRev_head (length (rev u)) (rev u) ltac:(lia)) as Hlast.
  destruct (TrimLeftRev_suffix (length (rev u)) (rev u) ltac:(lia)) as [p Hp].
  destruct (TrimLeftRev (rev u)) as [|z w]; [by left|]. right.
  assert (u = (rev w ++ [z]) ++ rev p) as Hu.
  { rewrite <- (rev_involutive u), Hp, rev_app_distr. by simpl. }
  simpl. destruct (rev w ++ [z]) as [|c t] eqn:Et; [by destruct (rev w)|].
  exists c, t, z, (rev w). rewrite Hu in Hhead. simpl in Hhead. done.
Qed.

Lemma ReplaceAllLiteralString_head c s :
  exists s', ReplaceAllLiteralString (c :: s) = c :: s'.
Proof.
  revert c. induction s as [|d s IH]; intros c; [by exists []|].
  change (ReplaceAllLiteralString (c :: d :: s))
    with (if Ascii.eqb c sp && Ascii.eqb d sp then ReplaceAllLiteralString (d :: s)
          else c :: ReplaceAllLiteralString (d :: s)).
  destruct (Ascii.eqb_spec c sp) as [->|]; [|by eexists].
  destruct (Ascii.eqb_spec d sp) as [->|]; [apply IH | by eexists].
Qed.

Lemma ReplaceAllLiteralString_last s :
  last (ReplaceAllLiteralString s) = last s.
Proof.
  induction s as [|c [|d s] IH]; [done | done |].
  change (ReplaceAllLiteralString (c :: d :: s))
    with (if Ascii.eqb c sp && Ascii.eqb d sp then ReplaceAllLiteralString (d :: s)
          else c :: ReplaceAllLiteralString (d :: s)).
  destruct (ReplaceAllLiteralString_head d s) as [s' Hs'].
  destruct (Ascii.eqb c sp && Ascii.eqb d sp); [done|].
  rewrite Hs' in *. done.
Qed.

Lemma ReplaceAllLiteralString_single s : single (ReplaceAllLiteralString s).
Proof.
  induction s as [|c [|d s] IH]; [done | done |].
  change (ReplaceAllLiteralString (c :: d :: s))
    with (if Ascii.eqb c sp && Ascii.eqb d sp then ReplaceAllLiteralString (d :: s)
          else c :: ReplaceAllLiteralString (d :: s)).
  destruct (ReplaceAllLiteralString_head d s) as [s' Hs'].
  destruct (Ascii.eqb_spec c sp) as [->|Hc]; simpl andb.
  - destruct (Ascii.eqb_spec d sp) as [->|Hd]; [done|].
    rewrite Hs' in *. simpl. split; [intros _ ?; done | done].
  - rewrite Hs' in *. simpl. split; [intros ?; done | done].
Qed.

(** [strings.Split] on a string that does not begin or end with the
    separator and in which no separator follows another. *)
Lemma Split_single s :
  s <> [] -> single s -> last s <> Some sp ->
  match Split s sp with
  | t :: ts => (head s <> Some sp -> t <> []) /\ Forall (fun t => t <> []) ts
  | [] => False
  end.
Proof.
  induction s as [|c [|d s] IH]; intros Hne Hsingle Hlast; [done|..].
  - simpl in *. destruct (Ascii.eqb_spec c sp) as [->|]; [done|]. by split.
  - change (Split (c :: d :: s) sp)
      with (if Ascii.eqb c sp then [] :: Split (d :: s) sp
            else match Split (d :: s) sp with
                 | t :: ts => (c :: t) :: ts
                 | [] => [[c]]
                 end).
    destruct Hsingle as [Hcd Hsingle].
    specialize (IH ltac:(done) Hsingle Hlast).
    destruct (Split (d :: s) sp) as [|t ts]; [done|]. destruct IH as [Ht Hts].
    destruct (Ascii.eqb_spec c sp) as [->|Hc].
    + split; [done|]. constructor; [|done]. apply Ht. simpl. intros [= ->]. by apply Hcd.
    + by split.
Qed.

Lemma Split_no_sep s : Forall (fun t => sp ∉ t) (Split s sp).
Proof.
  induction s as [|c s IH].
  - simpl. constructor; [apply not_elem_of_nil | constructor].
  - simpl. destruct (Ascii.eqb_spec c sp) as [->|Hc].
    + constructor; [apply not_elem_of_nil | done].
    + destruct (Split s sp) as [|t ts] eqn:E; [by apply Split_nonempty in E|].
      apply Forall_cons in IH as [Ht IH]. constructor; [|done].
      intros Hin. apply elem_of_cons in Hin as [Heq|Hin]; [by apply Hc | done].
Qed.

(** What [stripSpaces] is for.  The tokens the reader takes from a line,
    [strings.Split(stripSpaces(line), " ")], hold no space, and none of them
    is empty, unless the line is blank: then there is one token, the empty
    string. *)
Theorem tokens_not_empty (line : gostring) :
  (TrimSpace line = [] /\ tokens line = [[]])
  \/ Forall (fun t => t <> [] /\ sp ∉ t) (tokens line).
Proof.
  unfold tokens, stripSpaces. simpl fst.
  destruct (TrimSpace_ends line) as [->|(c & t & z & t' & Hhead & Hlast & Hc & Hz)];
    [by left|].
  right. apply Forall_and. split; [|apply Split_no_sep].
  rewrite Hhead.
  destruct (ReplaceAllLiteralString_head c t) as [s' Hs'].
  pose proof (ReplaceAllLiteralString_last (c :: t)) as HL.
  pose proof (ReplaceAllLiteralString_single (c :: t)) as HS.
  assert (last (c :: s') <> Some sp) as Hl.
  { rewrite Hs' in HL. rewrite HL, <- Hhead, Hlast, last_snoc. by intros [= ->]. }
  rewrite Hs' in HS.
  pose proof (Split_single (c :: s') ltac:(done) HS Hl) as Hsplit. rewrite Hs'.
  destruct (Split (c :: s') sp) as [|t0 ts]; [done|]. destruct Hsplit as [Ht0 Hts].
  constructor; [|done]. apply Ht0. simpl. by intros [= ->].
Qed.

(** * The properties above, on grids and files that can be run *)

(** The grid of three rows and two columns that [shortHeader] and
    [shortData] describe, read into a fresh grid: the second data line is
    one token short and leaves its row at zero. *)
Lemma ReadEsriGridFromFile_allocated_witness :
  ReadEsriGridFromFile AsWritten MakeEsriGrid
    (Some (unlines (map headerLine shortHeader ++ shortData))) false
  = Return (mkGrid 2 3 zero32 zero32 (ofZ 50) (ofZ (-9999)) zero32 zero32
              [[ofZ 1; ofZ 2]; [zero32; zero32]; [ofZ 5; ofZ 6]] false false false, None)
  /\ allocated (mkGrid 2 3 zero32 zero32 (ofZ 50) (ofZ (-9999)) zero32 zero32
                  [[ofZ 1; ofZ 2]; [zero32; zero32]; [ofZ 5; ofZ 6]] false false false).
Proof.
  assert (ReadEsriGridFromFile AsWritten MakeEsriGrid
            (Some (unlines (map headerLine shortHeader ++ shortData))) false
          = Return (mkGrid 2 3 zero32 zero32 (ofZ 50) (ofZ (-9999)) zero32 zero32
              [[ofZ 1; ofZ 2]; [zero32; zero32]; [ofZ 5; ofZ 6]] false false false, None))
    as Hread by (vm_compute; reflexivity).
  split; [exact Hread|].
  exact (proj1 (ReadEsriGridFromFile_allocated AsWritten MakeEsriGrid _ _ false Hread)).
Defined.

Lemma data_lines_fill_rows_witness :
  headerReads (map headerLine shortHeader) 2 3 zero32 zero32 (ofZ 50) (ofZ (-9999))
  /\ 0 <= 3 /\ 0 <= 2 /\ matrixAllocates 3 2
  /\ Forall (lineOK 2) shortData
  /\ ((nl ∉ bytes "7 8") \/ 3 <= Z.of_nat (length shortData))
  /\ exists ceg,
       ReadEsriGridFromFile AsWritten MakeEsriGrid
         (Some (unlines (map headerLine shortHeader ++ shortData) ++ bytes "7 8")) false
       = Return (ceg, None)
       /\ Ncols ceg = 2 /\ Nrows ceg = 3
       /\ Xllcorner ceg = zero32 /\ Yllcorner ceg = zero32 /\ CellSize ceg = ofZ 50
       /\ NoDataValue ceg = ofZ (-9999)
       /\ height ceg
          = fillRows 2 (replicate (Z.to_nat 3) (replicate (Z.to_nat 2) zero32)) 0 shortData
       /\ (forall k l vs col v,
             shortData !! k = Some l -> Z.of_nat k < 3 -> rowOf 2 l = Some vs ->
             vs !! col = Some v -> Height ceg (Z.of_nat k) (Z.of_nat col) = Return v).
Proof.
  split; [exact shortHeader_reads|].
  split; [lia|]. split; [lia|]. split; [granted|].
  split; [exact shortData_ok|].
  split; [right; reflexivity|].
  apply (data_lines_fill_rows AsWritten MakeEsriGrid false
           (map headerLine shortHeader) 2 3 zero32 zero32 (ofZ 50) (ofZ (-9999))
           shortData (bytes "7 8")).
  - exact shortHeader_reads.
  - lia.
  - lia.
  - granted.
  - exact shortData_ok.
  - right. reflexivity.
Defined.

Lemma data_lines_never_panic_witness :
  headerReads (map headerLine shortHeader) 2 3 zero32 zero32 (ofZ 50) (ofZ (-9999))
  /\ 0 <= 3 /\ 0 <= 2 /\ matrixAllocates 3 2
  /\ exists ceg e,
       ReadEsriGridFromFile AsWritten MakeEsriGrid
         (Some (unlines (map headerLine shortHeader) ++ bytes "1 2 3 4" ++ nl :: bytes "x"))
         false
       = Return (ceg, e)
       /\ (e = None \/ e = Some ScanError)
       /\ Ncols ceg = 2 /\ Nrows ceg = 3
       /\ Xllcorner ceg = zero32 /\ Yllcorner ceg = zero32 /\ CellSize ceg = ofZ 50
       /\ NoDataValue ceg = ofZ (-9999)
       /\ allocated ceg.
Proof.
  split; [exact shortHeader_reads|]. split; [lia|]. split; [lia|]. split; [granted|].
  apply (data_lines_never_panic AsWritten MakeEsriGrid false (map headerLine shortHeader)
           2 3 zero32 zero32 (ofZ 50) (ofZ (-9999)) (bytes "1 2 3 4" ++ nl :: bytes "x")
           shortHeader_reads); [lia | lia | granted].
Defined.

(** A grid whose extrema are 500 and 500 is read into: the file has no
    sample above 6, the maximum stays 500. *)
Lemma ReadEsriGridFromFile_keeps_extrema_witness :
  ReadEsriGridFromFile AsMeant
    (with_maxHeight (with_minHeight MakeEsriGrid (ofZ 500) true) (ofZ 500) true)
    (Some (unlines (map headerLine shortHeader ++ shortData))) false
  = Return (mkGrid 2 3 zero32 zero32 (ofZ 50) (ofZ (-9999)) (ofZ 500) (ofZ 1)
              [[ofZ 1; ofZ 2]; [zero32; zero32]; [ofZ 5; ofZ 6]] true true false, None)
  /\ fle (ofZ 500) (ofZ 500) = true /\ fle (ofZ 1) (ofZ 500) = true.
Proof.
  assert (ReadEsriGridFromFile AsMeant
            (with_maxHeight (with_minHeight MakeEsriGrid (ofZ 500) true) (ofZ 500) true)
            (Some (unlines (map headerLine shortHeader ++ shortData))) false
          = Return (mkGrid 2 3 zero32 zero32 (ofZ 50) (ofZ (-9999)) (ofZ 500) (ofZ 1)
              [[ofZ 1; ofZ 2]; [zero32; zero32]; [ofZ 5; ofZ 6]] true true false, None))
    as Hread by (vm_compute; reflexivity).
  split; [exact Hread|].
  destruct (ReadEsriGridFromFile_keeps_extrema AsMeant _ _ _ false _ Hread) as [Hmax Hmin].
  split.
  - exact (proj2 (Hmax eq_refl) eq_refl).
  - exact (proj2 (Hmin eq_refl) eq_refl).
Defined.

Lemma unfinished_line_ignored_witness :
  Forall (fun l => nl ∉ l) (map headerLine shortHeader ++ [bytes "1 2"; bytes "3 4"])
  /\ (nl ∉ bytes "5 6")
  /\ ReadEsriGridFromFile AsWritten MakeEsriGrid
       (Some (unlines (map headerLine shortHeader ++ [bytes "1 2"; bytes "3 4"])
              ++ bytes "5 6")) false
     = ReadEsriGridFromFile AsWritten MakeEsriGrid
         (Some (unlines (map headerLine shortHeader ++ [bytes "1 2"; bytes "3 4"]))) false.
Proof.
  assert (Forall (fun l => nl ∉ l)
            (map headerLine shortHeader ++ [bytes "1 2"; bytes "3 4"])) as Hls.
  { repeat (apply List.Forall_cons || apply List.Forall_nil); no_nl. }
  assert (nl ∉ bytes "5 6") as Htail by no_nl.
  split; [exact Hls|]. split; [exact Htail|].
  exact (unfinished_line_ignored AsWritten MakeEsriGrid false _ _ Hls Htail).
Defined.

Lemma negative_dimension_panics_witness :
  secondToken (bytes "ncols 2") (bytes "2") /\ Sscanf_d (bytes "2") = Some 2
  /\ secondToken (bytes "nrows -3") (bytes "-3") /\ Sscanf_d (bytes "-3") = Some (-3)
  /\ (-3 < 0 \/ (0 < -3 /\ 2 < 0))
  /\ ReadEsriGridFromFile AsWritten MakeEsriGrid
       (Some (unlines [bytes "ncols 2"; bytes "nrows -3"] ++ bytes "xllcorner 0")) false
     = Panic.
Proof.
  assert (secondToken (bytes "ncols 2") (bytes "2")) as H1.
  { split; [no_nl | reflexivity]. }
  assert (secondToken (bytes "nrows -3") (bytes "-3")) as H2.
  { split; [no_nl | reflexivity]. }
  split; [exact H1|]. split; [reflexivity|]. split; [exact H2|]. split; [reflexivity|].
  split; [left; lia|].
  apply (negative_dimension_panics AsWritten MakeEsriGrid false (bytes "ncols 2")
           (bytes "nrows -3") (bytes "2") (bytes "-3") 2 (-3));
    [exact H1 | reflexivity | exact H2 | reflexivity | left; lia].
Defined.

(** A file that ends in its third header line. *)
Lemma truncated_header_witness :
  (length [bytes "ncols 2"; bytes "nrows 3"] < 6)%nat
  /\ Forall (fun l => nl ∉ l) [bytes "ncols 2"; bytes "nrows 3"]
  /\ (nl ∉ bytes "xllcorner 0")
  /\ (forall k l, [bytes "ncols 2"; bytes "nrows 3"] !! k = Some l -> valueReadable k l)
  /\ dimensionsOK [bytes "ncols 2"; bytes "nrows 3"]
  /\ exists ceg,
       ReadEsriGridFromFile AsWritten MakeEsriGrid
         (Some (unlines [bytes "ncols 2"; bytes "nrows 3"] ++ bytes "xllcorner 0")) false
       = Return (ceg, Some EOF).
Proof.
  assert (forall k l, [bytes "ncols 2"; bytes "nrows 3"] !! k = Some l -> valueReadable k l)
    as Hgood.
  { intros [|[|k]] l Hl; [| |done]; injection Hl as <-.
    - exists (bytes "2"). split; [reflexivity|]. eexists. reflexivity.
    - exists (bytes "3"). split; [reflexivity|]. eexists. reflexivity. }
  assert (dimensionsOK [bytes "ncols 2"; bytes "nrows 3"]) as Hdims.
  { intros l1 l2 nc nr [= <-] [= <-] H1 H2. vm_compute in H1, H2.
    injection H1 as <-. injection H2 as <-.
    split; [lia|]. split; [lia | granted]. }
  assert (Forall (fun l => nl ∉ l) [bytes "ncols 2"; bytes "nrows 3"]) as Hnl.
  { repeat (apply List.Forall_cons || apply List.Forall_nil); no_nl. }
  assert (nl ∉ bytes "xllcorner 0") as Htail by no_nl.
  split; [simpl; lia|]. split; [exact Hnl|]. split; [exact Htail|].
  split; [exact Hgood|]. split; [exact Hdims|].
  apply (truncated_header AsWritten MakeEsriGrid false [bytes "ncols 2"; bytes "nrows 3"]
           (bytes "xllcorner 0"));
    [simpl; lia | exact Hnl | exact Htail | exact Hgood | exact Hdims].
Defined.

(** A header that asks for 2^60 rows. *)
Lemma huge_dimension_panics_witness :
  secondToken (bytes "ncols 1") (bytes "1") /\ Sscanf_d (bytes "1") = Some 1
  /\ secondToken (bytes "nrows 1152921504606846976") (bytes "1152921504606846976")
  /\ Sscanf_d (bytes "1152921504606846976") = Some 1152921504606846976
  /\ (2 ^ 63 <= sliceSize * 1152921504606846976
      \/ (0 < 1152921504606846976 /\ 2 ^ 63 <= float32Size * 1))
  /\ ReadEsriGridFromFile AsWritten MakeEsriGrid
       (Some (unlines [bytes "ncols 1"; bytes "nrows 1152921504606846976"] ++ bytes "3"))
       false
     = Panic.
Proof.
  assert (secondToken (bytes "ncols 1") (bytes "1")) as H1.
  { split; [no_nl | reflexivity]. }
  assert (secondToken (bytes "nrows 1152921504606846976") (bytes "1152921504606846976"))
    as H2.
  { split; [no_nl | reflexivity]. }
  split; [exact H1|]. split; [reflexivity|]. split; [exact H2|]. split; [reflexivity|].
  split; [left; unfold sliceSize; lia|].
  apply (huge_dimension_panics AsWritten MakeEsriGrid false (bytes "ncols 1")
           (bytes "nrows 1152921504606846976") (bytes "1") (bytes "1152921504606846976")
           1 1152921504606846976);
    [exact H1 | reflexivity | exact H2 | reflexivity | left; unfold sliceSize; lia].
Defined.

(** Two samples written to the one cell of [grid1] with the comparison of
    line 162 in place: both lie between the extrema. *)
Lemma SetHeight_as_meant_bounds_witness :
  minHeightSet grid1 = false /\ maxHeightSet grid1 = false
  /\ Forall (fun c => c.1.1 < nrows grid1 /\ c.1.2 < ncols grid1 /\ is_nan c.2 = false)
       [(0, 0, ofZ 5); (0, 0, ofZ 2)]
  /\ SetHeights AsMeant grid1 [(0, 0, ofZ 5); (0, 0, ofZ 2)]
     = Return (with_maxHeight (with_minHeight (with_height grid1 [[ofZ 2]]) (ofZ 2) true)
                 (ofZ 5) true)
  /\ fle (ofZ 2) (ofZ 5) = true.
Proof.
  assert (Forall (fun c => c.1.1 < nrows grid1 /\ c.1.2 < ncols grid1 /\ is_nan c.2 = false)
            [(0, 0, ofZ 5); (0, 0, ofZ 2)]) as Hcalls.
  { repeat (apply List.Forall_cons || apply List.Forall_nil); simpl; (split; [lia|]);
      (split; [lia | reflexivity]). }
  assert (SetHeights AsMeant grid1 [(0, 0, ofZ 5); (0, 0, ofZ 2)]
          = Return (with_maxHeight (with_minHeight (with_height grid1 [[ofZ 2]]) (ofZ 2) true)
                      (ofZ 5) true)) as Hset by (vm_compute; reflexivity).
  split; [reflexivity|]. split; [reflexivity|]. split; [exact Hcalls|].
  split; [exact Hset|].
  exact (proj2 (SetHeight_as_meant_bounds grid1 _ _ eq_refl eq_refl Hcalls Hset)
           eq_refl eq_refl).
Defined.

(** * The demonstration program *)

Section DemonstrationFacts.

Context `{Scan : Sscanf} `{Run : Runtime} `{Conv : Conversion}.

Lemma fsub_same h : finite h = true -> fsub h h = S754_zero false.
Proof.
  destruct h as [s| | |s m e]; try done.
  - by destruct s.
  - intros _. unfold fsub, SFsub. rewrite Z.min_id. unfold shl_align.
    rewrite Z.sub_diag. simpl fst. by rewrite ?Z.sub_diag.
Qed.

(** The lowest value is painted white.  For a floor that is a number and a
    ceiling whose distance from it is neither zero nor a NaN, [shade] gives
    255 for a height equal to the floor. *)
Theorem shade_of_floor (floor ceiling : float32) :
  finite floor = true -> nonzero (fsub ceiling floor) = true ->
  shade floor ceiling floor = 255.
Proof.
  intros Hfloor Hrange. unfold shade. cbv zeta. rewrite (fsub_same _ Hfloor).
  destruct (fsub ceiling floor) as [s|s| |s m e]; try done.
Qed.

(** A grid without a range has no shades of its own.  When the ceiling
    is not above the floor but equal to it (a grid whose samples are all
    the same, or extrema that were never set), [shade] divides by zero: the
    quotient is an infinity or a NaN for every height, [uint8] cannot
    represent it, and the shade is 255 minus a value that the language
    leaves to the implementation. *)
Theorem shade_without_range (floor ceiling height : float32) (s : bool) :
  fsub ceiling floor = S754_zero s ->
  truncate (fdiv (fmul (fsub height floor) (float32_of_int NUMBER_OF_SHADES))
              (fsub ceiling floor)) = None
  /\ shade floor ceiling height
     = (255 - uint8_other (fdiv (fmul (fsub height floor) (float32_of_int NUMBER_OF_SHADES))
                             (fsub ceiling floor)) mod 256) mod 256.
Proof.
  intros Hzero. unfold shade, uint8. cbv zeta. rewrite Hzero.
  assert (truncate (fdiv (fmul (fsub height floor) (float32_of_int NUMBER_OF_SHADES))
                      (S754_zero s)) = None) as Hnone.
  { by destruct (fmul (fsub height floor) (float32_of_int NUMBER_OF_SHADES)). }
  by rewrite Hnone.
Qed.

Lemma RGBA_Set_Bounds img x y v : Bounds (RGBA_Set img x y v) = Bounds img.
Proof. unfold RGBA_Set. by destruct (PointIn x y (Bounds img)). Qed.

Lemma RGBA_Set_Pix img x y v x' y' :
  Pix (RGBA_Set img x y v) x' y'
  = if (x' =? x) && (y' =? y) && PointIn x y (Bounds img) then Gray v else Pix img x' y'.
Proof.
  unfold RGBA_Set. destruct (PointIn x y (Bounds img)); simpl.
  - by rewrite andb_true_r.
  - by rewrite andb_false_r.
Qed.

Lemma sample_Height pc row col h : Height pc row col = Return h -> sample pc row col = h.
Proof. unfold sample. by intros ->. Qed.

(** The loop over the columns of a row of an allocated grid. *)
Lemma paintRow_spec pc floor ceiling row : forall todo col img,
  allocated pc -> 0 <= row < nrows pc -> 0 <= col ->
  col + Z.of_nat todo <= ncols pc ->
  exists img',
    paintRow todo pc floor ceiling row col img = Return img'
    /\ Bounds img' = Bounds img
    /\ forall x y,
         Pix img' x y
         = if (y =? row) && (col <=? x) && (x <? col + Z.of_nat todo)
              && PointIn x y (Bounds img)
           then Gray (shade floor ceiling (sample pc y x))
           else Pix img x y.
Proof.
  induction todo as [|todo IH]; intros col img Halloc Hrow Hcol Hlen.
  - exists img. split; [done|]. split; [done|]. intros x y.
    destruct (Z.leb_spec col x), (Z.ltb_spec x (col + Z.of_nat 0)); try lia;
      by rewrite ?andb_false_r.
  - destruct (allocated_cell pc row col Halloc Hrow ltac:(lia)) as [h Hh].
    simpl paintRow. rewrite Hh. cbn [obind].
    destruct (IH (col + 1) (RGBA_Set img col row (shade floor ceiling h)) Halloc Hrow
                ltac:(lia) ltac:(lia)) as (img' & -> & Hb & Hpix).
    exists img'. split; [done|]. rewrite RGBA_Set_Bounds in Hb. split; [done|].
    intros x y. rewrite Hpix, RGBA_Set_Bounds, RGBA_Set_Pix.
    destruct (Z.eqb_spec y row) as [->|Hy]; simpl; [|by rewrite andb_false_r].
    rewrite andb_true_r.
    destruct (Z.eqb_spec x col) as [->|Hx]; simpl.
    + rewrite (sample_Height _ _ _ _ Hh).
      destruct (Z.leb_spec (col + 1) col); [lia|]. simpl.
      destruct (Z.leb_spec col col); [|lia].
      destruct (Z.ltb_spec col (col + Z.of_nat (S todo))); [|lia]. simpl.
      by destruct (PointIn col row (Bounds img)).
    + destruct (Z.leb_spec (col + 1) x), (Z.leb_spec col x); try lia; simpl; [|done].
      by destruct (Z.ltb_spec x (col + 1 + Z.of_nat todo)),
                  (Z.ltb_spec x (col + Z.of_nat (S todo))); try lia.
Qed.

(** The loop over the rows. *)
Lemma paintRows_spec pc floor ceiling : forall todo row img,
  allocated pc -> 0 <= row -> row + Z.of_nat todo <= nrows pc -> 0 <= ncols pc ->
  exists img',
    paintRows todo pc floor ceiling row img = Return img'
    /\ Bounds img' = Bounds img
    /\ forall x y,
         Pix img' x y
         = if (row <=? y) && (y <? row + Z.of_nat todo) && (0 <=? x) && (x <? ncols pc)
              && PointIn x y (Bounds img)
           then Gray (shade floor ceiling (sample pc y x))
           else Pix img x y.
Proof.
  induction todo as [|todo IH]; intros row img Halloc Hrow Hlen Hnc.
  - exists img. split; [done|]. split; [done|]. intros x y.
    by destruct (Z.leb_spec row y), (Z.ltb_spec y (row + Z.of_nat 0)); try lia.
  - simpl paintRows.
    destruct (paintRow_spec pc floor ceiling row (Z.to_nat (Ncols pc)) 0 img Halloc
                ltac:(lia) ltac:(lia) ltac:(unfold Ncols; lia)) as (img1 & -> & Hb1 & Hpix1).
    cbn [obind].
    destruct (IH (row + 1) img1 Halloc ltac:(lia) ltac:(lia) Hnc) as (img' & -> & Hb & Hpix).
    exists img'. split; [done|]. rewrite Hb1 in Hb. split; [done|].
    intros x y. rewrite Hpix, Hpix1, Hb1. unfold Ncols. rewrite Z2Nat.id by done.
    simpl Z.add.
    destruct (Z.eqb_spec y row) as [->|Hy].
    + destruct (Z.leb_spec (row + 1) row); [lia|]. simpl.
      destruct (Z.leb_spec row row); [|lia].
      by destruct (Z.ltb_spec row (row + Z.of_nat (S todo))); [|lia].
    + simpl.
      destruct (Z.leb_spec (row + 1) y), (Z.leb_spec row y); try lia; simpl; [|done].
      by destruct (Z.ltb_spec y (row + 1 + Z.of_nat todo)),
                  (Z.ltb_spec y (row + Z.of_nat (S todo))); try lia.
Qed.

Lemma allocated_ncols pc : allocated pc -> 0 < nrows pc -> 0 <= ncols pc.
Proof.
  intros [Hlen Hrows] Hnr. destruct (height pc) as [|r m]; [simpl in Hlen; lia|].
  apply Forall_cons in Hrows as [<- _]. lia.
Qed.

(** The picture [main] paints.  When the output file can be created and
    the grid is read without an error, [main] hands a picture to
    [png.Encode] whose bounds are [image.Rect(0, 0, nrows, ncols)]: it is
    [nrows] pixels wide and [ncols] pixels high.  The cell in row [y] and
    column [x] is painted at the point [(x, y)], with the shade of its
    sample, only if this point is in the bounds, that is if [x < nrows] and
    [y < ncols]; every other pixel is zero.  So of a grid that is not square
    only the square part is in the picture. *)
Theorem main_picture (rd : line162) (cl : CommandLine) (pc : ConcreteEsriGrid) :
  created cl = true ->
  ReadEsriGridFromFile rd MakeEsriGrid (input cl) (verbose_flag cl) = Return (pc, None) ->
  exists img,
    main rd cl = Return (Some img)
    /\ Bounds img = Rect 0 0 (Nrows pc) (Ncols pc)
    /\ forall x y,
         Pix img x y
         = if (0 <=? y) && (y <? Nrows pc) && (0 <=? x) && (x <? Ncols pc)
              && (x <? Nrows pc) && (y <? Ncols pc)
           then Gray (shade (floorOf cl pc) (ceilingOf cl pc) (sample pc y x))
           else (0, 0, 0, 0).
Proof.
  intros Hcreated Hread. unfold main. rewrite Hcreated, Hread. cbn [negb obind].
  destruct (ReadEsriGridFromFile_shape _ _ _ _ _ Hread) as [Halloc Hnr].
  cbv zeta.
  assert ((if negb (flagset cl (list_ascii_of_string "floor")
                    || flagset cl (list_ascii_of_string "f"))
           then MinHeight pc else zero32) = floorOf cl pc) as ->.
  { unfold floorOf. by destruct (_ || _). }
  assert ((if negb (flagset cl (list_ascii_of_string "ceiling")
                    || flagset cl (list_ascii_of_string "f"))
           then MaxHeight pc else zero32) = ceilingOf cl pc) as ->.
  { unfold ceilingOf. by destruct (_ || _). }
  unfold Nrows, Ncols.
  destruct (Z.eq_dec (nrows pc) 0) as [Hzero|Hpos].
  - rewrite Hzero. simpl. eexists. split; [done|]. split; [done|].
    intros x y. simpl.
    by destruct (Z.leb_spec 0 y), (Z.ltb_spec y 0); try lia.
  - pose proof (allocated_ncols pc Halloc ltac:(lia)) as Hnc.
    destruct (paintRows_spec pc (floorOf cl pc) (ceilingOf cl pc) (Z.to_nat (nrows pc)) 0
                (NewRGBA (Rect 0 0 (nrows pc) (ncols pc))) Halloc ltac:(lia) ltac:(lia) Hnc)
      as (img & -> & Hb & Hpix).
    exists img. split; [done|]. split; [done|].
    intros x y. rewrite Hpix. rewrite Z2Nat.id by done. rewrite Z.add_0_l.
    unfold Rect, PointIn.
    destruct (Z.gtb_spec 0 (nrows pc)); [lia|].
    destruct (Z.gtb_spec 0 (ncols pc)); [lia|]. simpl.
    destruct (Z.leb_spec 0 y), (Z.ltb_spec y (nrows pc)), (Z.leb_spec 0 x),
             (Z.ltb_spec x (ncols pc)), (Z.ltb_spec x (nrows pc)),
             (Z.ltb_spec y (ncols pc)); simpl; try done; lia.
Qed.

End DemonstrationFacts.

(** * The demonstration program on a file *)

(** The floor of the documentation's example is painted white. *)
Lemma shade_of_floor_witness :
  finite (ofZ 1) = true /\ nonzero (fsub (ofZ 100) (ofZ 1)) = true
  /\ shade (ofZ 1) (ofZ 100) (ofZ 1) = 255.
Proof.
  split; [reflexivity|]. split; [reflexivity|].
  apply (shade_of_floor (ofZ 1) (ofZ 100)); reflexivity.
Defined.

(** A grid whose samples are all 7, with the conversions of [zeroConversion]. *)
Lemma shade_without_range_witness :
  fsub (ofZ 7) (ofZ 7) = S754_zero false
  /\ shade (ofZ 7) (ofZ 7) (ofZ 7) = 255.
Proof.
  split; [reflexivity|].
  destruct (shade_without_range (ofZ 7) (ofZ 7) (ofZ 7) false eq_refl) as [_ Hshade].
  rewrite Hshade. reflexivity.
Defined.

(** The grid of three rows and two columns: the picture is three pixels
    wide and two high, and the third row of the grid is not in it. *)
Lemma main_picture_witness :
  created (mkCommandLine (fun _ => false) true
             (Some (unlines (map headerLine shortHeader ++ shortData))) false) = true
  /\ ReadEsriGridFromFile AsMeant MakeEsriGrid
       (Some (unlines (map headerLine shortHeader ++ shortData))) false
     = Return (mkGrid 2 3 zero32 zero32 (ofZ 50) (ofZ (-9999)) (ofZ 6) (ofZ 1)
                 [[ofZ 1; ofZ 2]; [zero32; zero32]; [ofZ 5; ofZ 6]] true true false, None)
  /\ exists img,
       main AsMeant (mkCommandLine (fun _ => false) true
                       (Some (unlines (map headerLine shortHeader ++ shortData))) false)
       = Return (Some img)
       /\ Bounds img = mkRectangle 0 0 3 2
       /\ Pix img 0 0 = Gray 255 /\ Pix img 0 2 = (0, 0, 0, 0).
Proof.
  assert (ReadEsriGridFromFile AsMeant MakeEsriGrid
            (Some (unlines (map headerLine shortHeader ++ shortData))) false
          = Return (mkGrid 2 3 zero32 zero32 (ofZ 50) (ofZ (-9999)) (ofZ 6) (ofZ 1)
              [[ofZ 1; ofZ 2]; [zero32; zero32]; [ofZ 5; ofZ 6]] true true false, None))
    as Hread by (vm_compute; reflexivity).
  split; [reflexivity|]. split; [exact Hread|].
  destruct (main_picture AsMeant
              (mkCommandLine (fun _ => false) true
                 (Some (unlines (map headerLine shortHeader ++ shortData))) false)
              _ eq_refl Hread) as (img & Hmain & Hb & Hpix).
  exists img. split; [exact Hmain|]. split; [exact Hb|].
  split; [rewrite Hpix; vm_compute; reflexivity | rewrite Hpix; reflexivity].
Defined.
